(** * SICOM report generator: a shallow embedding of [web_app.py]

    The script is a Streamlit page.  Pressing "Generate Full Report" runs one
    straight-line pipeline: read the spreadsheet, draw the chart, extract the
    PDF text, read two revenue figures, ask a language model for a summary
    and assemble a PDF.  Every step sits inside one [try] whose handler shows
    the error.

    The embedding keeps that shape.  Python strings are lists of code points,
    NumPy scalars are [int64], [uint64] or IEEE binary64 values (the latter
    through the kernel's [SpecFloat] specification, with [prec = 53] and
    [emax = 1024]; their exact values are real numbers),
    exceptions are an error type, Streamlit calls are events appended to a
    log, and what the script only asks of its libraries (the parse of a text
    cell, the chart image, the answer of the completion endpoint, the
    presence of the font files, the serialised PDF) is a field of an
    environment record, over which every theorem quantifies.

    [on_generate] is the body of [if st.button("Generate Full Report")];
    [script] is one run of the whole page around it: the title, the check
    of the API key, the two uploaders and the button.  Left out: the
    spinner, which draws on the page and decides nothing. *)

From Stdlib Require Import ZArith NArith List String Ascii Bool Lia.
From Stdlib Require Import Strings.Byte.
From Stdlib Require Decimal.
From Stdlib Require Import Floats.SpecFloat.
From Stdlib Require Import Reals Lra.
Import ListNotations.

Local Open Scope Z_scope.

(* ------------------------------------------------------------------ *)
(** ** Python strings *)

(** A Python [str] is a sequence of Unicode code points; slicing and [len]
    count code points. *)
Definition codepoint := N.
Definition pystr := list codepoint.

(** An ASCII literal of the script as a [pystr]. *)
Definition lit (s : string) : pystr := map N_of_ascii (list_ascii_of_string s).

(** [s[:n]] for a non-negative [n]. *)
Definition slice_to (n : nat) (s : pystr) : pystr := firstn n s.

Definition dquote : pystr := [34%N].
Definition newline : pystr := [10%N].

(* ------------------------------------------------------------------ *)
(** ** NumPy scalars *)

Definition f64 := spec_float.

Definition f64_prec : Z := 53.
Definition f64_emax : Z := 1024.

Definition f64_sub : f64 -> f64 -> f64 := SFsub f64_prec f64_emax.
Definition f64_div : f64 -> f64 -> f64 := SFdiv f64_prec f64_emax.
Definition f64_mul : f64 -> f64 -> f64 := SFmul f64_prec f64_emax.

(** The binary64 nearest to an integer (ties to even). *)
Definition f64_of_Z (z : Z) : f64 := binary_normalize f64_prec f64_emax z 0 false.

Definition f64_nan : f64 := S754_nan.
Definition f64_is_nan (x : f64) : bool :=
  match x with S754_nan => true | _ => false end.
Definition f64_is_zero (x : f64) : bool :=
  match x with S754_zero _ => true | _ => false end.

(** [revenue_data.iloc[i]] is a NumPy scalar whose type follows the dtype of
    the series: [numpy.int64], [numpy.uint64] or [numpy.float64]. *)
Inductive npscalar :=
| NpInt64 (z : Z)
| NpUInt64 (z : Z)
| NpFloat64 (x : f64).

Definition wrap64 (z : Z) : Z := (z + 2 ^ 63) mod 2 ^ 64 - 2 ^ 63.
Definition wrapu64 (z : Z) : Z := z mod 2 ^ 64.

Definition to_f64 (a : npscalar) : f64 :=
  match a with
  | NpInt64 z => f64_of_Z z
  | NpUInt64 z => f64_of_Z z
  | NpFloat64 x => x
  end.

(** [a - b]: integer subtraction wraps in the operands' own type, mixed
    operands (also [int64] with [uint64]) are promoted to [float64]. *)
Definition np_sub (a b : npscalar) : npscalar :=
  match a, b with
  | NpInt64 x, NpInt64 y => NpInt64 (wrap64 (x - y))
  | NpUInt64 x, NpUInt64 y => NpUInt64 (wrapu64 (x - y))
  | _, _ => NpFloat64 (f64_sub (to_f64 a) (to_f64 b))
  end.

(** [a / b] is NumPy's true division: both operands go to [float64] and the
    quotient is the IEEE 754 one.  A zero divisor gives an infinity or a
    NaN; NumPy signals it with a [RuntimeWarning], not with an exception
    (Python's [ZeroDivisionError] belongs to [int] and [float] operands,
    which [iloc] never returns). *)
Definition np_truediv (a b : npscalar) : npscalar :=
  NpFloat64 (f64_div (to_f64 a) (to_f64 b)).

(** [a * k] for a Python [int] literal [k].  The script only multiplies the
    [float64] that [np_truediv] returns. *)
Definition np_mul_int (a : npscalar) (k : Z) : npscalar :=
  match a with
  | NpInt64 x => NpInt64 (wrap64 (x * k))
  | NpUInt64 x => NpUInt64 (wrapu64 (x * k))
  | NpFloat64 x => NpFloat64 (f64_mul x (f64_of_Z k))
  end.

Definition np_is_nan (a : npscalar) : bool :=
  match a with NpFloat64 x => f64_is_nan x | _ => false end.

Definition np_is_zero (a : npscalar) : bool :=
  match a with
  | NpFloat64 x => f64_is_zero x
  | NpInt64 z | NpUInt64 z => z =? 0
  end.

(* ------------------------------------------------------------------ *)
(** ** Format specifications [,.0f] and [.2f] *)

Fixpoint uint_chars (u : Decimal.uint) : pystr :=
  match u with
  | Decimal.Nil => []
  | Decimal.D0 u => 48%N :: uint_chars u
  | Decimal.D1 u => 49%N :: uint_chars u
  | Decimal.D2 u => 50%N :: uint_chars u
  | Decimal.D3 u => 51%N :: uint_chars u
  | Decimal.D4 u => 52%N :: uint_chars u
  | Decimal.D5 u => 53%N :: uint_chars u
  | Decimal.D6 u => 54%N :: uint_chars u
  | Decimal.D7 u => 55%N :: uint_chars u
  | Decimal.D8 u => 56%N :: uint_chars u
  | Decimal.D9 u => 57%N :: uint_chars u
  end.

Definition digits_of_Z (z : Z) : pystr := uint_chars (N.to_uint (Z.to_N z)).

(** Nearest integer to [num / den] for [den > 0], ties to even. *)
Definition round_half_even (num den : Z) : Z :=
  let q := num / den in
  let r := num mod den in
  match 2 * r ?= den with
  | Lt => q
  | Gt => q + 1
  | Eq => if Z.even q then q else q + 1
  end.

(** [m * 2^e * 10^p] rounded to an integer: the digits of the fixed-point
    rendering with [p] decimals. *)
Definition scaled_digits (p : nat) (m : positive) (e : Z) : Z :=
  if 0 <=? e
  then Zpos m * 2 ^ e * 10 ^ Z.of_nat p
  else round_half_even (Zpos m * 10 ^ Z.of_nat p) (2 ^ (- e)).

Definition zero_char : codepoint := 48%N.
Definition comma_char : codepoint := 44%N.

(** Left-pad a digit string with zeros up to [n] characters. *)
Definition pad_zeros (n : nat) (ds : pystr) : pystr :=
  repeat zero_char (n - List.length ds) ++ ds.

(** Thousands separators, working on the reversed integer digits. *)
Fixpoint commas_rev (i : nat) (ds : pystr) : pystr :=
  match ds with
  | [] => []
  | d :: rest =>
      if andb (Nat.ltb 0 i) (Nat.eqb (i mod 3) 0)
      then comma_char :: d :: commas_rev (S i) rest
      else d :: commas_rev (S i) rest
  end.

Definition group_thousands (ds : pystr) : pystr := rev (commas_rev 0 (rev ds)).

Definition sign_str (s : bool) : pystr := if s then lit "-" else [].

(** Fixed-point text of the scaled integer [n] with [p] decimals. *)
Definition fixed_text (comma : bool) (p : nat) (n : Z) : pystr :=
  let ds := pad_zeros (S p) (digits_of_Z n) in
  let k := (List.length ds - p)%nat in
  let ip := firstn k ds in
  let fp := skipn k ds in
  (if comma then group_thousands ip else ip)
    ++ (match p with O => [] | S _ => lit "." ++ fp end).

(** [format(x, ',.pf')] / [format(x, '.pf')] for a [float]. *)
Definition format_f64 (comma : bool) (p : nat) (x : f64) : pystr :=
  match x with
  | S754_nan => lit "nan"
  | S754_infinity s => sign_str s ++ lit "inf"
  | S754_zero s => sign_str s ++ fixed_text comma p 0
  | S754_finite s m e => sign_str s ++ fixed_text comma p (scaled_digits p m e)
  end.

(** NumPy routes [__format__] of an integer scalar through Python's [int],
    whose [f] presentation converts to [float] first. *)
Definition np_format (comma : bool) (p : nat) (a : npscalar) : pystr :=
  format_f64 comma p (to_f64 a).

(* ------------------------------------------------------------------ *)
(** ** Exceptions, events and the pipeline monad *)

Inductive exn :=
| ValueError            (* pandas: no workbook, worksheet or header row *)
| KeyError              (* pandas: label not found in an axis *)
| IndexError            (* positional index out of bounds *)
| TypeError             (* pandas: [to_numeric] on a frame *)
| FileNotFoundError     (* fpdf2: font file not found; Streamlit: no secrets file *)
| UnicodeEncodingError  (* fpdf2: text outside the core fonts' Latin-1 *)
| FontError             (* fpdf2: [set_font] on an unknown font *)
| LibraryError (who : string).  (* any other failure of a called library *)

Inductive result (A : Type) :=
| Ok (a : A)
| Err (e : exn).
Arguments Ok {A} a.
Arguments Err {A} e.

(** The stages of a run, one per component.  The log records the entry of
    each where the script starts its work: [Intake] at the check of the two
    uploaders (line 66), [Normalize] at step 3 (line 76), [RenderChart] at
    step 4 (line 91), [ExtractText] at step 5 (line 106), [DeriveMetrics] at
    the two positional reads (lines 115-116), [GenerateNarrative] at the
    entry of [generate_summary] (line 28), [AssembleReport] at step 7
    (line 120), [Ready] at step 8 (line 152). *)
Inductive stage :=
| Intake | Normalize | RenderChart | ExtractText
| DeriveMetrics | GenerateNarrative | AssembleReport | Ready.

Definition stage_eqb (a b : stage) : bool :=
  match a, b with
  | Intake, Intake | Normalize, Normalize | RenderChart, RenderChart
  | ExtractText, ExtractText | DeriveMetrics, DeriveMetrics
  | GenerateNarrative, GenerateNarrative | AssembleReport, AssembleReport
  | Ready, Ready => true
  | _, _ => false
  end.

(** The request [client.chat.completions.create] receives. *)
Record request := {
  model : string;
  messages : list (string * pystr);   (* role, content *)
  temperature : f64
}.

(** Calls on the Streamlit page. *)
Inductive st_call :=
| StWrite (msg : string)
| StError (msg : string)
| StErrorOccurred (e : exn)     (* [st.error(f"An error occurred: {e}")] *)
| StException (e : exn)
| StSuccess (msg : string)
| StBalloons
| StDownloadButton (label : string) (data : list byte)
                   (file_name : string) (mime : string).

(** Calls into the libraries that do the work of a component. *)
Inductive lib_call :=
| PdReadExcel
| PltBarChart (revenue_data : list npscalar)
| FitzOpen
| ChatCompletionsCreate (req : request)
| FpdfAddFont (fname : string)
| FpdfOutput.

Inductive event :=
| Ui (c : st_call)
| Lib (c : lib_call)
| Enter (s : stage).

Definition log := list event.

(** A computation appends to the log and returns a value or raises. *)
Definition M (A : Type) : Type := log * result A.

Definition ret {A} (a : A) : M A := ([], Ok a).
Definition raise {A} (e : exn) : M A := ([], Err e).
Definition emit (ev : event) : M unit := ([ev], Ok tt).
Definition lift {A} (r : result A) : M A := ([], r).

Definition bind {A B} (m : M A) (f : A -> M B) : M B :=
  match m with
  | (l1, Ok a) => let (l2, r) := f a in (l1 ++ l2, r)
  | (l1, Err e) => (l1, Err e)
  end.

Declare Scope pipeline_scope.
Delimit Scope pipeline_scope with pipeline.
Notation "x <- m ;; k" := (bind m (fun x => k))
  (at level 100, m at next level, right associativity) : pipeline_scope.
Notation "m ;; k" := (bind m (fun _ => k))
  (at level 100, right associativity) : pipeline_scope.

Definition st_write (msg : string) : M unit := emit (Ui (StWrite msg)).
Definition st_error (msg : string) : M unit := emit (Ui (StError msg)).
Definition enter (s : stage) : M unit := emit (Enter s).
Definition called (c : lib_call) : M unit := emit (Lib c).

Definition ui_log (l : log) : list st_call :=
  flat_map (fun ev => match ev with Ui c => [c] | _ => [] end) l.
Definition lib_log (l : log) : list lib_call :=
  flat_map (fun ev => match ev with Lib c => [c] | _ => [] end) l.
Definition stage_log (l : log) : list stage :=
  flat_map (fun ev => match ev with Enter s => [s] | _ => [] end) l.

(** Position of the first occurrence of a stage in a run. *)
Fixpoint stage_index (s : stage) (l : list stage) : option nat :=
  match l with
  | [] => None
  | x :: r => if stage_eqb s x then Some O
              else option_map S (stage_index s r)
  end.

(** [a] is entered, and before any entry of [b]. *)
Definition happens_before (a b : stage) (l : list stage) : Prop :=
  match stage_index a l, stage_index b l with
  | Some i, Some j => (i < j)%nat
  | _, _ => False
  end.

(* ------------------------------------------------------------------ *)
(** ** The uploaded files *)

(** A cell as pandas receives it from the spreadsheet reader (dates and
    booleans, which a revenue row does not hold, are left out). *)
Inductive cell :=
| CInt (z : Z)        (* numeric cell with an integral value: a Python [int] *)
| CFloat (x : f64)    (* any other numeric cell: a Python [float] *)
| CText (s : pystr)
| CBlank.             (* empty cell, read as NaN *)

(** A sheet is its grid of cells, row by row (the reader pads rows to one
    width); a workbook lists its sheets by name. *)
Definition sheet := list (list cell).
Definition workbook := list (pystr * sheet).

Inductive xlsx_file :=
| BadXlsx                  (* not a readable workbook *)
| Xlsx (wb : workbook).

Inductive pdf_file :=
| BadPdf                   (* not a readable PDF *)
| Pdf (pages : list pystr).  (* [page.get_text()] of each page, in order *)

Definition pystr_eqb (a b : pystr) : bool :=
  if list_eq_dec N.eq_dec a b then true else false.

(** [label == name] for a row label and a [str]. *)
Definition label_is (name : pystr) (c : cell) : bool :=
  match c with
  | CText s => pystr_eqb s name
  | _ => false
  end.

Fixpoint find_sheet (name : pystr) (wb : workbook) : option sheet :=
  match wb with
  | [] => None
  | (n, sh) :: rest => if pystr_eqb n name then Some sh else find_sheet name rest
  end.

(* ------------------------------------------------------------------ *)
(** ** A small model of the [FPDF] object *)

Inductive font_style := Regular | Bold.

Definition font_style_eqb (a b : font_style) : bool :=
  match a, b with
  | Regular, Regular | Bold, Bold => true
  | _, _ => false
  end.

Record font := {
  family : string;
  style : font_style;
  size : Z
}.

Inductive pdf_item :=
| Cell (f : font) (text : pystr)          (* [cell(0, 10, text, ln=True, align='C')] *)
| MultiCell (f : font) (text : pystr)     (* [multi_cell(0, 5, text)] *)
| Ln (h : Z)
| Image (data : list byte) (x w : Z).

(** [pages_added] counts the script's own [add_page] calls; fpdf2 starts
    further pages by itself where the text or the image does not fit
    (automatic page breaks), which is not modelled. *)
Record fpdf := {
  ttf_fonts : list (string * font_style);
  pages_added : nat;
  current_font : option font;
  items : list pdf_item
}.

Definition FPDF : fpdf :=
  {| ttf_fonts := []; pages_added := 0; current_font := None; items := [] |}.

(** The built-in family the script falls back to. *)
Definition core_font (fam : string) : bool := String.eqb fam "Arial".

(** Text set in a built-in font is encoded to Latin-1. *)
Definition latin1 (text : pystr) : bool := forallb (fun c => (c <? 256)%N) text.

Definition add_page (pdf : fpdf) : fpdf :=
  {| ttf_fonts := ttf_fonts pdf; pages_added := S (pages_added pdf);
     current_font := current_font pdf; items := items pdf |}.

Definition has_ttf (pdf : fpdf) (fam : string) (st : font_style) : bool :=
  existsb (fun f => andb (String.eqb (fst f) fam) (font_style_eqb (snd f) st))
          (ttf_fonts pdf).

Definition set_font (pdf : fpdf) (fam : string) (st : font_style) (sz : Z)
  : result fpdf :=
  if orb (core_font fam) (has_ttf pdf fam st)
  then Ok {| ttf_fonts := ttf_fonts pdf; pages_added := pages_added pdf;
             current_font := Some {| family := fam; style := st; size := sz |};
             items := items pdf |}
  else Err FontError.

Definition push_item (pdf : fpdf) (it : pdf_item) : fpdf :=
  {| ttf_fonts := ttf_fonts pdf; pages_added := pages_added pdf;
     current_font := current_font pdf; items := items pdf ++ [it] |}.

(** Shared by [cell] and [multi_cell]: a font must be set, and under a
    built-in font the text must encode to Latin-1. *)
Definition put_text (mk : font -> pystr -> pdf_item) (pdf : fpdf) (text : pystr)
  : result fpdf :=
  match current_font pdf with
  | None => Err FontError
  | Some f =>
      if andb (core_font (family f)) (negb (latin1 text))
      then Err UnicodeEncodingError
      else Ok (push_item pdf (mk f text))
  end.

Definition pdf_magic : list byte := [x25; x50; x44; x46; x2d].  (* %PDF- *)

(* ------------------------------------------------------------------ *)
(** ** The environment: what the called libraries answer *)

Record env := {
  (** pandas' parser of a text cell under [to_numeric]. *)
  str_to_number : pystr -> option npscalar;
  (** matplotlib: the bar chart of the series as PNG bytes. *)
  render_bar_chart : list npscalar -> result (list byte);
  (** OpenAI: the [content] (a string) of each returned choice, in order. *)
  chat_completion : request -> result (list pystr);
  (** The working directory: is the font file there? *)
  font_file_exists : string -> bool;
  (** fpdf2: the bytes [output()] writes after the [%PDF-] marker. *)
  pdf_tail : fpdf -> list byte
}.

Definition add_font (E : env) (pdf : fpdf) (fam : string) (st : font_style)
           (fname : string) : result fpdf :=
  if font_file_exists E fname
  then Ok {| ttf_fonts := ttf_fonts pdf ++ [(fam, st)];
             pages_added := pages_added pdf;
             current_font := current_font pdf; items := items pdf |}
  else Err FileNotFoundError.

Definition output (E : env) (pdf : fpdf) : list byte := pdf_magic ++ pdf_tail E pdf.

(* ------------------------------------------------------------------ *)
(** ** pandas: numbers, dtypes, [read_excel], [drop], [loc], [to_numeric] *)

Definition in_int64 (z : Z) : bool := andb (- 2 ^ 63 <=? z) (z <? 2 ^ 63).
Definition in_uint64 (z : Z) : bool := andb (0 <=? z) (z <? 2 ^ 64).

(** The NumPy value pandas keeps for a Python [int]: an [int64] where it
    fits, a [uint64] above that, the nearest [float64] outside both. *)
Definition number_of_Z (z : Z) : npscalar :=
  if in_int64 z then NpInt64 z
  else if in_uint64 z then NpUInt64 z
  else NpFloat64 (f64_of_Z z).

(** The number a cell converts to, [None] when the conversion fails.  An
    empty cell already is NaN. *)
Definition coerce_cell (E : env) (c : cell) : option npscalar :=
  match c with
  | CInt z => Some (number_of_Z z)
  | CFloat x => Some (NpFloat64 x)
  | CText s =>
      match str_to_number E s with
      | Some (NpInt64 z) | Some (NpUInt64 z) => Some (number_of_Z z)
      | r => r
      end
  | CBlank => Some (NpFloat64 f64_nan)
  end.

(** A cell that fails coercion becomes the missing-value marker NaN. *)
Definition or_nan (o : option npscalar) : npscalar :=
  match o with Some a => a | None => NpFloat64 f64_nan end.

(** What the conversion has seen in an array. *)
Definition is_int (o : option npscalar) : bool :=
  match o with Some (NpInt64 _) => true | _ => false end.
Definition is_uint (o : option npscalar) : bool :=
  match o with Some (NpUInt64 _) => true | _ => false end.
Definition is_negative (o : option npscalar) : bool :=
  match o with Some (NpInt64 z) => z <? 0 | _ => false end.
Definition is_floating (o : option npscalar) : bool :=
  match o with Some (NpFloat64 _) | None => true | _ => false end.
Definition is_null (o : option npscalar) : bool :=
  match o with Some (NpFloat64 x) => f64_is_nan x | _ => false end.

Inductive dtype := Int64 | UInt64 | Float64 | Object.

Definition dtype_eqb (a b : dtype) : bool :=
  match a, b with
  | Int64, Int64 | UInt64, UInt64 | Float64, Float64 | Object, Object => true
  | _, _ => false
  end.

(** A value as an element of an array of dtype [dt]. *)
Definition cast (dt : dtype) (a : npscalar) : npscalar :=
  match dt with
  | Float64 => NpFloat64 (to_f64 a)
  | UInt64 => match a with NpInt64 z => NpUInt64 z | _ => a end
  | _ => a
  end.

(** The dtype of a converted array: [float64] as soon as a float, a NaN or
    a failed cell is there, or a negative integer next to one above
    [int64]; [uint64] when some integer lies above [int64]; [int64]
    otherwise. *)
Definition numeric_dtype (vs : list (option npscalar)) : dtype :=
  if orb (existsb is_floating vs)
         (andb (existsb is_uint vs) (existsb is_negative vs))
  then Float64
  else if existsb is_uint vs then UInt64
  else Int64.

(** [pd.to_numeric(cells, errors='coerce')] on an array of Python objects. *)
Definition to_numeric_cells (E : env) (cells : list cell) : list npscalar :=
  let vs := map (coerce_cell E) cells in
  map (fun o => cast (numeric_dtype vs) (or_nan o)) vs.

(** The texts [read_excel] reads as missing values (pandas' default
    [na_values]; the empty string is [CBlank]). *)
Definition na_values : list string :=
  ["-1.#IND"; "1.#QNAN"; "1.#IND"; "-1.#QNAN"; "#N/A N/A"; "#N/A"; "N/A";
   "n/a"; "NA"; "<NA>"; "#NA"; "NULL"; "null"; "NaN"; "-NaN"; "nan"; "-nan";
   "None"]%string.

Definition is_na (s : pystr) : bool :=
  existsb (fun n => pystr_eqb s (lit n)) na_values.

Definition sanitize (c : cell) : cell :=
  match c with
  | CText s => if is_na s then CBlank else c
  | _ => c
  end.

(** [read_excel] converts without [errors='coerce']: a text that is no
    number, or an integer text outside [int64] and [uint64], stops the
    conversion of its column. *)
Definition unreadable (E : env) (c : cell) : bool :=
  match c with
  | CText s =>
      match str_to_number E s with
      | None => true
      | Some (NpInt64 z) | Some (NpUInt64 z) =>
          negb (orb (in_int64 z) (in_uint64 z))
      | Some (NpFloat64 _) => false
      end
  | _ => false
  end.

(** The dtype [read_excel] gives a column.  The column stays an array of
    Python objects when a cell stops the conversion, and when an integer
    above [int64] meets a missing value or a negative integer (no numeric
    dtype holds both without loss). *)
Definition column_dtype (E : env) (cells : list cell) : dtype :=
  let cs := map sanitize cells in
  let vs := map (coerce_cell E) cs in
  if existsb (unreadable E) cs then Object
  else if andb (existsb is_uint vs)
               (orb (existsb is_null vs) (existsb is_negative vs))
  then Object
  else numeric_dtype vs.

(** A cell as its column of dtype [dt] stores it.  (Where an integer above
    [int64] met a missing value pandas leaves the NA texts of the column
    as they are; they read as NaN below either way.) *)
Definition store (E : env) (dt : dtype) (c : cell) : cell :=
  match dt with
  | Object => sanitize c
  | Float64 => CFloat (to_f64 (or_nan (coerce_cell E (sanitize c))))
  | Int64 | UInt64 =>
      match coerce_cell E (sanitize c) with
      | Some (NpInt64 z) | Some (NpUInt64 z) => CInt z
      | _ => sanitize c
      end
  end.

Fixpoint store_row (E : env) (kinds : list dtype) (cells : list cell)
  : list cell :=
  match cells with
  | [] => []
  | c :: cs =>
      match kinds with
      | k :: ks => store E k c :: store_row E ks cs
      | [] => store E Object c :: store_row E [] cs
      end
  end.

(** Column [j] of the data rows; a short row counts as blank there. *)
Definition column (j : nat) (body : list (list cell)) : list cell :=
  map (fun r => nth j r CBlank) body.

(** The dtypes of the columns under [header], from the rows below it. *)
Definition column_dtypes (E : env) (header : list cell)
           (data : list (list cell)) : list dtype :=
  map (fun j => column_dtype E (column j (map (@tl cell) data)))
      (seq 0 (List.length (tl header))).

(** The frame after [read_excel]: the column labels (unique, pandas renames
    blank and repeated headers), the dtype of each column and the rows with
    their index label. *)
Record dataframe := {
  columns : list cell;
  dtypes : list dtype;
  rows : list (cell * list cell)
}.

(** [pd.read_excel(f, sheet_name=name, header=3, index_col=0)]: rows 0-2 are
    skipped, row 3 holds the column labels, column 0 holds the row labels,
    and every other column gets its dtype from the rows below the header. *)
Definition read_excel (E : env) (f : xlsx_file) (name : pystr)
  : result dataframe :=
  match f with
  | BadXlsx => Err ValueError
  | Xlsx wb =>
      match find_sheet name wb with
      | None => Err ValueError
      | Some [] => Ok {| columns := []; dtypes := []; rows := [] |}
      | Some sh =>
          match skipn 3 sh with
          | [] => Err ValueError
          | header :: data =>
              let kinds := column_dtypes E header data in
              Ok {| columns := tl header;
                    dtypes := kinds;
                    rows := map (fun r => (hd CBlank r,
                                           store_row E kinds (tl r))) data |}
          end
      end
  end.

(** [df.drop(df.columns[0], axis=1)]. *)
Definition drop_first_column (df : dataframe) : result dataframe :=
  match columns df with
  | [] => Err IndexError
  | _ :: cols =>
      Ok {| columns := cols;
            dtypes := tl (dtypes df);
            rows := map (fun r => (fst r, tl (snd r))) (rows df) |}
  end.

(** [df.drop(name)]: every row with that label goes; none is a [KeyError]. *)
Definition drop_row (name : pystr) (df : dataframe) : result dataframe :=
  if existsb (fun r => label_is name (fst r)) (rows df)
  then Ok {| columns := columns df;
             dtypes := dtypes df;
             rows := filter (fun r => negb (label_is name (fst r))) (rows df) |}
  else Err KeyError.

(** The dtype of a row taken across the columns: theirs when they agree,
    [float64] for different numeric ones, Python objects as soon as one
    column holds objects. *)
Definition common_dtype (kinds : list dtype) : dtype :=
  if existsb (dtype_eqb Object) kinds then Object
  else match kinds with
       | [] => Object
       | k :: ks => if forallb (dtype_eqb k) ks then k else Float64
       end.

(** [df.loc[name]] is a series for one matching row, a frame for several. *)
Inductive loc_result :=
| LocSeries (dt : dtype) (cells : list cell)
| LocFrame (matching : list (list cell)).

Definition loc (name : pystr) (df : dataframe) : result loc_result :=
  match filter (fun r => label_is name (fst r)) (rows df) with
  | [] => Err KeyError
  | [r] => Ok (LocSeries (common_dtype (dtypes df)) (snd r))
  | rs => Ok (LocFrame (map snd rs))
  end.

(** [pd.to_numeric(arg, errors='coerce')]: a series of objects is
    converted, a numeric series is returned as it is, a frame is refused. *)
Definition to_numeric (E : env) (arg : loc_result) : result (list npscalar) :=
  match arg with
  | LocSeries Object cells => Ok (to_numeric_cells E cells)
  | LocSeries dt cells =>
      Ok (map (fun c => cast dt (or_nan (coerce_cell E c))) cells)
  | LocFrame _ => Err TypeError
  end.

(** [s.iloc[i]]: a negative [i] counts from the end. *)
Definition iloc {A} (s : list A) (i : Z) : result A :=
  let n := Z.of_nat (List.length s) in
  let j := if i <? 0 then n + i else i in
  if andb (0 <=? j) (j <? n)
  then match nth_error s (Z.to_nat j) with
       | Some a => Ok a
       | None => Err IndexError
       end
  else Err IndexError.

(* ------------------------------------------------------------------ *)
(** ** The real numbers behind the scalars *)

(** [2^e] as a real number. *)
Definition bpow (e : Z) : R := powerRZ 2 e.

Definition sign_R (s : bool) : R := if s then (-1)%R else 1%R.

(** The real number a finite binary64 value stands for (0 for the zeros; the
    infinities and NaN stand for none and are given 0). *)
Definition f64_value (x : f64) : R :=
  match x with
  | S754_finite s m e => (sign_R s * (IZR (Zpos m) * bpow e))%R
  | _ => 0%R
  end.

Definition f64_is_number (x : f64) : bool :=
  match x with
  | S754_zero _ | S754_finite _ _ _ => true
  | _ => false
  end.

(** The exact value of a NumPy scalar. *)
Definition np_value (a : npscalar) : R :=
  match a with
  | NpInt64 z | NpUInt64 z => IZR z
  | NpFloat64 x => f64_value x
  end.

(** [a] is within the relative distance [e] of [b]. *)
Definition close (e a b : R) : Prop := (Rabs (a - b) <= e * Rabs b)%R.

(** [g] is a normal binary64 number within half a unit in the last place
    of [v]. *)
Definition rounds_to (g : f64) (v : R) : Prop :=
  exists s m e,
    g = S754_finite s m e
    /\ 2 ^ 52 <= Zpos m < 2 ^ 53
    /\ (Rabs (f64_value g - v) <= bpow (-53) * Rabs v)%R.

(** What the round and sticky bits of a shifted mantissa say of the real
    [y] it came from. *)
Definition inb (y : R) (mrs : shr_record) : Prop :=
  match shr_r mrs, shr_s mrs with
  | false, false => y = IZR (shr_m mrs)
  | false, true => (IZR (shr_m mrs) < y < IZR (shr_m mrs) + / 2)%R
  | true, false => y = (IZR (shr_m mrs) + / 2)%R
  | true, true => (IZR (shr_m mrs) + / 2 < y < IZR (shr_m mrs) + 1)%R
  end.

(** The binary64 value of the literal [100]. *)
Definition hundred : f64 := S754_finite false 7036874417766400 (-46).

(** A finite, non-zero binary64 number of magnitude below [2^500], with no
    bit below [2^-500]. *)
Definition moderate (x : f64) : bool :=
  match x with
  | S754_finite _ m e => andb (-500 <=? e) (Zpos (digits2_pos m) + e <=? 500)
  | _ => false
  end.

(** The two figures on which the growth is a number and no operation
    leaves its range: integers of one dtype with a non-zero base and a
    difference inside the dtype, or floats of moderate magnitude (the latest
    may be zero). *)
Definition growth_defined (latest previous : npscalar) : bool :=
  match latest, previous with
  | NpInt64 a, NpInt64 b =>
      andb (andb (in_int64 a) (in_int64 b))
           (andb (in_int64 (a - b)) (negb (b =? 0)))
  | NpUInt64 a, NpUInt64 b =>
      andb (andb (in_uint64 a) (in_uint64 b))
           (andb (b <=? a) (negb (b =? 0)))
  | NpFloat64 x, NpFloat64 y =>
      andb (orb (moderate x) (f64_is_zero x)) (moderate y)
  | _, _ => false
  end.

(* ------------------------------------------------------------------ *)
(** ** [generate_summary] *)

Local Open Scope pipeline_scope.

(** [((latest_revenue - previous_revenue) / previous_revenue) * 100]. *)
Definition revenue_growth (latest_revenue previous_revenue : npscalar) : npscalar :=
  np_mul_int
    (np_truediv (np_sub latest_revenue previous_revenue) previous_revenue) 100.

(** The literal parts of the f-string, between its replacement fields. *)
Definition prompt_intro : pystr :=
  newline
  ++ lit "You are a professional financial analyst for SICOM." ++ newline
  ++ lit "The latest quarterly revenue is ".

Definition prompt_previous : pystr :=
  lit "." ++ newline
  ++ lit "The revenue for the same quarter last year was ".

Definition prompt_growth : pystr :=
  lit "." ++ newline
  ++ lit "This represents a ".

Definition prompt_alert : pystr :=
  lit "The quarterly data also shows a significant negative revenue of -1,388.1M in Q3 2016."
  ++ newline
  ++ lit "Flag this in your analysis as a " ++ dquote ++ lit "Data Integrity Alert"
  ++ dquote
  ++ lit " and advise that it appears to be a data-entry error in the source file."
  ++ newline.

Definition prompt_task : pystr :=
  lit "Analyze the following text from the financial report and provide a brief summary"
  ++ newline
  ++ lit "of key performance indicators, risks, and outlook." ++ newline
  ++ newline
  ++ lit "Text:" ++ newline.

Definition prompt_text_limit : nat := 4000.

(** The f-string, with its four replacement fields. *)
Definition build_prompt (text_from_pdf : pystr)
           (latest_revenue previous_revenue revenue_growth : npscalar) : pystr :=
  prompt_intro
  ++ np_format true 0 latest_revenue
  ++ prompt_previous
  ++ np_format true 0 previous_revenue
  ++ prompt_growth
  ++ np_format false 2 revenue_growth
  ++ lit "% change." ++ newline
  ++ newline
  ++ prompt_alert
  ++ newline
  ++ prompt_task
  ++ slice_to prompt_text_limit text_from_pdf
  ++ newline.

(** The Python literal [0.5]. *)
Definition temperature_half : f64 := S754_finite false 4503599627370496 (-53).

Definition summary_request (prompt : pystr) : request :=
  {| model := "gpt-4o";
     messages := [("user"%string, prompt)];
     temperature := temperature_half |}.

(** [response.choices[0].message.content]. *)
Definition first_choice (choices : list pystr) : result pystr := iloc choices 0.

Definition generate_summary (E : env) (text_from_pdf : pystr)
           (latest_revenue previous_revenue : npscalar) : M pystr :=
  enter GenerateNarrative ;;
  st_write "Checkpoint A: Entered generate_summary function." ;;
  let revenue_growth := revenue_growth latest_revenue previous_revenue in
  let prompt :=
    build_prompt text_from_pdf latest_revenue previous_revenue revenue_growth in
  st_write "Checkpoint B: Connecting to OpenAI API..." ;;
  called (ChatCompletionsCreate (summary_request prompt)) ;;
  choices <- lift (chat_completion E (summary_request prompt)) ;;
  st_write "Checkpoint C: Received response from OpenAI API." ;;
  lift (first_choice choices).

(* ------------------------------------------------------------------ *)
(** ** The pipeline under the button *)

Definition sheet_name : pystr := lit "Income Statement".
Definition subheader_label : pystr := lit "3 Months Ending".
Definition revenue_label : pystr := lit "Net Revenue".

(** [read_excel] and the two [drop]s: the frame as it stands at
    "Checkpoint 5.2". *)
Definition load_and_clean (E : env) (excel_file : xlsx_file)
  : result dataframe :=
  match read_excel E excel_file sheet_name with
  | Err e => Err e
  | Ok df =>
      match drop_first_column df with
      | Err e => Err e
      | Ok df => drop_row subheader_label df
      end
  end.

(** Step 3 of the script: load and clean the sheet, coerce the revenue row. *)
Definition normalize (E : env) (excel_file : xlsx_file) : M (list npscalar) :=
  enter Normalize ;;
  st_write "Checkpoint 5: Loading and cleaning Excel file." ;;
  called PdReadExcel ;;
  df <- lift (load_and_clean E excel_file) ;;
  st_write "Checkpoint 5.2: Excel sheet cleaned successfully." ;;
  row <- lift (loc revenue_label df) ;;
  revenue_data <- lift (to_numeric E row) ;;
  st_write "Checkpoint 5.5: Revenue data prepared." ;;
  ret revenue_data.

(** Step 4: the bar chart, saved to a memory buffer. *)
Definition render_chart (E : env) (revenue_data : list npscalar) : M (list byte) :=
  enter RenderChart ;;
  st_write "Checkpoint 6: Generating chart." ;;
  called (PltBarChart revenue_data) ;;
  img_buffer <- lift (render_bar_chart E revenue_data) ;;
  st_write "Checkpoint 6.1: Chart saved to memory." ;;
  ret img_buffer.

(** [fitz.open(stream=..., filetype="pdf")]. *)
Definition fitz_open (f : pdf_file) : result (list pystr) :=
  match f with
  | BadPdf => Err (LibraryError "fitz")
  | Pdf pages => Ok pages
  end.

(** The loop [for page in doc: text_content += page.get_text()], started
    from the empty string. *)
Definition join_pages (doc : list pystr) : pystr :=
  fold_left (fun text_content page => text_content ++ page) doc [].

(** Step 5: the text of every page, concatenated. *)
Definition extract_text (pdf : pdf_file) : M pystr :=
  enter ExtractText ;;
  st_write "Checkpoint 7: Extracting text from PDF." ;;
  called FitzOpen ;;
  doc <- lift (fitz_open pdf) ;;
  let text_content := join_pages doc in
  st_write "Checkpoint 7.1: PDF text extracted." ;;
  ret text_content.

(** Step 6, first half: the two positional reads. *)
Definition select_revenues (revenue_data : list npscalar) : M (npscalar * npscalar) :=
  enter DeriveMetrics ;;
  latest_rev <- lift (iloc revenue_data (-1)) ;;
  previous_rev <- lift (iloc revenue_data (-5)) ;;
  ret (latest_rev, previous_rev).

Definition font_warning : string :=
  "Font files (DejaVuSans.ttf, DejaVuSans-Bold.ttf) not found. Falling back to Arial, which may cause errors with special characters.".

(** The [except FileNotFoundError] clause around the two [add_font] calls;
    what the [try] body already did to [pdf] stays done. *)
Definition font_fallback (pdf : fpdf) (e : exn) : M (fpdf * string) :=
  match e with
  | FileNotFoundError => st_error font_warning ;; ret (pdf, "Arial"%string)
  | _ => raise e
  end.

Definition choose_font (E : env) (pdf : fpdf) : M (fpdf * string) :=
  called (FpdfAddFont "DejaVuSans.ttf") ;;
  match add_font E pdf "DejaVu" Regular "DejaVuSans.ttf" with
  | Err e => font_fallback pdf e
  | Ok pdf1 =>
      called (FpdfAddFont "DejaVuSans-Bold.ttf") ;;
      match add_font E pdf1 "DejaVu" Bold "DejaVuSans-Bold.ttf" with
      | Err e => font_fallback pdf1 e
      | Ok pdf2 => ret (pdf2, "DejaVu"%string)
      end
  end.

(** Step 7: title, narrative and chart on one document. *)
Definition assemble_report (E : env) (summary : pystr) (img_buffer : list byte)
  : M fpdf :=
  enter AssembleReport ;;
  st_write "Checkpoint 8: Generating PDF report..." ;;
  let pdf := FPDF in
  pf <- choose_font E pdf ;;
  let '(pdf, font_family) := pf in
  let pdf := add_page pdf in
  pdf <- lift (set_font pdf font_family Bold 16) ;;
  pdf <- lift (put_text Cell pdf (lit "SICOM Financial Analysis")) ;;
  pdf <- lift (set_font pdf font_family Regular 11) ;;
  pdf <- lift (put_text MultiCell pdf summary) ;;
  let pdf := push_item pdf (Ln 10) in
  let pdf := push_item pdf (Image img_buffer 10 190) in
  st_write "Checkpoint 9: PDF report finished." ;;
  ret pdf.

(** Step 8: success banner and the download button. *)
Definition deliver (E : env) (pdf : fpdf) : M unit :=
  enter Ready ;;
  emit (Ui (StSuccess "--- Report finished successfully! ---")) ;;
  emit (Ui StBalloons) ;;
  called FpdfOutput ;;
  emit (Ui (StDownloadButton "Download SICOM_Report.pdf" (output E pdf)
                             "SICOM_Report.pdf" "application/pdf")).

(** The body of the [try].  Building the client (line 72) asks nothing of
    the network; its checkpoint opens the log. *)
Definition pipeline (E : env) (excel_file : xlsx_file) (pdf_file : pdf_file)
  : M unit :=
  st_write "Checkpoint 4: OpenAI client initialized successfully." ;;
  revenue_data <- normalize E excel_file ;;
  img_buffer <- render_chart E revenue_data ;;
  text_content <- extract_text pdf_file ;;
  revs <- select_revenues revenue_data ;;
  summary <- generate_summary E text_content (fst revs) (snd revs) ;;
  pdf <- assemble_report E summary img_buffer ;;
  deliver E pdf.

(** [except Exception as e]: the error is shown, nothing else happens. *)
Definition handle (m : M unit) : log :=
  match m with
  | (l, Ok _) => l
  | (l, Err e) => l ++ [Ui (StErrorOccurred e); Ui (StException e)]
  end.

Definition missing_files_message : string :=
  "Please make sure both files are uploaded before generating the report.".

(** What a press of "Generate Full Report" does, given the two uploaders. *)
Definition on_generate (E : env) (excel_file : option xlsx_file)
           (pdf_file : option pdf_file) : log :=
  Enter Intake ::
  match excel_file, pdf_file with
  | Some x, Some p => handle (pipeline E x p)
  | _, _ => [Ui (StError missing_files_message)]
  end.

(** A run is successful when it offers the download. *)
Definition offers_download (l : log) : bool :=
  existsb (fun c => match c with StDownloadButton _ _ _ _ => true | _ => false end)
          (ui_log l).

(** The three logs [normalize] can leave: stopped while loading and
    cleaning, stopped while preparing the revenue row, or done. *)
Definition normalize_log_load : log :=
  [Enter Normalize;
   Ui (StWrite "Checkpoint 5: Loading and cleaning Excel file.");
   Lib PdReadExcel].
Definition normalize_log_clean : log :=
  normalize_log_load
  ++ [Ui (StWrite "Checkpoint 5.2: Excel sheet cleaned successfully.")].
Definition normalize_log_done : log :=
  normalize_log_clean ++ [Ui (StWrite "Checkpoint 5.5: Revenue data prepared.")].

(** Did the handler show its error box, "An error occurred: ..."?  (The
    font warning, the other [st.error] of the pipeline, is [warning_shown].) *)
Definition error_shown (l : log) : bool :=
  existsb (fun c => match c with StErrorOccurred _ => true | _ => false end)
          (ui_log l).

(** Did the handler print the traceback ([st.exception])? *)
Definition exception_shown (l : log) : bool :=
  existsb (fun c => match c with StException _ => true | _ => false end)
          (ui_log l).

(** A sheet row as it stands in the cleaned frame, given the dtypes of the
    columns: its label, and its cells as their columns store them, without
    the label column and the first data column. *)
Definition cleaned (E : env) (kinds : list dtype) (r : list cell)
  : cell * list cell :=
  (hd CBlank r, tl (store_row E kinds (tl r))).
Definition is_subheader (r : list cell) : bool :=
  label_is subheader_label (hd CBlank r).
Definition is_revenue (r : list cell) : bool :=
  label_is revenue_label (hd CBlank r).

(** Was the completion endpoint called? *)
Definition completion_called (l : log) : bool :=
  existsb (fun c => match c with ChatCompletionsCreate _ => true | _ => false end)
          (lib_log l).

(** Was the chart drawn? *)
Definition chart_called (l : log) : bool :=
  existsb (fun c => match c with PltBarChart _ => true | _ => false end)
          (lib_log l).

(* ------------------------------------------------------------------ *)
(** ** Sample inputs *)

Module Sample.

(** The income-statement sheet of a workbook whose revenue row holds
    [cells]: three title rows, the header row, the sub-header row and the
    revenue row, each with the label column and one leading data column. *)
Definition income_statement (cells : list cell) : sheet :=
  [ CText (lit "CIM Financials") :: CBlank :: map (fun _ => CBlank) cells;
    CBlank :: CBlank :: map (fun _ => CBlank) cells;
    CBlank :: CBlank :: map (fun _ => CBlank) cells;
    CBlank :: CText (lit "Currency") :: map (fun _ => CText (lit "Quarter")) cells;
    CText (lit "3 Months Ending") :: CBlank :: map (fun _ => CText (lit "Mar")) cells;
    CText (lit "Net Revenue") :: CText (lit "MUR") :: cells ].

Definition workbook_of (cells : list cell) : xlsx_file :=
  Xlsx [(lit "Income Statement", income_statement cells)].

Definition report : pdf_file := Pdf [lit "Revenue rose. "; lit "Outlook stable."].

Definition png : list byte := [x89; x50; x4e; x47].

(** Every library answers; the narrative is [narrative]. *)
Definition env_with (fonts : bool) (narrative : pystr) : env :=
  {| str_to_number := fun _ => None;
     render_bar_chart := fun _ => Ok png;
     chat_completion := fun _ => Ok [narrative];
     font_file_exists := fun _ => fonts;
     pdf_tail := fun _ => [x31; x2e; x33] |}.

Definition plain : env := env_with true (lit "Revenue grew.").

(** A narrative with a right single quotation mark, U+2019. *)
Definition curly : pystr := lit "SICOM" ++ [8217%N] ++ lit "s revenue grew.".

(** Six quarters of integral revenue; the last is 50% above the one four
    places before it. *)
Definition growing : list cell := map CInt [1000; 1100; 1200; 1300; 1400; 1650].
Definition growing_series : list npscalar :=
  map NpInt64 [1000; 1100; 1200; 1300; 1400; 1650].

(** The same with a zero four places before the last. *)
Definition zero_base : list cell := map CInt [900; 0; 1200; 1300; 1400; 1650].
Definition zero_base_series : list npscalar :=
  map NpInt64 [900; 0; 1200; 1300; 1400; 1650].

(** Only four quarters. *)
Definition four_quarters : list cell := map CInt [1200; 1300; 1400; 1650].
Definition four_quarters_series : list npscalar :=
  map NpInt64 [1200; 1300; 1400; 1650].

(** A text cell that is no number four places before the last. *)
Definition unparsed : list cell :=
  [CInt 900; CText (lit "n/a"); CInt 1200; CInt 1300; CInt 1400; CInt 1650].
Definition unparsed_series : list npscalar :=
  map NpFloat64
      [f64_of_Z 900; f64_nan; f64_of_Z 1200; f64_of_Z 1300; f64_of_Z 1400;
       f64_of_Z 1650].

(** Workbooks that miss the sheet, the sub-header row, the revenue row. *)
Definition title_rows : sheet :=
  [ [CText (lit "CIM Financials"); CBlank; CBlank; CBlank];
    [CBlank; CBlank; CBlank; CBlank];
    [CBlank; CBlank; CBlank; CBlank] ].
Definition header_row : list cell :=
  [CBlank; CText (lit "Currency"); CText (lit "Q1"); CText (lit "Q2")].
Definition subheader_row : list cell :=
  [CText (lit "3 Months Ending"); CBlank; CText (lit "Mar"); CText (lit "Jun")].
Definition revenue_row : list cell :=
  [CText (lit "Net Revenue"); CText (lit "MUR"); CInt 1200; CText (lit "n/a")].

(** A revenue row with an integer, a float (1250.5), an empty cell, an NA
    text and a text that is no number, under text sub-headers. *)
Definition mixed_header : list cell :=
  [CBlank; CText (lit "Currency"); CText (lit "Q1"); CText (lit "Q2");
   CText (lit "Q3"); CText (lit "Q4"); CText (lit "Q5")].
Definition mixed_subheader : list cell :=
  [CText (lit "3 Months Ending"); CBlank; CText (lit "Mar"); CText (lit "Jun");
   CText (lit "Sep"); CText (lit "Dec"); CText (lit "Mar")].
Definition mixed_row : list cell :=
  [CText (lit "Net Revenue"); CText (lit "MUR"); CInt 1200;
   CFloat (S754_finite false 5499757162135552 (-42)); CBlank;
   CText (lit "n/a"); CText (lit "pending")].
Definition mixed : workbook :=
  [(lit "Income Statement",
    [[CText (lit "CIM Financials")]; []; []; mixed_header; mixed_subheader;
     mixed_row])].

(** Revenue cells under an empty sub-header row: pandas reads the two
    columns as [float64] columns. *)
Definition blank_subheader : workbook :=
  [(lit "Income Statement",
    [[CText (lit "CIM Financials")]; []; [];
     [CBlank; CText (lit "Currency"); CText (lit "Q1"); CText (lit "Q2")];
     [CText (lit "3 Months Ending"); CBlank; CBlank; CBlank];
     [CText (lit "Net Revenue"); CText (lit "MUR"); CInt 1200; CInt 1300]])].

(** A row of non-negative integers, one of them above [int64]. *)
Definition huge : list cell := map CInt [5; 2 ^ 63; 7].

Definition complete : workbook :=
  [(lit "Income Statement",
    title_rows ++ [header_row; subheader_row; revenue_row])].
Definition other_sheet : workbook :=
  [(lit "Balance Sheet",
    title_rows ++ [header_row; subheader_row; revenue_row])].
Definition no_subheader : workbook :=
  [(lit "Income Statement", title_rows ++ [header_row; revenue_row])].
Definition no_revenue : workbook :=
  [(lit "Income Statement", title_rows ++ [header_row; subheader_row])].

End Sample.

(* ------------------------------------------------------------------ *)
(** ** The page around the button *)











(* ------------------------------------------------------------------ *)
(** ** Observations on a log *)

Definition success_shown (l : log) : bool :=
  existsb (fun c => match c with StSuccess _ => true | _ => false end)
          (ui_log l).

Definition warning_shown (l : log) : bool :=
  existsb (fun c => match c with StError _ => true | _ => false end)
          (ui_log l).

(** How many requests went to the completion endpoint. *)
Definition completion_count (l : log) : nat :=
  List.length
    (filter (fun c => match c with ChatCompletionsCreate _ => true | _ => false end)
            (lib_log l)).

Definition not_comma (c : codepoint) : bool := negb (N.eqb c comma_char).

(** The text with its thousands separators deleted. *)
Definition strip_commas (s : pystr) : pystr := filter not_comma s.

(** The font family a report is set in, given the two font files. *)
Definition report_family (E : env) : string :=
  if andb (font_file_exists E "DejaVuSans.ttf")
          (font_file_exists E "DejaVuSans-Bold.ttf")
  then "DejaVu" else "Arial".

(** The four things [assemble_report] puts on the page. *)
Definition report_items (fam : string) (summary : pystr) (img : list byte)
  : list pdf_item :=
  [Cell {| family := fam; style := Bold; size := 16 |}
        (lit "SICOM Financial Analysis");
   MultiCell {| family := fam; style := Regular; size := 11 |} summary;
   Ln 10;
   Image img 10 190].

Definition report_button (E : env) (pdf : fpdf) : st_call :=
  StDownloadButton "Download SICOM_Report.pdf" (output E pdf)
                   "SICOM_Report.pdf" "application/pdf".

Module Cases.



(** Two reports that agree on their first 4000 characters and differ after:
    one page of 4000 letters followed by a different last page. *)
Definition long_page : pystr := repeat 97%N 4000.
Definition report_a : list pystr := [long_page; lit "Outlook stable."].
Definition report_b : list pystr := [long_page; lit "Outlook poor."; lit "Annex."].

(** A sheet with two rows labelled "Net Revenue". *)
Definition twice : workbook :=
  [(lit "Income Statement",
    Sample.title_rows
      ++ [Sample.header_row; Sample.subheader_row; Sample.revenue_row;
          Sample.revenue_row])].

(** An environment whose chart step fails. *)
Definition no_chart : env :=
  {| str_to_number := fun _ => None;
     render_bar_chart := fun _ => Err (LibraryError "matplotlib");
     chat_completion := fun _ => Ok [lit "Revenue grew."];
     font_file_exists := fun _ => true;
     pdf_tail := fun _ => [x31; x2e; x33] |}.

(** Environments whose completion endpoint fails, and answers nothing. *)
Definition no_service : env :=
  {| str_to_number := fun _ => None;
     render_bar_chart := fun _ => Ok Sample.png;
     chat_completion := fun _ => Err (LibraryError "openai");
     font_file_exists := fun _ => true;
     pdf_tail := fun _ => [x31; x2e; x33] |}.
Definition no_choice : env :=
  {| str_to_number := fun _ => None;
     render_bar_chart := fun _ => Ok Sample.png;
     chat_completion := fun _ => Ok [];
     font_file_exists := fun _ => true;
     pdf_tail := fun _ => [x31; x2e; x33] |}.

End Cases.

(* ------------------------------------------------------------------ *)
(** ** The format specifications on known values *)

Example format_thousands :
  np_format true 0 (NpInt64 1234567) = lit "1,234,567".
Proof. reflexivity. Qed.

Example format_small_negative :
  np_format true 0 (NpInt64 (-999)) = lit "-999".
Proof. reflexivity. Qed.

(** 0.125 is a tie between 0.12 and 0.13 and goes to the even digit. *)
Example format_tie_to_even :
  format_f64 false 2 (f64_div (f64_of_Z 1) (f64_of_Z 8)) = lit "0.12".
Proof. reflexivity. Qed.

(** The binary64 nearest to 2.675 lies below it. *)
Example format_exact_binary_value :
  format_f64 false 2 (f64_div (f64_of_Z 2675) (f64_of_Z 1000)) = lit "2.67".
Proof. reflexivity. Qed.

Example format_keeps_sign_of_zero :
  format_f64 true 0 (f64_div (f64_of_Z (-1)) (f64_of_Z 1000)) = lit "-0".
Proof. reflexivity. Qed.

Example format_growth_fifty :
  np_format false 2 (revenue_growth (NpInt64 1650) (NpInt64 1100)) = lit "50.00".
Proof. reflexivity. Qed.

(* ------------------------------------------------------------------ *)
(** ** Running the monad *)

Section MonadFacts.

Context {A B : Type}.

Lemma fst_bind (m : M A) (f : A -> M B) :
  fst (bind m f)
  = fst m ++ match snd m with Ok a => fst (f a) | Err _ => [] end.
Proof.
  destruct m as [l [a|e]]; simpl.
  - destruct (f a); reflexivity.
  - now rewrite app_nil_r.
Qed.

Lemma bind_ok l a (f : A -> M B) :
  bind (l, Ok a) f = (l ++ fst (f a), snd (f a)).
Proof. simpl. destruct (f a); reflexivity. Qed.

End MonadFacts.

Lemma lib_log_app l1 l2 : lib_log (l1 ++ l2) = lib_log l1 ++ lib_log l2.
Proof. apply flat_map_app. Qed.

(* ------------------------------------------------------------------ *)
(** ** Positional reads *)

Lemma iloc_last {A} (s : list A) a :
  nth_error s (List.length s - 1) = Some a -> iloc s (-1) = Ok a.
Proof.
  intros H. unfold iloc.
  assert (Hn : (List.length s - 1 < List.length s)%nat)
    by (apply nth_error_Some; congruence).
  replace (-1 <? 0) with true by reflexivity.
  replace (Z.to_nat (Z.of_nat (List.length s) + -1)) with (List.length s - 1)%nat by lia.
  rewrite H.
  destruct (0 <=? Z.of_nat (List.length s) + -1) eqn:H1;
    destruct (Z.of_nat (List.length s) + -1 <? Z.of_nat (List.length s)) eqn:H2;
    simpl; try reflexivity; lia.
Qed.

Lemma iloc_fifth_last {A} (s : list A) a :
  (5 <= List.length s)%nat ->
  nth_error s (List.length s - 1 - 4) = Some a -> iloc s (-5) = Ok a.
Proof.
  intros Hn H. unfold iloc.
  replace (-5 <? 0) with true by reflexivity.
  replace (Z.to_nat (Z.of_nat (List.length s) + -5))
    with (List.length s - 1 - 4)%nat by lia.
  rewrite H.
  destruct (0 <=? Z.of_nat (List.length s) + -5) eqn:H1;
    destruct (Z.of_nat (List.length s) + -5 <? Z.of_nat (List.length s)) eqn:H2;
    simpl; try reflexivity; lia.
Qed.

Lemma iloc_short {A} (s : list A) :
  (List.length s < 5)%nat -> iloc s (-5) = Err IndexError.
Proof.
  intros Hn. unfold iloc.
  replace (-5 <? 0) with true by reflexivity.
  destruct (0 <=? Z.of_nat (List.length s) + -5) eqn:H1; [lia|reflexivity].
Qed.

Lemma iloc_total {A} (s : list A) i :
  (exists a, iloc s i = Ok a) \/ iloc s i = Err IndexError.
Proof.
  unfold iloc. destruct (andb _ _); [|now right].
  destruct (nth_error _ _); [left; eauto | now right].
Qed.

(* ------------------------------------------------------------------ *)
(** ** What each step logs *)

Arguments build_prompt : simpl never.
Arguments lit : simpl never.
Arguments output : simpl never.

Lemma normalize_cases E x :
  (exists rd, normalize E x = (normalize_log_done, Ok rd))
  \/ (exists e, normalize E x = (normalize_log_load, Err e))
  \/ (exists e, normalize E x = (normalize_log_clean, Err e)).
Proof.
  unfold normalize.
  destruct (load_and_clean E x) as [df|e]; [|right; left; exists e; reflexivity].
  cbn -[loc to_numeric].
  destruct (loc revenue_label df) as [row|e]; [|right; right; exists e; reflexivity].
  cbn -[to_numeric].
  destruct (to_numeric E row) as [rd|e].
  - left. exists rd. reflexivity.
  - right. right. exists e. reflexivity.
Qed.

Arguments iloc : simpl never.
Arguments loc : simpl never.
Arguments to_numeric : simpl never.
Arguments load_and_clean : simpl never.
Arguments normalize : simpl never.
Arguments latin1 : simpl never.

Lemma title_latin1 : latin1 (lit "SICOM Financial Analysis") = true.
Proof. reflexivity. Qed.


Lemma render_chart_run E rd :
  render_chart E rd
  = match render_bar_chart E rd with
    | Ok img =>
        ([Enter RenderChart; Ui (StWrite "Checkpoint 6: Generating chart.");
          Lib (PltBarChart rd);
          Ui (StWrite "Checkpoint 6.1: Chart saved to memory.")], Ok img)
    | Err e =>
        ([Enter RenderChart; Ui (StWrite "Checkpoint 6: Generating chart.");
          Lib (PltBarChart rd)], Err e)
    end.
Proof. unfold render_chart. now destruct (render_bar_chart E rd). Qed.

Lemma extract_text_run pages :
  extract_text (Pdf pages)
  = ([Enter ExtractText; Ui (StWrite "Checkpoint 7: Extracting text from PDF.");
      Lib FitzOpen; Ui (StWrite "Checkpoint 7.1: PDF text extracted.")],
     Ok (join_pages pages)).
Proof. reflexivity. Qed.

Lemma select_revenues_run rd :
  select_revenues rd
  = match iloc rd (-1), iloc rd (-5) with
    | Ok latest, Ok previous => ([Enter DeriveMetrics], Ok (latest, previous))
    | Ok _, Err e => ([Enter DeriveMetrics], Err e)
    | Err e, _ => ([Enter DeriveMetrics], Err e)
    end.
Proof.
  unfold select_revenues.
  destruct (iloc rd (-1)); cbn; [|reflexivity].
  now destruct (iloc rd (-5)).
Qed.

Lemma generate_summary_run E text latest previous :
  let req := summary_request (build_prompt text latest previous
                              (revenue_growth latest previous)) in
  let before :=
    [Enter GenerateNarrative;
     Ui (StWrite "Checkpoint A: Entered generate_summary function.");
     Ui (StWrite "Checkpoint B: Connecting to OpenAI API...");
     Lib (ChatCompletionsCreate req)] in
  generate_summary E text latest previous
  = match chat_completion E req with
    | Ok choices =>
        (before ++ [Ui (StWrite "Checkpoint C: Received response from OpenAI API.")],
         first_choice choices)
    | Err e => (before, Err e)
    end.
Proof.
  unfold generate_summary. cbn.
  destruct (chat_completion E _) as [choices|e]; [|reflexivity].
  cbn. now destruct (first_choice choices).
Qed.

Lemma lib_log_handle m : lib_log (handle m) = lib_log (fst m).
Proof.
  destruct m as [l [u|e]]; simpl; [reflexivity|].
  rewrite lib_log_app. simpl. now rewrite app_nil_r.
Qed.

(** A run whose spreadsheet, chart and PDF steps succeed and whose two
    positional reads succeed calls the completion endpoint, fourth among the
    library calls, with the prompt built from those two values. *)
Lemma pipeline_sends_prompt E x pages rd img latest previous :
  snd (normalize E x) = Ok rd ->
  render_bar_chart E rd = Ok img ->
  iloc rd (-1) = Ok latest ->
  iloc rd (-5) = Ok previous ->
  exists rest,
    lib_log (on_generate E (Some x) (Some (Pdf pages)))
    = [PdReadExcel; PltBarChart rd; FitzOpen;
       ChatCompletionsCreate
         (summary_request
            (build_prompt (join_pages pages) latest previous
                          (revenue_growth latest previous)))]
      ++ rest.
Proof.
  intros Hn Hc Hl Hp.
  unfold on_generate. cbn [lib_log flat_map app].
  change (flat_map _ ?l) with (lib_log l).
  rewrite lib_log_handle.
  unfold pipeline.
  destruct (normalize_cases E x) as [[rd' H]|[[e H]|[e H]]];
    rewrite H in Hn |- *; simpl in Hn; try discriminate.
  injection Hn as ->.
  rewrite fst_bind. cbn [st_write emit fst snd].
  rewrite bind_ok. cbn [fst].
  rewrite render_chart_run, Hc, bind_ok. cbn [fst].
  rewrite extract_text_run, bind_ok. cbn [fst].
  rewrite select_revenues_run, Hl, Hp, bind_ok. cbn [fst snd].
  rewrite fst_bind, generate_summary_run.
  destruct (chat_completion E _) as [choices|e];
    cbn [fst snd]; rewrite !lib_log_app; cbn; eexists; reflexivity.
Qed.

(* ------------------------------------------------------------------ *)
(** ** Arithmetic on the two revenue figures *)

Lemma f64_of_Z_100 : f64_of_Z 100 = S754_finite false 7036874417766400 (-46).
Proof. reflexivity. Qed.

Lemma to_f64_zero previous :
  np_is_zero previous = true -> exists s, to_f64 previous = S754_zero s.
Proof.
  destruct previous as [z|z|x]; simpl.
  - intros H. apply Z.eqb_eq in H. subst z. now exists false.
  - intros H. apply Z.eqb_eq in H. subst z. now exists false.
  - destruct x; try discriminate. intros _. now exists s.
Qed.

Lemma f64_div_by_zero x s :
  f64_div x (S754_zero s) = S754_nan
  \/ exists s', f64_div x (S754_zero s) = S754_infinity s'.
Proof. destruct x; simpl; eauto. Qed.

Lemma f64_mul_inf_100 s : f64_mul (S754_infinity s) (f64_of_Z 100) = S754_infinity s.
Proof. rewrite f64_of_Z_100. simpl. now rewrite xorb_false_r. Qed.

Lemma f64_div_nan_r x : f64_div x S754_nan = S754_nan.
Proof. now destruct x. Qed.

Lemma np_is_nan_inv a : np_is_nan a = true -> a = NpFloat64 S754_nan.
Proof. destruct a as [z|z|x]; simpl; try discriminate. now destruct x. Qed.

(** With a zero divisor the growth is a NaN or an infinity. *)
Lemma revenue_growth_zero latest previous :
  np_is_zero previous = true ->
  revenue_growth latest previous = NpFloat64 S754_nan
  \/ exists s, revenue_growth latest previous = NpFloat64 (S754_infinity s).
Proof.
  intros Hz. destruct (to_f64_zero _ Hz) as [s Hs].
  unfold revenue_growth, np_truediv. rewrite Hs. simpl.
  destruct (f64_div_by_zero (to_f64 (np_sub latest previous)) s) as [H|[s' H]];
    rewrite H.
  - left. reflexivity.
  - right. exists s'. now rewrite f64_mul_inf_100.
Qed.

(** A NaN on either side makes the growth a NaN. *)
Lemma revenue_growth_nan latest previous :
  np_is_nan latest = true \/ np_is_nan previous = true ->
  revenue_growth latest previous = NpFloat64 S754_nan.
Proof.
  unfold revenue_growth, np_truediv.
  intros [H|H]; apply np_is_nan_inv in H; subst.
  - replace (to_f64 (np_sub (NpFloat64 S754_nan) previous)) with S754_nan
      by now destruct previous.
    reflexivity.
  - cbn [to_f64]. now rewrite f64_div_nan_r.
Qed.

(** The growth field of the prompt, with its label and its percent sign. *)
Lemma prompt_growth_field text latest previous :
  exists before after,
    build_prompt text latest previous (revenue_growth latest previous)
    = before ++ lit "This represents a "
      ++ np_format false 2 (revenue_growth latest previous)
      ++ lit "% change." ++ after.
Proof.
  unfold build_prompt, prompt_growth.
  exists (prompt_intro ++ np_format true 0 latest ++ prompt_previous
          ++ np_format true 0 previous ++ lit "." ++ newline).
  exists (newline ++ newline ++ prompt_alert ++ newline ++ prompt_task
          ++ slice_to prompt_text_limit text ++ newline).
  rewrite <- !app_assoc. reflexivity.
Qed.

(* ------------------------------------------------------------------ *)
(** ** Rounding: each IEEE operation of the growth is within half a unit in
    the last place *)

Lemma bpow_pos e : (0 < bpow e)%R.
Proof. apply powerRZ_lt. lra. Qed.

Lemma bpow_add a b : bpow (a + b) = (bpow a * bpow b)%R.
Proof. apply powerRZ_add. lra. Qed.

Lemma bpow_IZR e : 0 <= e -> bpow e = IZR (2 ^ e).
Proof.
  destruct e as [|p|p]; [reflexivity| |lia]. intros _.
  unfold bpow. now rewrite <- Zpower_pos_powerRZ.
Qed.

Lemma bpow_ge_1 e : 0 <= e -> (1 <= bpow e)%R.
Proof.
  intros H. rewrite bpow_IZR by exact H. apply IZR_le.
  pose proof (Z.pow_pos_nonneg 2 e ltac:(lia) H). lia.
Qed.

Lemma bpow_le a b : a <= b -> (bpow a <= bpow b)%R.
Proof.
  intros H. replace b with (a + (b - a)) by lia. rewrite bpow_add.
  pose proof (bpow_pos a). pose proof (bpow_ge_1 (b - a) ltac:(lia)). nra.
Qed.

Lemma bpow_1 : bpow 1 = 2%R.
Proof. unfold bpow. simpl. lra. Qed.

Lemma bpow_0 : bpow 0 = 1%R.
Proof. reflexivity. Qed.

Lemma bpow_lt a b : a < b -> (bpow a < bpow b)%R.
Proof.
  intros H. replace b with (a + 1 + (b - a - 1)) by lia.
  rewrite !bpow_add, bpow_1.
  pose proof (bpow_pos a). pose proof (bpow_le 0 (b - a - 1) ltac:(lia)) as H1.
  rewrite bpow_0 in H1. nra.
Qed.

Lemma bpow_lt_inv a b : (bpow a < bpow b)%R -> a < b.
Proof.
  intros H. destruct (Z_lt_le_dec a b) as [Hab|Hab]; [exact Hab|].
  apply bpow_le in Hab. lra.
Qed.

Lemma bpow_le_inv a b : (bpow a <= bpow b)%R -> a <= b.
Proof.
  intros H. destruct (Z_le_gt_dec a b) as [Hab|Hab]; [exact Hab|].
  assert (b < a) by lia. apply bpow_lt in H0. lra.
Qed.

Lemma bpow_opp a : bpow (- a) = (/ bpow a)%R.
Proof. apply powerRZ_neg'. Qed.

Lemma bpow_sub a b : bpow (a - b) = (bpow a / bpow b)%R.
Proof. unfold Z.sub, Rdiv. now rewrite bpow_add, bpow_opp. Qed.

(** Digits of a mantissa *)
Lemma digits2_pos_bounds m :
  2 ^ (Zpos (digits2_pos m) - 1) <= Zpos m < 2 ^ Zpos (digits2_pos m).
Proof.
  induction m as [m IH|m IH|]; cbn [digits2_pos].
  - rewrite Pos2Z.inj_succ. change (Zpos m~1) with (2 * Zpos m + 1).
    replace (Z.succ (Zpos (digits2_pos m)) - 1)
      with (Z.succ (Zpos (digits2_pos m) - 1)) by lia.
    rewrite !Z.pow_succ_r by lia. lia.
  - rewrite Pos2Z.inj_succ. change (Zpos m~0) with (2 * Zpos m).
    replace (Z.succ (Zpos (digits2_pos m)) - 1)
      with (Z.succ (Zpos (digits2_pos m) - 1)) by lia.
    rewrite !Z.pow_succ_r by lia. lia.
  - simpl. lia.
Qed.

Lemma digits2_pos_unique m k :
  2 ^ (k - 1) <= Zpos m < 2 ^ k -> Zpos (digits2_pos m) = k.
Proof.
  intros [Hl Hu]. pose proof (digits2_pos_bounds m) as [Hl' Hu'].
  assert (0 < k).
  { destruct (Z_lt_le_dec 0 k); [assumption|].
    assert (2 ^ k <= 1).
    { destruct (Z.eq_dec k 0) as [->|]; [simpl; lia|].
      rewrite Z.pow_neg_r by lia. lia. }
    lia. }
  destruct (Z.lt_trichotomy (Zpos (digits2_pos m)) k) as [Hlt|[Heq|Hgt]];
    [|exact Heq|].
  - assert (2 ^ Zpos (digits2_pos m) <= 2 ^ (k - 1))
      by (apply Z.pow_le_mono_r; lia). lia.
  - assert (2 ^ k <= 2 ^ (Zpos (digits2_pos m) - 1))
      by (apply Z.pow_le_mono_r; lia). lia.
Qed.

Lemma inb_bounds y mrs :
  inb y mrs -> (IZR (shr_m mrs) <= y < IZR (shr_m mrs) + 1)%R.
Proof. unfold inb. destruct (shr_r mrs), (shr_s mrs); lra. Qed.

Lemma shr_1_inb y mrs :
  0 <= shr_m mrs -> inb y mrs ->
  inb (y / 2) (shr_1 mrs) /\ 0 <= shr_m (shr_1 mrs).
Proof.
  destruct mrs as [m r s]. cbn [shr_m]. intros Hm H.
  destruct m as [|p|p]; [| |lia].
  - unfold inb in *; cbn in *. destruct r, s; cbn; split; try lia; lra.
  - destruct p as [p|p|]; unfold inb in *; cbn [shr_1 shr_m shr_r shr_s] in *.
    + change (Zpos p~1) with (2 * Zpos p + 1) in H.
      rewrite plus_IZR, mult_IZR in H.
      destruct r, s; cbn; split; try lia; lra.
    + change (Zpos p~0) with (2 * Zpos p) in H.
      rewrite mult_IZR in H.
      destruct r, s; cbn; split; try lia; lra.
    + destruct r, s; cbn; split; try lia; lra.
Qed.

Lemma iter_pos_shr_1_inb p : forall y mrs,
  0 <= shr_m mrs -> inb y mrs ->
  inb (y / bpow (Zpos p)) (SpecFloat.iter_pos shr_1 p mrs)
  /\ 0 <= shr_m (SpecFloat.iter_pos shr_1 p mrs).
Proof.
  induction p as [p IH|p IH|]; intros y mrs Hm H; cbn [SpecFloat.iter_pos].
  - destruct (shr_1_inb y mrs Hm H) as [H1 Hm1].
    destruct (IH _ _ Hm1 H1) as [H2 Hm2].
    destruct (IH _ _ Hm2 H2) as [H3 Hm3].
    split; [|exact Hm3].
    replace (y / bpow (Zpos p~1))%R with (y / 2 / bpow (Zpos p) / bpow (Zpos p))%R;
      [exact H3|].
    replace (Zpos p~1) with (1 + Zpos p + Zpos p) by lia.
    rewrite !bpow_add, bpow_1. pose proof (bpow_pos (Zpos p)). field. lra.
  - destruct (IH _ _ Hm H) as [H2 Hm2].
    destruct (IH _ _ Hm2 H2) as [H3 Hm3].
    split; [|exact Hm3].
    replace (y / bpow (Zpos p~0))%R with (y / bpow (Zpos p) / bpow (Zpos p))%R;
      [exact H3|].
    replace (Zpos p~0) with (Zpos p + Zpos p) by lia.
    rewrite !bpow_add. pose proof (bpow_pos (Zpos p)). field. lra.
  - rewrite bpow_1. now apply shr_1_inb.
Qed.

Lemma shr_inb y mrs e n :
  0 <= n -> 0 <= shr_m mrs -> inb y mrs ->
  inb (y / bpow n) (fst (shr mrs e n))
  /\ 0 <= shr_m (fst (shr mrs e n))
  /\ snd (shr mrs e n) = e + n.
Proof.
  intros Hn Hm H. destruct n as [|p|p]; [| |lia]; cbn [shr fst snd].
  - rewrite bpow_0. replace (y / 1)%R with y by lra. repeat split; auto; lia.
  - destruct (iter_pos_shr_1_inb p y mrs Hm H). repeat split; auto.
Qed.

Lemma inb_of_loc_exact m : inb (IZR m) (shr_record_of_loc m loc_Exact).
Proof. reflexivity. Qed.

Lemma round_nearest_even_inb y mrs :
  inb y mrs ->
  let m1 := round_nearest_even (shr_m mrs) (loc_of_shr_record mrs) in
  (m1 = shr_m mrs \/ m1 = shr_m mrs + 1)
  /\ (Rabs (IZR m1 - y) <= / 2)%R.
Proof.
  destruct mrs as [m r s]. unfold inb. cbn.
  destruct r, s; cbn; intros H.
  - split; [now right|]. rewrite plus_IZR. apply Rabs_le. lra.
  - destruct (Z.even m); (split; [auto|]); rewrite ?plus_IZR; apply Rabs_le; lra.
  - split; [now left|]. apply Rabs_le. lra.
  - split; [now left|]. apply Rabs_le. lra.
Qed.

Lemma shr_m_of_loc m l : shr_m (shr_record_of_loc m l) = m.
Proof. now destruct l as [|[]]. Qed.

Lemma IZR_digits_bounds m :
  (bpow (Zpos (digits2_pos m) - 1) <= IZR (Zpos m)
   /\ IZR (Zpos m) + 1 <= bpow (Zpos (digits2_pos m)))%R.
Proof.
  rewrite !bpow_IZR by lia. destruct (digits2_pos_bounds m) as [Hl Hu].
  split; [now apply IZR_le|]. rewrite <- plus_IZR. apply IZR_le. lia.
Qed.

Lemma fexp_normal e : -1074 <= e - 53 -> fexp 53 1024 e = e - 53.
Proof. unfold fexp, emin. lia. Qed.

Lemma bpow_m53_52 : (bpow (-53) * bpow 52 = / 2)%R.
Proof. rewrite <- bpow_add. unfold bpow. simpl. lra. Qed.

Lemma half_ulp_rel (m1 y B : R) :
  (Rabs (m1 - y) <= / 2 -> bpow 52 <= y -> 0 < B ->
   Rabs (m1 * B - y * B) <= bpow (-53) * (y * B))%R.
Proof.
  intros H Hy HB.
  replace (m1 * B - y * B)%R with ((m1 - y) * B)%R by ring.
  rewrite Rabs_mult, (Rabs_pos_eq B) by lra.
  assert (/ 2 <= bpow (-53) * y)%R.
  { rewrite <- bpow_m53_52. apply Rmult_le_compat_l; [|exact Hy].
    pose proof (bpow_pos (-53)). lra. }
  pose proof (Rabs_pos (m1 - y)). nra.
Qed.

Lemma round_aux_correct s mx ex lx y :
  let d := Zpos (digits2_pos mx) in
  inb y (shr_record_of_loc (Zpos mx) lx) ->
  53 <= d -> -1074 <= d + ex - 53 -> d + ex <= 1023 ->
  exists m e,
    binary_round_aux 53 1024 s (Zpos mx) ex lx = S754_finite s m e
    /\ 2 ^ 52 <= Zpos m < 2 ^ 53
    /\ (e = d + ex - 53 \/ e = d + ex - 52)
    /\ (Rabs (IZR (Zpos m) * bpow e - y * bpow ex)
        <= bpow (-53) * (y * bpow ex))%R.
Proof.
  intros d Hy Hd Hlo Hhi.
  set (n := d - 53).
  assert (Hm : 0 <= shr_m (shr_record_of_loc (Zpos mx) lx))
    by (rewrite shr_m_of_loc; lia).
  destruct (shr_inb y _ ex n ltac:(lia) Hm Hy) as (H1 & Hm1 & He1).
  assert (Hshr : shr_fexp 53 1024 (Zpos mx) ex lx
                 = shr (shr_record_of_loc (Zpos mx) lx) ex n).
  { unfold shr_fexp. cbn [Zdigits2]. fold d. rewrite fexp_normal by lia.
    f_equal. lia. }
  unfold binary_round_aux. rewrite Hshr.
  destruct (shr (shr_record_of_loc (Zpos mx) lx) ex n) as [mrs' e'].
  cbn [fst snd] in H1, Hm1, He1. subst e'.
  set (y' := (y / bpow n)%R) in *.
  (* bounds on the shifted mantissa *)
  assert (Hy' : (bpow 52 <= y' < bpow 53)%R).
  { pose proof (inb_bounds _ _ Hy) as Hb. rewrite shr_m_of_loc in Hb.
    destruct (IZR_digits_bounds mx) as [Hl Hu]. fold d in Hl, Hu.
    pose proof (bpow_pos n) as Hn.
    assert (E52 : bpow 52 = (bpow (d - 1) / bpow n)%R)
      by (rewrite <- bpow_sub; f_equal; unfold n; lia).
    assert (E53 : bpow 53 = (bpow d / bpow n)%R)
      by (rewrite <- bpow_sub; f_equal; unfold n; lia).
    rewrite E52, E53. unfold y', Rdiv.
    pose proof (Rinv_0_lt_compat _ Hn) as Hi.
    split.
    - apply Rmult_le_compat_r; lra.
    - apply Rmult_lt_compat_r; lra. }
  pose proof (inb_bounds _ _ H1) as Hb1.
  assert (Hm' : 2 ^ 52 <= shr_m mrs' < 2 ^ 53).
  { rewrite !bpow_IZR in Hy' by lia. split.
    - assert (2 ^ 52 < shr_m mrs' + 1); [|lia].
      apply lt_IZR. rewrite plus_IZR. lra.
    - apply lt_IZR. lra. }
  destruct (round_nearest_even_inb _ _ H1) as [Hcases Herr].
  set (m1 := round_nearest_even (shr_m mrs') (loc_of_shr_record mrs')) in *.
  assert (Hval : (y * bpow ex = y' * bpow (ex + n))%R).
  { unfold y'. rewrite bpow_add. pose proof (bpow_pos n). field. lra. }
  rewrite Hval.
  destruct (Z_lt_le_dec m1 (2 ^ 53)) as [Hlt|Hge].
  - (* no carry *)
    destruct m1 as [|p1|p1] eqn:Hp1; try lia.
    assert (Hdig : Zpos (digits2_pos p1) = 53)
      by (apply digits2_pos_unique; lia).
    unfold shr_fexp. cbn [Zdigits2]. rewrite Hdig.
    replace (fexp 53 1024 (53 + (ex + n)) - (ex + n)) with 0
      by (rewrite fexp_normal; unfold n; lia).
    cbn [shr shr_record_of_loc shr_m].
    replace (ex + n <=? 1024 - 53) with true
      by (symmetry; apply Z.leb_le; unfold n; lia).
    exists p1, (ex + n). split; [reflexivity|].
    split; [lia|]. split; [left; unfold n; lia|].
    apply half_ulp_rel; [exact Herr|tauto|apply bpow_pos].
  - (* the mantissa rounds up to 2^53 *)
    assert (Hm1' : m1 = 2 ^ 53) by lia.
    rewrite Hm1' in *.
    unfold shr_fexp.
    replace (fexp 53 1024 (Zdigits2 (2 ^ 53) + (ex + n)) - (ex + n)) with 1
      by (change (Zdigits2 (2 ^ 53)) with 54; rewrite fexp_normal;
          unfold n; lia).
    cbn [shr shr_record_of_loc SpecFloat.iter_pos].
    change (shr_1 {| shr_m := 2 ^ 53; shr_r := false; shr_s := false |})
      with {| shr_m := 2 ^ 52; shr_r := false; shr_s := false |}.
    cbn [shr_m]. change (2 ^ 52) with (Zpos 4503599627370496).
    cbv iota beta.
    replace (ex + n + 1 <=? 1024 - 53) with true
      by (symmetry; apply Z.leb_le; unfold n; lia).
    exists 4503599627370496%positive, (ex + n + 1). split; [reflexivity|].
    split; [lia|]. split; [right; unfold n; lia|].
    replace (IZR (Zpos 4503599627370496) * bpow (ex + n + 1))%R
      with (IZR (2 ^ 53) * bpow (ex + n))%R.
    + apply half_ulp_rel; [exact Herr|tauto|apply bpow_pos].
    + rewrite (bpow_add (ex + n) 1), bpow_1.
      change (2 ^ 53) with (2 * 4503599627370496). rewrite mult_IZR. ring.
Qed.

Lemma digits_range m e lo hi :
  (bpow lo <= IZR (Zpos m) * bpow e < bpow hi)%R ->
  lo < Zpos (digits2_pos m) + e <= hi.
Proof.
  intros [Hl Hu]. destruct (IZR_digits_bounds m) as [Hdl Hdu].
  pose proof (bpow_pos e) as He.
  split.
  - apply bpow_lt_inv. rewrite bpow_add.
    apply Rle_lt_trans with (1 := Hl). nra.
  - assert (Zpos (digits2_pos m) - 1 + e < hi); [|lia].
    apply bpow_lt_inv. rewrite bpow_add.
    apply Rle_lt_trans with (2 := Hu). nra.
Qed.

Lemma sign_R_abs s v : (0 <= v -> Rabs (sign_R s * v) = v)%R.
Proof.
  intros H. destruct s; unfold sign_R.
  - replace (-1 * v)%R with (- v)%R by ring. rewrite Rabs_Ropp.
    now apply Rabs_pos_eq.
  - rewrite Rmult_1_l. now apply Rabs_pos_eq.
Qed.

(** The core lemma, with the sign put back. *)
Lemma round_aux_rounds s mx ex lx y :
  inb y (shr_record_of_loc (Zpos mx) lx) ->
  53 <= Zpos (digits2_pos mx) ->
  (bpow (-1022) <= IZR (Zpos mx) * bpow ex)%R ->
  (IZR (Zpos mx) * bpow ex < bpow 1023)%R ->
  rounds_to (binary_round_aux 53 1024 s (Zpos mx) ex lx)
            (sign_R s * (y * bpow ex)).
Proof.
  intros Hy Hd Hlo Hhi.
  destruct (digits_range mx ex (-1022) 1023 (conj Hlo Hhi)) as [H1 H2].
  destruct (round_aux_correct s mx ex lx y Hy Hd ltac:(lia) ltac:(lia))
    as (m & e & Hr & Hm & _ & Herr).
  exists s, m, e. split; [exact Hr|]. split; [exact Hm|].
  rewrite Hr. cbn [f64_value].
  pose proof (inb_bounds _ _ Hy) as Hb. rewrite shr_m_of_loc in Hb.
  assert (0 < y)%R.
  { assert (0 < IZR (Zpos mx))%R by (apply IZR_lt; lia). lra. }
  pose proof (bpow_pos ex).
  rewrite <- Rmult_minus_distr_l.
  rewrite Rabs_mult, (sign_R_abs s (y * bpow ex)) by nra.
  replace (Rabs (sign_R s)) with 1%R; [lra|].
  destruct s; unfold sign_R; [rewrite Rabs_left|rewrite Rabs_right]; lra.
Qed.

(** Left shifts *)
Lemma iter_xO_spec m k :
  Zpos (Pos.iter xO m k) = Zpos m * 2 ^ Zpos k
  /\ Zpos (digits2_pos (Pos.iter xO m k)) = Zpos (digits2_pos m) + Zpos k.
Proof.
  induction k as [|k IH] using Pos.peano_ind.
  - cbn [Pos.iter digits2_pos]. split; [lia|lia].
  - rewrite Pos.iter_succ. cbn [digits2_pos]. destruct IH as [IH1 IH2].
    rewrite Pos2Z.inj_succ, Z.pow_succ_r by lia. split; lia.
Qed.

Lemma shl_align_spec mx ex ex' :
  let '(m', e') := shl_align mx ex ex' in
  (IZR (Zpos m') * bpow e' = IZR (Zpos mx) * bpow ex)%R
  /\ e' = Z.min ex ex'
  /\ Zpos (digits2_pos m') + e' = Zpos (digits2_pos mx) + ex
  /\ Zpos m' = Zpos mx * 2 ^ (ex - e').
Proof.
  unfold shl_align. destruct (ex' - ex) as [|p|p] eqn:Hd.
  - replace (ex - ex) with 0 by lia. repeat split; lia.
  - replace (ex - ex) with 0 by lia. repeat split; lia.
  - destruct (iter_xO_spec mx p) as [H1 H2].
    assert (Hp : Zpos p = ex - ex') by lia.
    split; [|split; [lia|split; [lia|now rewrite <- Hp]]].
    rewrite H1, mult_IZR, <- bpow_IZR by lia.
    rewrite Rmult_assoc, <- bpow_add. f_equal. f_equal. lia.
Qed.

Lemma normalize_rounds z e :
  z <> 0 ->
  (bpow (-1022) <= Rabs (IZR z * bpow e) < bpow 1023)%R ->
  rounds_to (binary_normalize 53 1024 z e false) (IZR z * bpow e).
Proof.
  intros Hz Hrange.
  assert (Hgen : forall s mz,
             (bpow (-1022) <= IZR (Zpos mz) * bpow e < bpow 1023)%R ->
             rounds_to (binary_round 53 1024 s mz e)
                       (sign_R s * (IZR (Zpos mz) * bpow e))).
  { intros s mz Hr. unfold binary_round.
    destruct (digits_range mz e _ _ Hr) as [Hlo Hhi].
    pose proof (shl_align_spec mz e
                  (fexp 53 1024 (Zpos (digits2_pos mz) + e))) as Hsh.
    destruct (shl_align mz e _) as [m' e'].
    destruct Hsh as (Hv & He' & Hd' & _).
    rewrite fexp_normal in He' by lia.
    rewrite <- Hv.
    apply round_aux_rounds.
    - apply inb_of_loc_exact.
    - lia.
    - rewrite Hv. tauto.
    - rewrite Hv. tauto. }
  pose proof (bpow_pos e) as He.
  destruct z as [|mz|mz]; [contradiction| |]; cbn [binary_normalize].
  - replace (IZR (Zpos mz) * bpow e)%R
      with (sign_R false * (IZR (Zpos mz) * bpow e))%R
      by (unfold sign_R; ring).
    apply Hgen.
    rewrite Rabs_pos_eq in Hrange; [exact Hrange|].
    assert (0 < IZR (Zpos mz))%R by (apply IZR_lt; lia). nra.
  - replace (IZR (Zneg mz) * bpow e)%R
      with (sign_R true * (IZR (Zpos mz) * bpow e))%R.
    + apply Hgen.
      replace (IZR (Zneg mz) * bpow e)%R
        with (- (IZR (Zpos mz) * bpow e))%R in Hrange.
      * rewrite Rabs_Ropp, Rabs_pos_eq in Hrange; [exact Hrange|].
        assert (0 < IZR (Zpos mz))%R by (apply IZR_lt; lia). nra.
      * change (Zneg mz) with (- Zpos mz). rewrite opp_IZR. ring.
    + unfold sign_R. change (Zneg mz) with (- Zpos mz). rewrite opp_IZR. ring.
Qed.

(** Division *)
Lemma new_location_inb nb k q :
  0 < nb -> 0 <= k < nb ->
  inb (IZR q + IZR k / IZR nb) (shr_record_of_loc q (new_location nb k)).
Proof.
  intros Hnb [Hk0 Hk].
  assert (Hnb' : (0 < IZR nb)%R) by (now apply IZR_lt).
  set (t := (IZR k / IZR nb)%R).
  assert (Ht : (t * IZR nb = IZR k)%R) by (unfold t; field; lra).
  assert (Hcmp : forall c, (2 * k ?= nb) = c ->
            match c with
            | Lt => (2 * t < 1)%R
            | Eq => (2 * t = 1)%R
            | Gt => (2 * t > 1)%R
            end).
  { intros c Hc. destruct (Z.compare_spec (2 * k) nb) as [H|H|H]; subst c.
    - apply (f_equal IZR) in H. rewrite mult_IZR in H. nra.
    - apply IZR_lt in H. rewrite mult_IZR in H. nra.
    - apply IZR_lt in H. rewrite mult_IZR in H. nra. }
  assert (Ht1 : (t < 1)%R).
  { apply IZR_lt in Hk. nra. }
  assert (Ht0 : k <> 0 -> (0 < t)%R).
  { intros Hne. assert (0 < IZR k)%R by (apply IZR_lt; lia).
    unfold t. now apply Rdiv_lt_0_compat. }
  unfold new_location.
  destruct (Z.even nb) eqn:Hev.
  - unfold new_location_even.
    destruct (Z.eqb_spec k 0) as [->|Hne].
    + unfold inb. cbn. unfold t. rewrite Rdiv_0_l. lra.
    + specialize (Ht0 Hne).
      pose proof (Hcmp _ eq_refl) as Hc.
      destruct (2 * k ?= nb); unfold inb; cbn; lra.
  - unfold new_location_odd.
    destruct (Z.eqb_spec k 0) as [->|Hne].
    + unfold inb. cbn. unfold t. rewrite Rdiv_0_l. lra.
    + specialize (Ht0 Hne).
      assert (Hodd : 2 * k <> nb).
      { intros <-. rewrite Z.even_mul in Hev. discriminate. }
      pose proof (Hcmp _ eq_refl) as Hc.
      destruct (Z.compare_spec (2 * k + 1) nb) as [H|H|H];
        destruct (Z.compare_spec (2 * k) nb) as [H'|H'|H'];
        try lia; unfold inb; cbn; lra.
Qed.

Lemma sign_R_xorb a b : sign_R (xorb a b) = (sign_R a / sign_R b)%R.
Proof. destruct a, b; unfold sign_R; cbn; field; lra. Qed.

Lemma sign_R_xorb_mul a b : sign_R (xorb a b) = (sign_R a * sign_R b)%R.
Proof. destruct a, b; unfold sign_R; cbn; ring. Qed.

Lemma sign_R_neq_0 s : sign_R s <> 0%R.
Proof. destruct s; unfold sign_R; lra. Qed.

Lemma ratio_bounds m1 m2 :
  (bpow (Zpos (digits2_pos m1) - Zpos (digits2_pos m2) - 1)
   < IZR (Zpos m1) / IZR (Zpos m2)
   < bpow (Zpos (digits2_pos m1) - Zpos (digits2_pos m2) + 1))%R.
Proof.
  destruct (IZR_digits_bounds m1) as [Hl1 Hu1].
  destruct (IZR_digits_bounds m2) as [Hl2 Hu2].
  set (d1 := Zpos (digits2_pos m1)) in *.
  set (d2 := Zpos (digits2_pos m2)) in *.
  assert (Hb : (0 < IZR (Zpos m2))%R) by (apply IZR_lt; lia).
  assert (Ha : (0 < IZR (Zpos m1))%R) by (apply IZR_lt; lia).
  pose proof (bpow_pos d2) as Hd2. pose proof (bpow_pos (d2 - 1)) as Hd2'.
  assert (E1 : bpow (d1 - d2 - 1) = (bpow (d1 - 1) / bpow d2)%R)
    by (rewrite <- bpow_sub; f_equal; lia).
  assert (E2 : bpow (d1 - d2 + 1) = (bpow d1 / bpow (d2 - 1))%R)
    by (rewrite <- bpow_sub; f_equal; lia).
  rewrite E1, E2.
  pose proof (bpow_pos (d1 - 1)). pose proof (bpow_pos d1).
  split.
  - apply Rmult_lt_reg_r with (IZR (Zpos m2) * bpow d2)%R; [nra|].
    replace (bpow (d1 - 1) / bpow d2 * (IZR (Zpos m2) * bpow d2))%R
      with (bpow (d1 - 1) * IZR (Zpos m2))%R by (field; lra).
    replace (IZR (Zpos m1) / IZR (Zpos m2) * (IZR (Zpos m2) * bpow d2))%R
      with (IZR (Zpos m1) * bpow d2)%R by (field; lra).
    apply Rle_lt_trans with (IZR (Zpos m1) * IZR (Zpos m2))%R.
    + apply Rmult_le_compat_r; lra.
    + apply Rmult_lt_compat_l; lra.
  - apply Rmult_lt_reg_r with (IZR (Zpos m2) * bpow (d2 - 1))%R; [nra|].
    replace (bpow d1 / bpow (d2 - 1) * (IZR (Zpos m2) * bpow (d2 - 1)))%R
      with (bpow d1 * IZR (Zpos m2))%R by (field; lra).
    replace (IZR (Zpos m1) / IZR (Zpos m2)
             * (IZR (Zpos m2) * bpow (d2 - 1)))%R
      with (IZR (Zpos m1) * bpow (d2 - 1))%R by (field; lra).
    apply Rle_lt_trans with (IZR (Zpos m1) * IZR (Zpos m2))%R.
    + apply Rmult_le_compat_l; lra.
    + apply Rmult_lt_compat_r; lra.
Qed.

Lemma div_rounds sx mx ex sy my ey :
  let v := (f64_value (S754_finite sx mx ex)
            / f64_value (S754_finite sy my ey))%R in
  (bpow (-1021) <= Rabs v < bpow 1022)%R ->
  rounds_to (SFdiv 53 1024 (S754_finite sx mx ex) (S754_finite sy my ey)) v.
Proof.
  intros v Hrange.
  set (d1 := Zpos (digits2_pos mx)). set (d2 := Zpos (digits2_pos my)).
  set (a := IZR (Zpos mx)). set (b := IZR (Zpos my)).
  assert (Ha : (0 < a)%R) by (apply IZR_lt; lia).
  assert (Hb : (0 < b)%R) by (apply IZR_lt; lia).
  pose proof (bpow_pos ex) as Hex. pose proof (bpow_pos ey) as Hey.
  pose proof (bpow_pos (ex - ey)) as Hexy.
  assert (Hv : v = (sign_R (xorb sx sy) * (a / b * bpow (ex - ey)))%R).
  { unfold v. cbn [f64_value]. fold a b. rewrite sign_R_xorb, bpow_sub.
    pose proof (sign_R_neq_0 sy). field. repeat split; lra. }
  assert (Hpos : (0 < a / b * bpow (ex - ey))%R).
  { apply Rmult_lt_0_compat; [|exact Hexy]. now apply Rdiv_lt_0_compat. }
  assert (Habs : Rabs v = (a / b * bpow (ex - ey))%R)
    by (rewrite Hv; apply sign_R_abs; lra).
  rewrite Habs in Hrange.
  (* the exponent of the quotient *)
  pose proof (ratio_bounds mx my) as [Hrl Hru]. fold d1 d2 a b in Hrl, Hru.
  set (E := d1 + ex - (d2 + ey)).
  assert (HE : -1021 <= E <= 1022).
  { split.
    - assert (-1021 < E + 1); [|lia]. apply bpow_lt_inv.
      apply Rle_lt_trans with (1 := proj1 Hrange).
      replace (E + 1) with ((d1 - d2 + 1) + (ex - ey)) by (unfold E; lia).
      rewrite bpow_add. nra.
    - assert (E - 1 < 1022); [|lia]. apply bpow_lt_inv.
      apply Rlt_trans with (2 := proj2 Hrange).
      replace (E - 1) with ((d1 - d2 - 1) + (ex - ey)) by (unfold E; lia).
      rewrite bpow_add. nra. }
  rewrite Hv.
  unfold SFdiv, SFdiv_core_binary. cbn [Zdigits2]. fold d1 d2 E.
  rewrite fexp_normal by lia.
  set (e' := Z.min (E - 53) (ex - ey)).
  set (s := ex - ey - e').
  assert (Hs : 0 <= s /\ 53 - d1 + d2 <= s) by (unfold s, e', E; lia).
  assert (Hm' : match s with
                | 0 => Zpos mx
                | Zpos _ => Z.shiftl (Zpos mx) s
                | Zneg _ => 0
                end = Zpos mx * 2 ^ s).
  { destruct s as [|p|p] eqn:Hsp; [lia| |lia].
    rewrite Z.shiftl_mul_pow2 by lia. reflexivity. }
  rewrite Hm'.
  pose proof (Z_div_mod (Zpos mx * 2 ^ s) (Zpos my) ltac:(lia)) as Hdiv.
  destruct (Z.div_eucl (Zpos mx * 2 ^ s) (Zpos my)) as [q r].
  destruct Hdiv as [Hqr Hr].
  (* the quotient has at least 53 digits *)
  destruct (digits2_pos_bounds mx) as [Hmx1 Hmx2].
  destruct (digits2_pos_bounds my) as [Hmy1 Hmy2].
  fold d1 in Hmx1, Hmx2. fold d2 in Hmy1, Hmy2.
  assert (Hd1 : 0 < d1) by (unfold d1; lia).
  assert (Hd2 : 0 < d2) by (unfold d2; lia).
  assert (Hq : 2 ^ 52 <= q).
  { assert (Hpow : 2 ^ 52 * 2 ^ d2 <= 2 ^ (d1 - 1) * 2 ^ s).
    { rewrite <- !Z.pow_add_r by lia. apply Z.pow_le_mono_r; lia. }
    pose proof (Z.pow_pos_nonneg 2 s ltac:(lia) ltac:(lia)).
    assert (2 ^ 52 * Zpos my < Zpos mx * 2 ^ s) by nia.
    nia. }
  destruct q as [|qp|qp]; try lia.
  set (Y := (IZR (Zpos qp) + IZR r / b)%R).
  assert (HY : (Y * bpow e' = a / b * bpow (ex - ey))%R).
  { replace (ex - ey) with (s + e') by (unfold s; lia).
    rewrite bpow_add. unfold Y.
    assert (Hab : (a * bpow s = b * IZR (Zpos qp) + IZR r)%R).
    { unfold a, b. rewrite bpow_IZR by lia.
      rewrite <- !mult_IZR, <- plus_IZR. now f_equal. }
    pose proof (bpow_pos e').
    apply Rmult_eq_reg_r with b; [|lra].
    field_simplify; [|lra|lra]. nra. }
  rewrite <- HY.
  assert (HYb : (IZR (Zpos qp) <= Y < IZR (Zpos qp) + 1)%R).
  { unfold Y. assert (0 <= IZR r)%R by (apply IZR_le; lia).
    assert (IZR r < b)%R by (apply IZR_lt; lia).
    assert (0 <= IZR r / b < 1)%R; [|lra].
    split.
    - apply Rmult_le_pos; [lra|]. left. now apply Rinv_0_lt_compat.
    - apply Rmult_lt_reg_r with b; [lra|]. field_simplify; lra. }
  assert (Hq1 : (1 <= IZR (Zpos qp))%R) by (apply IZR_le; lia).
  pose proof (bpow_pos e') as He'.
  apply round_aux_rounds.
  - apply new_location_inb; lia.
  - destruct (digits2_pos_bounds qp) as [_ Hu].
    assert (52 < Zpos (digits2_pos qp)); [|lia].
    apply (Z.pow_lt_mono_r_iff 2); lia.
  - replace (-1022) with (-1021 - 1) by lia. rewrite bpow_sub, bpow_1.
    rewrite <- HY in Hrange. nra.
  - apply Rle_lt_trans with (Y * bpow e')%R; [nra|].
    rewrite <- HY in Hrange.
    apply Rlt_trans with (1 := proj2 Hrange). apply bpow_lt. lia.
Qed.

(** Multiplication *)
Lemma mul_rounds sx mx ex sy my ey :
  53 <= Zpos (digits2_pos my) ->
  let v := (f64_value (S754_finite sx mx ex)
            * f64_value (S754_finite sy my ey))%R in
  (bpow (-1022) <= Rabs v < bpow 1023)%R ->
  rounds_to (SFmul 53 1024 (S754_finite sx mx ex) (S754_finite sy my ey)) v.
Proof.
  intros Hdy v Hrange.
  assert (Hv : v = (sign_R (xorb sx sy)
                    * (IZR (Zpos (mx * my)) * bpow (ex + ey)))%R).
  { unfold v. cbn [f64_value]. rewrite sign_R_xorb_mul, bpow_add.
    rewrite Pos2Z.inj_mul, mult_IZR. ring. }
  assert (Hpos : (0 < IZR (Zpos (mx * my)) * bpow (ex + ey))%R).
  { apply Rmult_lt_0_compat; [apply IZR_lt; lia|apply bpow_pos]. }
  assert (Habs : Rabs v = (IZR (Zpos (mx * my)) * bpow (ex + ey))%R)
    by (rewrite Hv; apply sign_R_abs; lra).
  rewrite Habs in Hrange. rewrite Hv. cbn [SFmul].
  apply round_aux_rounds.
  - apply inb_of_loc_exact.
  - destruct (digits2_pos_bounds my) as [Hl _].
    destruct (digits2_pos_bounds (mx * my)) as [_ Hu].
    assert (2 ^ 52 <= Zpos my).
    { apply Z.le_trans with (2 := Hl). apply Z.pow_le_mono_r; lia. }
    assert (52 < Zpos (digits2_pos (mx * my))); [|lia].
    apply (Z.pow_lt_mono_r_iff 2); [lia|lia|]. nia.
  - tauto.
  - tauto.
Qed.

(** Subtraction *)
Lemma cond_Zopp_value s m :
  IZR (cond_Zopp s (Zpos m)) = (sign_R s * IZR (Zpos m))%R.
Proof.
  destruct s; unfold cond_Zopp, sign_R.
  - rewrite opp_IZR. ring.
  - ring.
Qed.

Lemma sub_exact sx mx ex sy my ey :
  let ez := Z.min ex ey in
  let z := cond_Zopp sx (Zpos (fst (shl_align mx ex ez)))
           - cond_Zopp sy (Zpos (fst (shl_align my ey ez))) in
  SFsub 53 1024 (S754_finite sx mx ex) (S754_finite sy my ey)
  = binary_normalize 53 1024 z ez false
  /\ (IZR z * bpow ez
      = f64_value (S754_finite sx mx ex) - f64_value (S754_finite sy my ey))%R.
Proof.
  cbv zeta. split; [reflexivity|].
  pose proof (shl_align_spec mx ex (Z.min ex ey)) as Hx.
  pose proof (shl_align_spec my ey (Z.min ex ey)) as Hy.
  destruct (shl_align mx ex (Z.min ex ey)) as [mx' ex'].
  destruct (shl_align my ey (Z.min ex ey)) as [my' ey'].
  destruct Hx as (Hvx & Hex & _). destruct Hy as (Hvy & Hey & _).
  cbn [fst f64_value].
  replace ex' with (Z.min ex ey) in Hvx by lia.
  replace ey' with (Z.min ex ey) in Hvy by lia.
  rewrite minus_IZR, !cond_Zopp_value, <- Hvx, <- Hvy. ring.
Qed.

Lemma sub_rounds sx mx ex sy my ey :
  let v := (f64_value (S754_finite sx mx ex)
            - f64_value (S754_finite sy my ey))%R in
  (bpow (-1022) <= Rabs v < bpow 1023)%R ->
  rounds_to (SFsub 53 1024 (S754_finite sx mx ex) (S754_finite sy my ey)) v.
Proof.
  intros v Hrange.
  destruct (sub_exact sx mx ex sy my ey) as [Hs Hv]. cbv zeta in Hs, Hv.
  fold v in Hv. rewrite Hs, <- Hv.
  apply normalize_rounds.
  - intros Hz. rewrite Hz in Hv. rewrite <- Hv in Hrange.
    rewrite Rmult_0_l, Rabs_R0 in Hrange.
    pose proof (bpow_pos (-1022)). lra.
  - now rewrite Hv.
Qed.

Lemma sub_zero sx mx ex sy my ey :
  (f64_value (S754_finite sx mx ex) = f64_value (S754_finite sy my ey))%R ->
  SFsub 53 1024 (S754_finite sx mx ex) (S754_finite sy my ey)
  = S754_zero false.
Proof.
  intros Heq.
  destruct (sub_exact sx mx ex sy my ey) as [Hs Hv]. cbv zeta in Hs, Hv.
  rewrite Hs.
  set (z := cond_Zopp sx _ - cond_Zopp sy _) in *.
  assert (z = 0); [|now subst z; rewrite H].
  apply eq_IZR. pose proof (bpow_pos (Z.min ex ey)). nra.
Qed.

Lemma of_Z_rounds z :
  z <> 0 -> - 2 ^ 64 <= z <= 2 ^ 64 ->
  rounds_to (binary_normalize 53 1024 z 0 false) (IZR z).
Proof.
  intros Hz Hr.
  replace (IZR z) with (IZR z * bpow 0)%R by (rewrite bpow_0; ring).
  apply normalize_rounds; [exact Hz|].
  rewrite bpow_0, Rmult_1_r, <- abs_IZR.
  split.
  - apply Rle_trans with 1%R.
    + replace 1%R with (bpow 0) by apply bpow_0. apply bpow_le. lia.
    + apply IZR_le. lia.
  - apply Rle_lt_trans with (bpow 64).
    + rewrite bpow_IZR by lia. apply IZR_le. lia.
    + apply bpow_lt. lia.
Qed.

(** Relative error *)
Lemma Rabs_le_inv a b : (Rabs a <= b -> - b <= a <= b)%R.
Proof.
  intros H. pose proof (Rle_abs a). pose proof (Rle_abs (- a)) as H1.
  rewrite Rabs_Ropp in H1. lra.
Qed.

Lemma close_factor e a b :
  (0 <= e)%R -> close e a b -> exists t, (Rabs t <= e /\ a = b * (1 + t))%R.
Proof.
  unfold close. intros He H.
  destruct (Req_dec b 0) as [->|Hb].
  - rewrite Rabs_R0, Rmult_0_r, Rminus_0_r in H.
    pose proof (Rabs_pos a) as Ha.
    assert (Rabs a = 0)%R by lra.
    exists 0%R. rewrite Rabs_R0.
    assert (a = 0)%R.
    { destruct (Req_dec a 0) as [E|E]; [exact E|].
      apply Rabs_no_R0 in E. contradiction. }
    subst a. split; [exact He|ring].
  - exists ((a - b) / b)%R. split; [|field; exact Hb].
    unfold Rdiv. rewrite Rabs_mult, Rabs_inv.
    pose proof (Rabs_pos_lt b Hb) as Hp.
    apply Rmult_le_reg_r with (Rabs b); [exact Hp|].
    rewrite Rmult_assoc, Rinv_l by lra. lra.
Qed.

Lemma factor_close e a b t :
  (Rabs t <= e -> a = b * (1 + t) -> close e a b)%R.
Proof.
  intros Ht ->. unfold close.
  replace (b * (1 + t) - b)%R with (t * b)%R by ring.
  rewrite Rabs_mult. pose proof (Rabs_pos b). nra.
Qed.

Lemma rounds_to_close g v : rounds_to g v -> close (bpow (-53)) (f64_value g) v.
Proof. now intros (s & m & e & _ & _ & H). Qed.

Lemma eps_small : (0 < bpow (-53) <= / 64)%R.
Proof.
  split; [apply bpow_pos|].
  replace (/ 64)%R with (bpow (-6)) by (unfold bpow; simpl; lra).
  apply bpow_le. lia.
Qed.

Lemma eps_8 : (8 * bpow (-53) = bpow (-50))%R.
Proof.
  replace 8%R with (bpow 3) by (unfold bpow; simpl; lra).
  now rewrite <- bpow_add.
Qed.

Lemma prod_factor x y a b :
  (Rabs x <= a -> Rabs y <= b -> Rabs (x + y + x * y) <= a + b + a * b)%R.
Proof.
  intros Hx Hy.
  apply Rle_trans with (Rabs (x + y) + Rabs (x * y))%R; [apply Rabs_triang|].
  apply Rle_trans with (Rabs x + Rabs y + Rabs x * Rabs y)%R.
  - rewrite Rabs_mult. pose proof (Rabs_triang x y). lra.
  - pose proof (Rabs_pos x). pose proof (Rabs_pos y). nra.
Qed.

Lemma quot_factor x y e :
  (0 <= e <= / 4 -> Rabs x <= e -> Rabs y <= e ->
   Rabs ((1 + x) / (1 + y) - 1) <= 4 * e)%R.
Proof.
  intros He Hx Hy.
  apply Rabs_le_inv in Hx. apply Rabs_le_inv in Hy.
  assert (Hy1 : (0 < 1 + y)%R) by lra.
  replace ((1 + x) / (1 + y) - 1)%R with ((x - y) / (1 + y))%R
    by (field; lra).
  apply Rabs_le. split.
  - apply Rmult_le_reg_r with (1 + y)%R; [exact Hy1|].
    unfold Rdiv. rewrite Rmult_assoc, Rinv_l by lra. nra.
  - apply Rmult_le_reg_r with (1 + y)%R; [exact Hy1|].
    unfold Rdiv. rewrite Rmult_assoc, Rinv_l by lra. nra.
Qed.

Lemma Rabs_scale x t :
  (Rabs t <= / 2 -> / 2 * Rabs x <= Rabs (x * (1 + t)) <= 2 * Rabs x)%R.
Proof.
  intros Ht. apply Rabs_le_inv in Ht.
  rewrite Rabs_mult, (Rabs_pos_eq (1 + t)) by lra.
  pose proof (Rabs_pos x). split; nra.
Qed.

Lemma hundred_value : f64_value hundred = 100%R.
Proof.
  unfold hundred. cbn [f64_value sign_R].
  replace (bpow (-46)) with (/ IZR (2 ^ 46))%R.
  - change 7036874417766400 with (100 * 2 ^ 46). rewrite mult_IZR.
    field. apply not_0_IZR. discriminate.
  - rewrite <- bpow_IZR, <- bpow_opp by lia. reflexivity.
Qed.

(** The quotient and the product of the growth formula, on finite [D] and
    [P] that are within half a unit in the last place of the exact
    difference [d0] and base [b]. *)
Lemma growth_chain sd md ed sp mp ep (d0 b : R) :
  let D := S754_finite sd md ed in
  let P := S754_finite sp mp ep in
  close (bpow (-53)) (f64_value D) d0 ->
  close (bpow (-53)) (f64_value P) b ->
  (bpow (-1002) <= Rabs (d0 / b) <= bpow 1002)%R ->
  b <> 0%R ->
  exists s m e,
    SFmul 53 1024 (SFdiv 53 1024 D P) hundred = S754_finite s m e
    /\ close (bpow (-50)) (f64_value (S754_finite s m e)) (d0 / b * 100).
Proof.
  intros D P HD HP Hrange Hb.
  pose proof eps_small as [He0 He].
  destruct (close_factor _ _ _ (Rlt_le _ _ He0) HD) as (t1 & Ht1 & HD').
  destruct (close_factor _ _ _ (Rlt_le _ _ He0) HP) as (t2 & Ht2 & HP').
  pose proof (Rabs_le_inv _ _ Ht2) as Ht2'.
  set (th := ((1 + t1) / (1 + t2) - 1)%R).
  assert (Hth : (Rabs th <= 4 * bpow (-53))%R)
    by (apply quot_factor; [lra|exact Ht1|exact Ht2]).
  assert (Hquot : (f64_value D / f64_value P = d0 / b * (1 + th))%R).
  { rewrite HD', HP'. unfold th. field. split; lra. }
  (* the division *)
  assert (Hdiv : rounds_to (SFdiv 53 1024 D P) (f64_value D / f64_value P)).
  { apply div_rounds. fold D P. rewrite Hquot.
    destruct (Rabs_scale (d0 / b) th ltac:(lra)) as [Hl Hu].
    split.
    - apply Rle_trans with (2 := Hl).
      apply Rle_trans with (/ 2 * bpow (-1002))%R; [|lra].
      replace (/ 2)%R with (bpow (-1)) by (unfold bpow; simpl; lra).
      rewrite <- bpow_add. apply bpow_le. lia.
    - apply Rle_lt_trans with (1 := Hu).
      apply Rle_lt_trans with (2 * bpow 1002)%R; [lra|].
      rewrite <- bpow_1, <- bpow_add. apply bpow_lt. lia. }
  pose proof (rounds_to_close _ _ Hdiv) as Hq.
  destruct Hdiv as (sq & mq & eq & HQ & Hmq & _).
  rewrite HQ in Hq |- *.
  destruct (close_factor _ _ _ (Rlt_le _ _ He0) Hq) as (t3 & Ht3 & HQ').
  rewrite Hquot in HQ'.
  set (p := (th + t3 + th * t3)%R).
  assert (Hp : (Rabs p <= 6 * bpow (-53))%R).
  { apply Rle_trans with (4 * bpow (-53) + bpow (-53)
                          + 4 * bpow (-53) * bpow (-53))%R;
      [now apply prod_factor|]. nra. }
  assert (HQp : (f64_value (S754_finite sq mq eq) = d0 / b * (1 + p))%R)
    by (rewrite HQ'; unfold p; ring).
  (* the multiplication *)
  assert (Hmul : rounds_to (SFmul 53 1024 (S754_finite sq mq eq) hundred)
                           (f64_value (S754_finite sq mq eq) * 100)).
  { rewrite <- hundred_value. unfold hundred at 1.
    apply mul_rounds; [vm_compute; discriminate|].
    fold hundred. rewrite hundred_value, HQp.
    replace (d0 / b * (1 + p) * 100)%R with (d0 / b * 100 * (1 + p))%R by ring.
    destruct (Rabs_scale (d0 / b * 100) p ltac:(lra)) as [Hl Hu].
    assert (H100 : Rabs (d0 / b * 100) = (100 * Rabs (d0 / b))%R).
    { rewrite Rabs_mult, (Rabs_pos_eq 100) by lra. ring. }
    rewrite H100 in Hl, Hu.
    split.
    - apply Rle_trans with (2 := Hl).
      apply Rle_trans with (bpow (-1002)); [apply bpow_le; lia|]. lra.
    - apply Rle_lt_trans with (1 := Hu).
      apply Rle_lt_trans with (bpow 8 * bpow 1002)%R.
      + replace (bpow 8) with 256%R by (unfold bpow; simpl; lra). lra.
      + rewrite <- bpow_add. apply bpow_lt. lia. }
  pose proof (rounds_to_close _ _ Hmul) as Hg.
  destruct Hmul as (s & m & e & HG & _ & _).
  rewrite HG in Hg |- *.
  exists s, m, e. split; [reflexivity|].
  destruct (close_factor _ _ _ (Rlt_le _ _ He0) Hg) as (t4 & Ht4 & HG').
  rewrite HQp in HG'.
  apply factor_close with (t := (p + t4 + p * t4)%R).
  - rewrite <- eps_8.
    apply Rle_trans with (6 * bpow (-53) + bpow (-53)
                          + 6 * bpow (-53) * bpow (-53))%R;
      [now apply prod_factor|]. nra.
  - rewrite HG'. ring.
Qed.

Lemma wrap64_in z : in_int64 z = true -> wrap64 z = z.
Proof.
  unfold in_int64, wrap64. intros H. apply andb_prop in H.
  destruct H as [H1 H2]. apply Z.leb_le in H1. apply Z.ltb_lt in H2.
  rewrite Z.mod_small; lia.
Qed.

Lemma wrapu64_in z : in_uint64 z = true -> wrapu64 z = z.
Proof.
  unfold in_uint64, wrapu64. intros H. apply andb_prop in H.
  destruct H as [H1 H2]. apply Z.leb_le in H1. apply Z.ltb_lt in H2.
  rewrite Z.mod_small; lia.
Qed.

Lemma Rabs_quot a b : Rabs (a / b) = (Rabs a / Rabs b)%R.
Proof. unfold Rdiv. now rewrite Rabs_mult, Rabs_inv. Qed.

Lemma close_refl e v : (0 <= e)%R -> close e v v.
Proof.
  intros He. unfold close. rewrite Rminus_diag, Rabs_R0.
  pose proof (Rabs_pos v). nra.
Qed.

Lemma close_zero e : close e 0 0.
Proof. unfold close. rewrite Rminus_diag, Rabs_R0. lra. Qed.

(** The growth of two integers [a] and [b] whose floats are taken by
    [f64_of_Z]. *)
Lemma growth_of_integers a b :
  - 2 ^ 64 <= a - b <= 2 ^ 64 -> - 2 ^ 64 <= b <= 2 ^ 64 -> b <> 0 ->
  exists g,
    f64_mul (f64_div (f64_of_Z (a - b)) (f64_of_Z b)) (f64_of_Z 100) = g
    /\ f64_is_number g = true
    /\ close (bpow (-50)) (f64_value g) ((IZR a - IZR b) / IZR b * 100).
Proof.
  intros Hd Hb Hb0.
  unfold f64_mul, f64_div, f64_of_Z, f64_prec, f64_emax.
  assert (HbR : IZR b <> 0%R) by (now apply not_0_IZR).
  destruct (of_Z_rounds b Hb0 Hb) as (sp & mp & ep & HP & _ & HPc).
  rewrite HP in HPc. rewrite HP.
  destruct (Z.eq_dec (a - b) 0) as [Hz|Hnz].
  - rewrite Hz. cbn [binary_normalize SFdiv SFmul].
    eexists. split; [reflexivity|]. split; [reflexivity|].
    cbn [f64_value]. rewrite <- minus_IZR, Hz.
    unfold Rdiv. rewrite !Rmult_0_l. apply close_zero.
  - destruct (of_Z_rounds (a - b) Hnz Hd) as (sd & md & ed & HD & _ & HDc).
    rewrite HD in HDc. rewrite HD.
    destruct (growth_chain sd md ed sp mp ep (IZR (a - b)) (IZR b) HDc HPc)
      as (s & m & e & HG & Hc).
    + rewrite Rabs_quot, <- !abs_IZR.
      assert (H1 : (1 <= IZR (Z.abs (a - b)) <= bpow 64)%R).
      { rewrite bpow_IZR by lia. split; apply IZR_le; lia. }
      assert (H2 : (1 <= IZR (Z.abs b) <= bpow 64)%R).
      { rewrite bpow_IZR by lia. split; apply IZR_le; lia. }
      pose proof (bpow_pos 64) as H64.
      assert (E1 : (bpow (-1002) <= / bpow 64)%R).
      { rewrite <- bpow_opp. apply bpow_le. lia. }
      assert (E2 : (bpow 64 <= bpow 1002)%R) by (apply bpow_le; lia).
      assert (Hi : (/ bpow 64 <= / IZR (Z.abs b) <= 1)%R).
      { split.
        - apply Rinv_le_contravar; lra.
        - rewrite <- Rinv_1. apply Rinv_le_contravar; lra. }
      pose proof (Rinv_0_lt_compat _ H64) as Hi64.
      unfold Rdiv. split.
      * apply Rle_trans with (1 := E1).
        apply Rle_trans with (1 * / IZR (Z.abs b))%R; [lra|].
        apply Rmult_le_compat_r; lra.
      * apply Rle_trans with (2 := E2).
        apply Rle_trans with (IZR (Z.abs (a - b)) * 1)%R; [|lra].
        apply Rmult_le_compat_l; lra.
    + exact HbR.
    + change (binary_normalize 53 1024 100 0 false) with hundred.
      rewrite HG. eexists. split; [reflexivity|]. split; [reflexivity|].
      now rewrite <- minus_IZR.
Qed.

Lemma finite_abs s m e :
  Rabs (f64_value (S754_finite s m e)) = (IZR (Zpos m) * bpow e)%R.
Proof.
  cbn [f64_value]. apply sign_R_abs.
  assert (0 < IZR (Zpos m))%R by (apply IZR_lt; lia).
  pose proof (bpow_pos e). nra.
Qed.

Lemma moderate_value x :
  moderate x = true ->
  exists s m e,
    x = S754_finite s m e
    /\ -500 <= e
    /\ (bpow (-500) <= Rabs (f64_value x) < bpow 500)%R.
Proof.
  destruct x as [s|s| |s m e]; try discriminate. cbn [moderate].
  intros H. apply andb_prop in H. destruct H as [H1 H2].
  apply Z.leb_le in H1. apply Z.leb_le in H2.
  exists s, m, e. split; [reflexivity|]. split; [exact H1|].
  rewrite finite_abs.
  destruct (IZR_digits_bounds m) as [_ Hu].
  assert (Hm : (1 <= IZR (Zpos m))%R) by (apply IZR_le; lia).
  pose proof (bpow_pos e) as He.
  split.
  - apply Rle_trans with (bpow e); [apply bpow_le; lia|]. nra.
  - apply Rlt_le_trans with (bpow (Zpos (digits2_pos m) + e));
      [|apply bpow_le; lia].
    rewrite bpow_add. nra.
Qed.

Lemma sign_R_negb s : sign_R (negb s) = (- sign_R s)%R.
Proof. destruct s; unfold sign_R; cbn; lra. Qed.

Lemma growth_of_floats x y :
  orb (moderate x) (f64_is_zero x) = true ->
  moderate y = true ->
  exists g,
    f64_mul (f64_div (f64_sub x y) y) (f64_of_Z 100) = g
    /\ f64_is_number g = true
    /\ f64_value y <> 0%R
    /\ close (bpow (-50)) (f64_value g)
             ((f64_value x - f64_value y) / f64_value y * 100).
Proof.
  intros Hx Hy.
  destruct (moderate_value y Hy) as (sy & my & ey & -> & Hey & Hvy).
  pose proof (bpow_pos (-500)) as H300.
  assert (Hy0 : f64_value (S754_finite sy my ey) <> 0%R).
  { intros E. rewrite E, Rabs_R0 in Hvy. lra. }
  pose proof eps_small as [He0 _].
  unfold f64_mul, f64_div, f64_sub, f64_of_Z, f64_prec, f64_emax.
  change (binary_normalize 53 1024 100 0 false) with hundred.
  destruct (moderate x) eqn:Hmx.
  - destruct (moderate_value x Hmx) as (sx & mx & ex & -> & Hex & Hvx).
    set (vx := f64_value (S754_finite sx mx ex)) in *.
    set (vy := f64_value (S754_finite sy my ey)) in *.
    destruct (Req_dec vx vy) as [Heq|Hne].
    + rewrite (sub_zero sx mx ex sy my ey Heq). cbn [SFdiv SFmul hundred].
      eexists. split; [reflexivity|]. split; [reflexivity|].
      split; [exact Hy0|].
      cbn [f64_value]. rewrite Heq, Rminus_diag. unfold Rdiv.
      rewrite !Rmult_0_l. apply close_zero.
    + assert (Hv : (bpow (-500) <= Rabs (vx - vy) < bpow 501)%R).
      { split.
        - destruct (sub_exact sx mx ex sy my ey) as [_ Hz]. cbv zeta in Hz.
          fold vx vy in Hz. rewrite <- Hz.
          set (z := cond_Zopp sx _ - cond_Zopp sy _) in *.
          assert (Hz0 : z <> 0).
          { intros E. rewrite E, Rmult_0_l in Hz. lra. }
          pose proof (bpow_pos (Z.min ex ey)) as Hmin.
          rewrite Rabs_mult, (Rabs_pos_eq (bpow _)) by lra.
          rewrite <- abs_IZR.
          assert (1 <= IZR (Z.abs z))%R by (apply IZR_le; lia).
          apply Rle_trans with (bpow (Z.min ex ey)); [apply bpow_le; lia|].
          nra.
        - replace 501 with (1 + 500) by lia. rewrite bpow_add, bpow_1.
          pose proof (Rabs_triang vx (- vy)) as Ht.
          rewrite Rabs_Ropp in Ht.
          replace (vx + - vy)%R with (vx - vy)%R in Ht by ring. lra. }
      assert (Hsub : rounds_to (SFsub 53 1024 (S754_finite sx mx ex)
                                      (S754_finite sy my ey)) (vx - vy)).
      { apply sub_rounds. fold vx vy. split.
        - apply Rle_trans with (2 := proj1 Hv). apply bpow_le. lia.
        - apply Rlt_trans with (1 := proj2 Hv). apply bpow_lt. lia. }
      pose proof (rounds_to_close _ _ Hsub) as HDc.
      destruct Hsub as (sd & md & ed & HD & _ & _).
      rewrite HD in HDc |- *.
      destruct (growth_chain sd md ed sy my ey (vx - vy) vy HDc
                  (close_refl _ _ (Rlt_le _ _ He0)))
        as (s & m & e & HG & Hc).
      * rewrite Rabs_quot.
        pose proof (Rabs_pos_lt vy Hy0) as Hpy.
        pose proof (Rinv_0_lt_compat _ Hpy) as Hiy.
        pose proof (bpow_pos 500) as Hp300.
        assert (Hi : (/ bpow 500 <= / Rabs vy <= / bpow (-500))%R).
        { split; apply Rinv_le_contravar; lra. }
        rewrite <- !bpow_opp in Hi. cbn [Z.opp] in Hi.
        unfold Rdiv. split.
        -- apply Rle_trans with (bpow (-500) * bpow (-500))%R.
           ++ rewrite <- bpow_add. apply bpow_le. lia.
           ++ apply Rmult_le_compat; lra.
        -- apply Rle_trans with (bpow 501 * bpow 500)%R.
           ++ apply Rmult_le_compat; lra.
           ++ rewrite <- bpow_add. apply bpow_le. lia.
      * exact Hy0.
      * rewrite HG. eexists. split; [reflexivity|]. split; [reflexivity|].
        split; [exact Hy0|exact Hc].
  - cbn [orb] in Hx. destruct x as [s|s| |s m e]; try discriminate.
    cbn [SFsub].
    set (vy := f64_value (S754_finite sy my ey)) in *.
    assert (Hneg : f64_value (S754_finite (negb sy) my ey) = (0 - vy)%R).
    { unfold vy. cbn [f64_value]. rewrite sign_R_negb. ring. }
    destruct (growth_chain (negb sy) my ey sy my ey (0 - vy) vy)
      as (s' & m & e & HG & Hc).
    + rewrite Hneg. apply close_refl. lra.
    + apply close_refl. lra.
    + replace ((0 - vy) / vy)%R with (-1)%R by (field; exact Hy0).
      rewrite Rabs_left by lra.
      replace (- -1)%R with (bpow 0) by (rewrite bpow_0; lra).
      split; apply bpow_le; lia.
    + exact Hy0.
    + rewrite HG. eexists. split; [reflexivity|]. split; [reflexivity|].
      split; [exact Hy0|]. cbn [f64_value]. exact Hc.
Qed.

(** The growth the script computes is, on figures where it is defined, a
    binary64 number within [2^-50] of the exact value, relatively. *)
Lemma revenue_growth_accurate latest previous :
  growth_defined latest previous = true ->
  exists g,
    revenue_growth latest previous = NpFloat64 g
    /\ f64_is_number g = true
    /\ np_value previous <> 0%R
    /\ close (bpow (-50)) (f64_value g)
             ((np_value latest - np_value previous) / np_value previous * 100).
Proof.
  unfold revenue_growth, np_truediv.
  destruct latest as [a|a|x], previous as [b|b|y]; cbn [growth_defined];
    try discriminate; intros H.
  - apply andb_prop in H. destruct H as [H1 H2].
    apply andb_prop in H1. destruct H1 as [Ha Hb].
    apply andb_prop in H2. destruct H2 as [Hd Hz].
    cbn [np_sub to_f64 np_mul_int np_value]. rewrite (wrap64_in _ Hd).
    cbn [to_f64].
    apply negb_true_iff, Z.eqb_neq in Hz.
    unfold in_int64 in Hb, Hd.
    apply andb_prop in Hb. destruct Hb as [Hb1 Hb2].
    apply andb_prop in Hd. destruct Hd as [Hd1 Hd2].
    apply Z.leb_le in Hb1, Hd1. apply Z.ltb_lt in Hb2, Hd2.
    destruct (growth_of_integers a b ltac:(lia) ltac:(lia) Hz)
      as (g & Hg & Hn & Hc).
    exists g. rewrite Hg. split; [reflexivity|]. split; [exact Hn|].
    split; [now apply not_0_IZR|exact Hc].
  - apply andb_prop in H. destruct H as [H1 H2].
    apply andb_prop in H1. destruct H1 as [Ha Hb].
    apply andb_prop in H2. destruct H2 as [Hd Hz].
    apply negb_true_iff, Z.eqb_neq in Hz. apply Z.leb_le in Hd.
    unfold in_uint64 in Ha, Hb.
    apply andb_prop in Ha. destruct Ha as [Ha1 Ha2].
    apply andb_prop in Hb. destruct Hb as [Hb1 Hb2].
    apply Z.leb_le in Ha1, Hb1. apply Z.ltb_lt in Ha2, Hb2.
    cbn [np_sub to_f64 np_mul_int np_value].
    rewrite (wrapu64_in (a - b))
      by (unfold in_uint64; apply andb_true_intro; split;
          [apply Z.leb_le|apply Z.ltb_lt]; lia).
    cbn [to_f64].
    destruct (growth_of_integers a b ltac:(lia) ltac:(lia) Hz)
      as (g & Hg & Hn & Hc).
    exists g. rewrite Hg. split; [reflexivity|]. split; [exact Hn|].
    split; [now apply not_0_IZR|exact Hc].
  - apply andb_prop in H. destruct H as [Hx Hy].
    cbn [np_sub to_f64 np_mul_int np_value].
    destruct (growth_of_floats x y Hx Hy) as (g & Hg & Hn & Hy0 & Hc).
    exists g. rewrite Hg. auto.
Qed.



(* ------------------------------------------------------------------ *)
(** ** The growth figure in the prompt *)



(** The same on values every spreadsheet program can store ([2^62] is a
    binary64 number): a fall from [-2^62] to [2^62], exactly -200 percent,
    is shown as 200.00. *)
Example growth_wraps_on_powers_of_two :
  snd (normalize Sample.plain
         (Sample.workbook_of (map CInt [1; - 2 ^ 62; 3; 4; 5; 2 ^ 62])))
  = Ok (map NpInt64 [1; - 2 ^ 62; 3; 4; 5; 2 ^ 62])
  /\ np_format false 2 (revenue_growth (NpInt64 (2 ^ 62)) (NpInt64 (- 2 ^ 62)))
     = lit "200.00"
  /\ growth_defined (NpInt64 (2 ^ 62)) (NpInt64 (- 2 ^ 62)) = false
  /\ ((np_value (NpInt64 (2 ^ 62)) - np_value (NpInt64 (- 2 ^ 62)))
      / np_value (NpInt64 (- 2 ^ 62)) * 100 = -200)%R.
Proof.
  split; [reflexivity|]. split; [reflexivity|]. split; [reflexivity|].
  cbn [np_value]. change (- 2 ^ 62) with (-4611686018427387904).
  change (2 ^ 62) with 4611686018427387904. lra.
Qed.

(** The second way out of the range: on a row of non-negative integers
    reaching above [int64] the series is [uint64], and a fall from [2^63]
    to [5] wraps to a rise, shown as 100.00. *)
Example unsigned_growth_wraps_around :
  snd (normalize Sample.plain
         (Sample.workbook_of (map CInt [1; 2 ^ 63; 3; 4; 5; 5])))
  = Ok (map NpUInt64 [1; 2 ^ 63; 3; 4; 5; 5])
  /\ np_format false 2 (revenue_growth (NpUInt64 5) (NpUInt64 (2 ^ 63)))
     = lit "100.00"
  /\ growth_defined (NpUInt64 5) (NpUInt64 (2 ^ 63)) = false.
Proof. repeat split. Qed.

(** The third: floats at the end of the binary64 range.  With the largest
    finite value against its negative the difference overflows and the
    prompt carries -inf where the exact growth is -200. *)
Example growth_overflows :
  let big := S754_finite false 9007199254740991 971 in
  let latest := NpFloat64 big in
  let previous := NpFloat64 (S754_finite true 9007199254740991 971) in
  np_sub latest previous = NpFloat64 (S754_infinity false)
  /\ np_format false 2 (revenue_growth latest previous) = lit "-inf"
  /\ growth_defined latest previous = false
  /\ ((np_value latest - np_value previous) / np_value previous * 100
      = -200)%R.
Proof.
  cbv zeta. split; [reflexivity|]. split; [reflexivity|].
  split; [reflexivity|].
  cbn [np_value f64_value sign_R]. pose proof (bpow_pos 971). field. lra.
Qed.



(** The same bound on two float figures, 1250.5 against 1000.25. *)
Example growth_of_float_figures :
  let latest := NpFloat64 (S754_finite false 5499757162135552 (-42)) in
  let previous := NpFloat64 (S754_finite false 8798292045463552 (-43)) in
  growth_defined latest previous = true
  /\ np_format false 2 (revenue_growth latest previous) = lit "25.02"
  /\ exists g,
      revenue_growth latest previous = NpFloat64 g
      /\ close (bpow (-50)) (f64_value g)
               ((np_value latest - np_value previous) / np_value previous
                * 100).
Proof.
  cbv zeta. split; [reflexivity|]. split; [reflexivity|].
  destruct (revenue_growth_accurate
              (NpFloat64 (S754_finite false 5499757162135552 (-42)))
              (NpFloat64 (S754_finite false 8798292045463552 (-43)))
              eq_refl) as (g & Hg & _ & _ & Hc).
  now exists g.
Qed.

(** C2, as stated, fails: with a zero four places before the last value
    the run shows no error and offers the report. *)
Lemma zero_previous_run_succeeds :
  let l := on_generate Sample.plain
                       (Some (Sample.workbook_of Sample.zero_base))
                       (Some Sample.report) in
  snd (normalize Sample.plain (Sample.workbook_of Sample.zero_base))
  = Ok Sample.zero_base_series
  /\ iloc Sample.zero_base_series (-5) = Ok (NpInt64 0)
  /\ revenue_growth (NpInt64 1650) (NpInt64 0) = NpFloat64 (S754_infinity false)
  /\ np_format false 2 (revenue_growth (NpInt64 1650) (NpInt64 0)) = lit "inf"
  /\ error_shown l = false
  /\ offers_download l = true.
Proof. vm_compute. repeat split; reflexivity. Qed.

(** C2, amended.  When the value four positions before the last is exactly
    zero, no division error is raised: the growth evaluates under IEEE 754
    to NaN or to an infinity, is rendered as "nan", "inf" or "-inf", and a
    run whose spreadsheet, chart and PDF steps succeed sends the prompt
    carrying that text to the completion endpoint. *)
Theorem zero_previous_no_division_error E x pages rd img latest previous :
  snd (normalize E x) = Ok rd ->
  (5 <= List.length rd)%nat ->
  render_bar_chart E rd = Ok img ->
  nth_error rd (List.length rd - 1) = Some latest ->
  nth_error rd (List.length rd - 1 - 4) = Some previous ->
  np_is_zero previous = true ->
  (revenue_growth latest previous = NpFloat64 S754_nan
   \/ exists s, revenue_growth latest previous = NpFloat64 (S754_infinity s))
  /\ select_revenues rd = ([Enter DeriveMetrics], Ok (latest, previous))
  /\ exists growth_text before after rest,
      (growth_text = lit "nan" \/ growth_text = lit "inf"
       \/ growth_text = lit "-inf")
      /\ lib_log (on_generate E (Some x) (Some (Pdf pages)))
         = [PdReadExcel; PltBarChart rd; FitzOpen;
            ChatCompletionsCreate
              (summary_request
                 (before ++ lit "This represents a " ++ growth_text
                  ++ lit "% change." ++ after))] ++ rest.
Proof.
  intros Hn Hlen Hc Hl Hp Hz.
  pose proof (iloc_last _ _ Hl) as Hl'.
  pose proof (iloc_fifth_last _ _ Hlen Hp) as Hp'.
  split; [now apply revenue_growth_zero|].
  split; [rewrite select_revenues_run, Hl', Hp'; reflexivity|].
  destruct (pipeline_sends_prompt E x pages rd img latest previous Hn Hc Hl' Hp')
    as [rest Hrest].
  destruct (prompt_growth_field (join_pages pages) latest previous)
    as (before & after & Hprompt).
  exists (np_format false 2 (revenue_growth latest previous)), before, after, rest.
  split; [|now rewrite <- Hprompt].
  destruct (revenue_growth_zero latest previous Hz) as [H|[s H]]; rewrite H.
  - left. reflexivity.
  - right. destruct s; [right|left]; reflexivity.
Qed.

Lemma zero_previous_no_division_error_witness :
  (revenue_growth (NpInt64 1650) (NpInt64 0) = NpFloat64 S754_nan
   \/ exists s, revenue_growth (NpInt64 1650) (NpInt64 0)
                = NpFloat64 (S754_infinity s))
  /\ select_revenues Sample.zero_base_series
     = ([Enter DeriveMetrics], Ok (NpInt64 1650, NpInt64 0))
  /\ exists growth_text before after rest,
      (growth_text = lit "nan" \/ growth_text = lit "inf"
       \/ growth_text = lit "-inf")
      /\ lib_log (on_generate Sample.plain
                              (Some (Sample.workbook_of Sample.zero_base))
                              (Some (Pdf [lit "Revenue rose."])))
         = [PdReadExcel; PltBarChart Sample.zero_base_series; FitzOpen;
            ChatCompletionsCreate
              (summary_request
                 (before ++ lit "This represents a " ++ growth_text
                  ++ lit "% change." ++ after))] ++ rest.
Proof.
  apply (zero_previous_no_division_error Sample.plain
           (Sample.workbook_of Sample.zero_base) [lit "Revenue rose."]
           Sample.zero_base_series Sample.png).
  - reflexivity.
  - simpl. lia.
  - reflexivity.
  - reflexivity.
  - reflexivity.
  - reflexivity.
Defined.

(** C9.  When the last value of the series or the one four positions before
    it is NaN, the two positional reads succeed, the growth is NaN and is
    rendered as "nan", the NaN revenue figure is itself rendered as "nan", and
    a run whose spreadsheet, chart and PDF steps succeed sends the prompt
    carrying "This represents a nan% change." to the completion endpoint. *)
Theorem nan_revenue_reaches_prompt E x pages rd img latest previous :
  snd (normalize E x) = Ok rd ->
  (5 <= List.length rd)%nat ->
  render_bar_chart E rd = Ok img ->
  nth_error rd (List.length rd - 1) = Some latest ->
  nth_error rd (List.length rd - 1 - 4) = Some previous ->
  np_is_nan latest = true \/ np_is_nan previous = true ->
  select_revenues rd = ([Enter DeriveMetrics], Ok (latest, previous))
  /\ revenue_growth latest previous = NpFloat64 S754_nan
  /\ (np_format true 0 latest = lit "nan"
      \/ np_format true 0 previous = lit "nan")
  /\ exists before after rest,
      lib_log (on_generate E (Some x) (Some (Pdf pages)))
      = [PdReadExcel; PltBarChart rd; FitzOpen;
         ChatCompletionsCreate
           (summary_request
              (before ++ lit "This represents a " ++ lit "nan"
               ++ lit "% change." ++ after))] ++ rest.
Proof.
  intros Hn Hlen Hc Hl Hp Hnan.
  pose proof (iloc_last _ _ Hl) as Hl'.
  pose proof (iloc_fifth_last _ _ Hlen Hp) as Hp'.
  pose proof (revenue_growth_nan latest previous Hnan) as Hg.
  split; [rewrite select_revenues_run, Hl', Hp'; reflexivity|].
  split; [exact Hg|].
  split.
  { destruct Hnan as [H|H]; apply np_is_nan_inv in H; subst;
      [left|right]; reflexivity. }
  destruct (pipeline_sends_prompt E x pages rd img latest previous Hn Hc Hl' Hp')
    as [rest Hrest].
  destruct (prompt_growth_field (join_pages pages) latest previous)
    as (before & after & Hprompt).
  exists before, after, rest.
  rewrite Hrest, Hprompt, Hg. reflexivity.
Qed.

Lemma nan_revenue_reaches_prompt_witness :
  select_revenues Sample.unparsed_series
  = ([Enter DeriveMetrics], Ok (NpFloat64 (f64_of_Z 1650), NpFloat64 f64_nan))
  /\ revenue_growth (NpFloat64 (f64_of_Z 1650)) (NpFloat64 f64_nan)
     = NpFloat64 S754_nan
  /\ (np_format true 0 (NpFloat64 (f64_of_Z 1650)) = lit "nan"
      \/ np_format true 0 (NpFloat64 f64_nan) = lit "nan")
  /\ exists before after rest,
      lib_log (on_generate Sample.plain
                           (Some (Sample.workbook_of Sample.unparsed))
                           (Some (Pdf [lit "Revenue rose."])))
      = [PdReadExcel; PltBarChart Sample.unparsed_series; FitzOpen;
         ChatCompletionsCreate
           (summary_request
              (before ++ lit "This represents a " ++ lit "nan"
               ++ lit "% change." ++ after))] ++ rest.
Proof.
  apply (nan_revenue_reaches_prompt Sample.plain
           (Sample.workbook_of Sample.unparsed) [lit "Revenue rose."]
           Sample.unparsed_series Sample.png).
  - reflexivity.
  - simpl. lia.
  - reflexivity.
  - reflexivity.
  - reflexivity.
  - right. reflexivity.
Defined.

(* ------------------------------------------------------------------ *)
(** ** Fewer than five periods *)

(** C3, as stated, fails: on a four-period series the chart is drawn and
    the PDF text extracted before the index error is raised. *)
Lemma short_series_renders_chart :
  snd (normalize Sample.plain (Sample.workbook_of Sample.four_quarters))
  = Ok Sample.four_quarters_series
  /\ List.length Sample.four_quarters_series = 4%nat
  /\ on_generate Sample.plain
                 (Some (Sample.workbook_of Sample.four_quarters))
                 (Some Sample.report)
     = [Enter Intake;
        Ui (StWrite "Checkpoint 4: OpenAI client initialized successfully.");
        Enter Normalize;
        Ui (StWrite "Checkpoint 5: Loading and cleaning Excel file.");
        Lib PdReadExcel;
        Ui (StWrite "Checkpoint 5.2: Excel sheet cleaned successfully.");
        Ui (StWrite "Checkpoint 5.5: Revenue data prepared.");
        Enter RenderChart;
        Ui (StWrite "Checkpoint 6: Generating chart.");
        Lib (PltBarChart Sample.four_quarters_series);
        Ui (StWrite "Checkpoint 6.1: Chart saved to memory.");
        Enter ExtractText;
        Ui (StWrite "Checkpoint 7: Extracting text from PDF.");
        Lib FitzOpen;
        Ui (StWrite "Checkpoint 7.1: PDF text extracted.");
        Enter DeriveMetrics;
        Ui (StErrorOccurred IndexError);
        Ui (StException IndexError)]
  /\ chart_called
       (on_generate Sample.plain
                    (Some (Sample.workbook_of Sample.four_quarters))
                    (Some Sample.report)) = true.
Proof. repeat split; reflexivity. Qed.

(** C3, amended.  When the revenue series has fewer than five periods the
    run never calls the completion endpoint and offers no report; when the
    chart and PDF steps succeed, it fails with an index error at the
    positional reads, after the chart has been drawn and the PDF text
    extracted. *)
Theorem short_series_index_error E x p rd :
  snd (normalize E x) = Ok rd ->
  (List.length rd < 5)%nat ->
  completion_called (on_generate E (Some x) (Some p)) = false
  /\ offers_download (on_generate E (Some x) (Some p)) = false
  /\ forall img pages,
      render_bar_chart E rd = Ok img ->
      p = Pdf pages ->
      stage_log (on_generate E (Some x) (Some p))
      = [Intake; Normalize; RenderChart; ExtractText; DeriveMetrics]
      /\ lib_log (on_generate E (Some x) (Some p))
         = [PdReadExcel; PltBarChart rd; FitzOpen]
      /\ exists before,
          on_generate E (Some x) (Some p)
          = before ++ [Ui (StErrorOccurred IndexError); Ui (StException IndexError)].
Proof.
  intros Hn Hlen.
  unfold on_generate, pipeline.
  destruct (normalize_cases E x) as [[rd' H]|[[e H]|[e H]]];
    rewrite H in Hn |- *; simpl in Hn; try discriminate.
  injection Hn as ->.
  unfold st_write, emit.
  rewrite bind_ok; cbv beta. rewrite bind_ok; cbv beta.
  rewrite render_chart_run.
  destruct (render_bar_chart E rd) as [img|e].
  - rewrite bind_ok; cbv beta.
    destruct p as [|pages].
    + cbn. split; [reflexivity|split; [reflexivity|]].
      intros img' pages' _ Hp. discriminate.
    + rewrite extract_text_run. rewrite bind_ok; cbv beta.
      rewrite select_revenues_run.
      rewrite (iloc_short rd Hlen).
      assert (Hsel : (match iloc rd (-1) with
                      | Ok _ => ([Enter DeriveMetrics], Err IndexError)
                      | Err e => ([Enter DeriveMetrics], Err e)
                      end : M (npscalar * npscalar))
                     = ([Enter DeriveMetrics], Err IndexError)).
      { destruct (iloc_total rd (-1)) as [[a Ha]|Ha]; now rewrite Ha. }
      rewrite Hsel. cbn.
      split; [reflexivity|split; [reflexivity|]].
      intros img' pages' _ _.
      split; [reflexivity|split; [reflexivity|]].
      eexists (_ :: _ :: _ :: _ :: _ :: _ :: _ :: _ :: _ :: _
                 :: _ :: _ :: _ :: _ :: _ :: [_]).
      reflexivity.
  - cbn. split; [reflexivity|split; [reflexivity|]].
    intros img pages Hi. discriminate.
Qed.

Lemma short_series_index_error_witness :
  completion_called
    (on_generate Sample.plain (Some (Sample.workbook_of Sample.four_quarters))
                 (Some Sample.report)) = false
  /\ offers_download
       (on_generate Sample.plain (Some (Sample.workbook_of Sample.four_quarters))
                    (Some Sample.report)) = false
  /\ stage_log
       (on_generate Sample.plain (Some (Sample.workbook_of Sample.four_quarters))
                    (Some Sample.report))
     = [Intake; Normalize; RenderChart; ExtractText; DeriveMetrics]
  /\ lib_log
       (on_generate Sample.plain (Some (Sample.workbook_of Sample.four_quarters))
                    (Some Sample.report))
     = [PdReadExcel; PltBarChart Sample.four_quarters_series; FitzOpen]
  /\ exists before,
      on_generate Sample.plain (Some (Sample.workbook_of Sample.four_quarters))
                  (Some Sample.report)
      = before ++ [Ui (StErrorOccurred IndexError); Ui (StException IndexError)].
Proof.
  assert (Hlen : (List.length Sample.four_quarters_series < 5)%nat)
    by (simpl; lia).
  destruct (short_series_index_error Sample.plain
              (Sample.workbook_of Sample.four_quarters) Sample.report
              Sample.four_quarters_series eq_refl Hlen) as (Hc & Hd & Hrun).
  destruct (Hrun Sample.png [lit "Revenue rose. "; lit "Outlook stable."]
                 eq_refl eq_refl) as (Hs & Hl & Hb).
  repeat split; assumption.
Defined.

(* ------------------------------------------------------------------ *)
(** ** The order of the stages *)

(** C4, as stated, fails: in a successful run the two revenue figures are
    read after the chart is drawn and the PDF text extracted, not before. *)
Lemma metrics_follow_chart :
  let l := on_generate Sample.plain
                       (Some (Sample.workbook_of Sample.growing))
                       (Some Sample.report) in
  offers_download l = true
  /\ stage_log l
     <> [Intake; Normalize; DeriveMetrics; RenderChart; ExtractText;
         GenerateNarrative; AssembleReport; Ready]
  /\ ~ happens_before DeriveMetrics RenderChart (stage_log l)
  /\ happens_before RenderChart DeriveMetrics (stage_log l).
Proof.
  cbv zeta.
  assert (Hs : stage_log (on_generate Sample.plain
                            (Some (Sample.workbook_of Sample.growing))
                            (Some Sample.report))
               = [Intake; Normalize; RenderChart; ExtractText;
                  DeriveMetrics; GenerateNarrative; AssembleReport; Ready])
    by reflexivity.
  rewrite Hs. split; [reflexivity|].
  split; [discriminate|].
  unfold happens_before; simpl.
  split; [intros H; apply Nat.ltb_lt in H; discriminate
         |apply Nat.ltb_lt; reflexivity].
Qed.

(** C4, amended.  On every successful run the stages are entered in the
    order Intake, Normalize, RenderChart, ExtractText, DeriveMetrics,
    GenerateNarrative, AssembleReport, Ready; in particular the chart is
    drawn before the PDF text is extracted, and both come before the
    revenue figures are read. *)
Theorem successful_run_stage_order E excel_file pdf_file :
  offers_download (on_generate E excel_file pdf_file) = true ->
  stage_log (on_generate E excel_file pdf_file)
  = [Intake; Normalize; RenderChart; ExtractText;
     DeriveMetrics; GenerateNarrative; AssembleReport; Ready]
  /\ happens_before RenderChart ExtractText
                    (stage_log (on_generate E excel_file pdf_file))
  /\ happens_before ExtractText DeriveMetrics
                    (stage_log (on_generate E excel_file pdf_file)).
Proof.
  intros Hd.
  assert (Hs : stage_log (on_generate E excel_file pdf_file)
               = [Intake; Normalize; RenderChart; ExtractText;
                  DeriveMetrics; GenerateNarrative; AssembleReport; Ready]).
  { revert Hd. unfold on_generate.
    destruct excel_file as [x|]; [|discriminate].
    destruct pdf_file as [p|]; [|discriminate].
    unfold pipeline.
    destruct (normalize_cases E x) as [[rd H]|[[e H]|[e H]]]; rewrite H;
      [|discriminate|discriminate].
    cbn.
    destruct (render_bar_chart E rd) as [img|e]; [|discriminate].
    cbn.
    destruct p as [|pages]; [discriminate|].
    cbn.
    destruct (iloc rd (-1)) as [latest|e]; [|discriminate].
    cbn.
    destruct (iloc rd (-5)) as [previous|e]; [|discriminate].
    cbn.
    destruct (chat_completion E _) as [choices|e]; [|discriminate].
    cbn. unfold first_choice.
    destruct (iloc choices 0) as [summary|e]; [|discriminate].
    cbn. unfold add_font.
    destruct (font_file_exists E "DejaVuSans.ttf").
    - cbn. destruct (font_file_exists E "DejaVuSans-Bold.ttf").
      + cbn. reflexivity.
      + cbn. rewrite title_latin1. cbn.
        destruct (latin1 summary); [reflexivity|discriminate].
    - cbn. rewrite title_latin1. cbn.
      destruct (latin1 summary); [reflexivity|discriminate]. }
  rewrite Hs. unfold happens_before; simpl.
  repeat split; apply Nat.ltb_lt; reflexivity.
Qed.

Lemma successful_run_stage_order_witness :
  stage_log (on_generate Sample.plain
                         (Some (Sample.workbook_of Sample.growing))
                         (Some Sample.report))
  = [Intake; Normalize; RenderChart; ExtractText;
     DeriveMetrics; GenerateNarrative; AssembleReport; Ready]
  /\ happens_before RenderChart ExtractText
       (stage_log (on_generate Sample.plain
                               (Some (Sample.workbook_of Sample.growing))
                               (Some Sample.report)))
  /\ happens_before ExtractText DeriveMetrics
       (stage_log (on_generate Sample.plain
                               (Some (Sample.workbook_of Sample.growing))
                               (Some Sample.report))).
Proof.
  apply (successful_run_stage_order Sample.plain
           (Some (Sample.workbook_of Sample.growing)) (Some Sample.report)).
  reflexivity.
Defined.

(* ------------------------------------------------------------------ *)
(** ** Missing uploads *)

(** C5.  When one or both uploads are absent the press of the button
    enters no stage past Intake, calls no library and shows exactly one
    thing: the missing-input error. *)
Theorem missing_upload_only_reports E excel_file pdf_file :
  excel_file = None \/ pdf_file = None ->
  on_generate E excel_file pdf_file
  = [Enter Intake; Ui (StError missing_files_message)]
  /\ ui_log (on_generate E excel_file pdf_file)
     = [StError "Please make sure both files are uploaded before generating the report."]
  /\ lib_log (on_generate E excel_file pdf_file) = []
  /\ stage_log (on_generate E excel_file pdf_file) = [Intake].
Proof.
  intros [-> | ->].
  - repeat split.
  - destruct excel_file; repeat split.
Qed.

Lemma missing_upload_only_reports_witness :
  on_generate Sample.plain (Some (Sample.workbook_of Sample.growing)) None
  = [Enter Intake; Ui (StError missing_files_message)]
  /\ ui_log (on_generate Sample.plain
                         (Some (Sample.workbook_of Sample.growing)) None)
     = [StError "Please make sure both files are uploaded before generating the report."]
  /\ lib_log (on_generate Sample.plain
                          (Some (Sample.workbook_of Sample.growing)) None) = []
  /\ stage_log (on_generate Sample.plain
                            (Some (Sample.workbook_of Sample.growing)) None)
     = [Intake].
Proof.
  apply (missing_upload_only_reports Sample.plain
           (Some (Sample.workbook_of Sample.growing)) None).
  right. reflexivity.
Defined.

(* ------------------------------------------------------------------ *)
(** ** The request to the completion endpoint *)



(* ------------------------------------------------------------------ *)
(** ** The slice of the document text *)

Lemma join_pages_from (acc : pystr) (doc : list pystr) :
  fold_left (fun text_content page => text_content ++ page) doc acc
  = acc ++ List.concat doc.
Proof.
  revert acc. induction doc as [|page doc IH]; intros acc; simpl.
  - now rewrite app_nil_r.
  - rewrite IH. now rewrite app_assoc.
Qed.

Lemma join_pages_concat doc : join_pages doc = List.concat doc.
Proof. unfold join_pages. now rewrite join_pages_from. Qed.

(** C10.  For every list of page texts, the text embedded in the prompt is
    defined: it is the whole concatenated text when that has at most 4000
    characters (the empty text included) and its first 4000 characters
    otherwise; it is always a prefix of the text and is the last thing in
    the prompt before the closing newline. *)
Theorem prompt_text_slice_total (doc : list pystr) latest previous :
  let text := join_pages doc in
  let embedded := slice_to prompt_text_limit text in
  text = List.concat doc
  /\ embedded
     = (if (List.length text <=? 4000)%nat then text else firstn 4000 text)
  /\ List.length embedded = Nat.min (List.length text) 4000
  /\ (exists rest, text = embedded ++ rest)
  /\ (exists head, build_prompt text latest previous
                                (revenue_growth latest previous)
                   = head ++ embedded ++ newline)
  /\ slice_to prompt_text_limit (join_pages []) = [].
Proof.
  cbv zeta. unfold slice_to, prompt_text_limit.
  split; [apply join_pages_concat|].
  split.
  { destruct (List.length (join_pages doc) <=? 4000)%nat eqn:Hlen.
    - apply firstn_all2. now apply Nat.leb_le.
    - reflexivity. }
  split; [rewrite length_firstn; apply Nat.min_comm|].
  split; [exists (skipn 4000 (join_pages doc)); now rewrite firstn_skipn|].
  split; [|reflexivity].
  unfold build_prompt, slice_to, prompt_text_limit.
  exists (prompt_intro ++ np_format true 0 latest ++ prompt_previous
          ++ np_format true 0 previous ++ prompt_growth
          ++ np_format false 2 (revenue_growth latest previous)
          ++ lit "% change." ++ newline ++ newline ++ prompt_alert ++ newline
          ++ prompt_task).
  rewrite <- !app_assoc. reflexivity.
Qed.

(* ------------------------------------------------------------------ *)
(** ** The font fallback *)

(** C8, as stated, fails: with both font files absent and a narrative
    holding a character outside Latin-1 the warning is shown, the built-in
    font refuses the text, and no report is offered. *)
Lemma fallback_font_rejects_curly_quote :
  let E := Sample.env_with false Sample.curly in
  let l := on_generate E (Some (Sample.workbook_of Sample.growing))
                       (Some Sample.report) in
  font_file_exists E "DejaVuSans.ttf" = false
  /\ font_file_exists E "DejaVuSans-Bold.ttf" = false
  /\ ui_log (fst (assemble_report E Sample.curly Sample.png))
     = [StWrite "Checkpoint 8: Generating PDF report..."; StError font_warning]
  /\ snd (assemble_report E Sample.curly Sample.png) = Err UnicodeEncodingError
  /\ In (Ui (StError font_warning)) l
  /\ In (Ui (StErrorOccurred UnicodeEncodingError)) l
  /\ offers_download l = false.
Proof.
  cbv zeta.
  split; [reflexivity|]. split; [reflexivity|]. split; [reflexivity|].
  split; [reflexivity|].
  split; [vm_compute; tauto|]. split; [vm_compute; tauto|]. reflexivity.
Qed.

(** C8, amended.  When a font file is absent (both, in particular), then
    for every narrative the assembler catches the missing-file error, shows
    the warning and takes the built-in Arial: the error does not leave the
    assembler, and title and narrative are set in Arial.  When the
    narrative encodes to Latin-1 the assembly succeeds and the download
    button carries a non-empty byte stream, which starts with the PDF
    marker; when it does not, Arial refuses the narrative and the assembly
    ends, after the warning, with the encoding error. *)
Theorem fallback_font_report E summary img :
  font_file_exists E "DejaVuSans.ttf" = false
  \/ font_file_exists E "DejaVuSans-Bold.ttf" = false ->
  (exists pdf0,
      snd (choose_font E FPDF) = Ok (pdf0, "Arial"%string)
      /\ items pdf0 = []
      /\ ui_log (fst (choose_font E FPDF)) = [StError font_warning])
  /\ ui_log (fst (assemble_report E summary img))
     = [StWrite "Checkpoint 8: Generating PDF report..."; StError font_warning]
       ++ (if latin1 summary
           then [StWrite "Checkpoint 9: PDF report finished."] else [])
  /\ snd (assemble_report E summary img) <> Err FileNotFoundError
  /\ (latin1 summary = false ->
      snd (assemble_report E summary img) = Err UnicodeEncodingError)
  /\ (latin1 summary = true ->
      exists pdf,
        snd (assemble_report E summary img) = Ok pdf
        /\ items pdf
           = [Cell {| family := "Arial"; style := Bold; size := 16 |}
                   (lit "SICOM Financial Analysis");
              MultiCell {| family := "Arial"; style := Regular; size := 11 |}
                        summary;
              Ln 10;
              Image img 10 190]
        /\ ui_log (fst (deliver E pdf))
           = [StSuccess "--- Report finished successfully! ---";
              StBalloons;
              StDownloadButton "Download SICOM_Report.pdf" (output E pdf)
                               "SICOM_Report.pdf" "application/pdf"]
        /\ output E pdf <> []
        /\ firstn 5 (output E pdf) = pdf_magic).
Proof.
  intros Hfont.
  unfold assemble_report, choose_font, add_font.
  destruct (font_file_exists E "DejaVuSans.ttf") eqn:Hr.
  - destruct Hfont as [Hf|Hb]; [discriminate|]. rewrite Hb.
    cbn. rewrite title_latin1. cbn.
    destruct (latin1 summary) eqn:Hlatin; cbn.
    + split; [eexists; repeat split|].
      split; [reflexivity|]. split; [discriminate|].
      split; [discriminate|]. intros _.
      eexists. repeat split. discriminate.
    + split; [eexists; repeat split|].
      split; [reflexivity|]. split; [discriminate|].
      split; [reflexivity|]. discriminate.
  - cbn. rewrite title_latin1. cbn.
    destruct (latin1 summary) eqn:Hlatin; cbn.
    + split; [eexists; repeat split|].
      split; [reflexivity|]. split; [discriminate|].
      split; [discriminate|]. intros _.
      eexists. repeat split. discriminate.
    + split; [eexists; repeat split|].
      split; [reflexivity|]. split; [discriminate|].
      split; [reflexivity|]. discriminate.
Qed.

Lemma fallback_font_report_witness :
  let E := Sample.env_with false (lit "Revenue grew.") in
  (exists pdf0,
      snd (choose_font E FPDF) = Ok (pdf0, "Arial"%string)
      /\ items pdf0 = []
      /\ ui_log (fst (choose_font E FPDF)) = [StError font_warning])
  /\ ui_log (fst (assemble_report E Sample.curly Sample.png))
     = [StWrite "Checkpoint 8: Generating PDF report..."; StError font_warning]
       ++ (if latin1 Sample.curly
           then [StWrite "Checkpoint 9: PDF report finished."] else [])
  /\ snd (assemble_report E Sample.curly Sample.png) <> Err FileNotFoundError
  /\ (latin1 Sample.curly = false ->
      snd (assemble_report E Sample.curly Sample.png)
      = Err UnicodeEncodingError)
  /\ (latin1 Sample.curly = true ->
      exists pdf,
        snd (assemble_report E Sample.curly Sample.png) = Ok pdf
        /\ items pdf
           = [Cell {| family := "Arial"; style := Bold; size := 16 |}
                   (lit "SICOM Financial Analysis");
              MultiCell {| family := "Arial"; style := Regular; size := 11 |}
                        Sample.curly;
              Ln 10;
              Image Sample.png 10 190]
        /\ ui_log (fst (deliver E pdf))
           = [StSuccess "--- Report finished successfully! ---";
              StBalloons;
              StDownloadButton "Download SICOM_Report.pdf" (output E pdf)
                               "SICOM_Report.pdf" "application/pdf"]
        /\ output E pdf <> []
        /\ firstn 5 (output E pdf) = pdf_magic).
Proof.
  cbv zeta.
  apply (fallback_font_report (Sample.env_with false (lit "Revenue grew."))
           Sample.curly Sample.png).
  left. reflexivity.
Defined.

(** The same report with a narrative in Latin-1: assembled in Arial and
    offered for download. *)
Example fallback_font_plain_narrative :
  let E := Sample.env_with false (lit "Revenue grew.") in
  let l := on_generate E (Some (Sample.workbook_of Sample.growing))
                       (Some Sample.report) in
  latin1 (lit "Revenue grew.") = true
  /\ warning_shown l = true
  /\ error_shown l = false
  /\ offers_download l = true
  /\ exists pdf,
      snd (assemble_report E (lit "Revenue grew.") Sample.png) = Ok pdf
      /\ items pdf = report_items "Arial" (lit "Revenue grew.") Sample.png.
Proof.
  cbv zeta. repeat split. eexists. split; reflexivity.
Qed.

(* ------------------------------------------------------------------ *)
(** ** The spreadsheet normaliser *)

Section Normalizer.

Variable E : env.

Lemma filter_map_comm {A B} (p : B -> bool) (f : A -> B) l :
  filter p (map f l) = map f (filter (fun a => p (f a)) l).
Proof.
  induction l as [|a l IH]; simpl; [reflexivity|].
  destruct (p (f a)); simpl; now rewrite IH.
Qed.

Lemma existsb_map_comm {A B} (p : B -> bool) (f : A -> B) l :
  existsb p (map f l) = existsb (fun a => p (f a)) l.
Proof.
  induction l as [|a l IH]; simpl; [reflexivity|]. now rewrite IH.
Qed.

Lemma existsb_false_filter {A} (p : A -> bool) l :
  existsb p l = false -> filter p l = [].
Proof.
  induction l as [|a l IH]; simpl; [reflexivity|].
  destruct (p a); simpl; [discriminate|exact IH].
Qed.

Lemma revenue_not_subheader c :
  label_is revenue_label c = true -> label_is subheader_label c = false.
Proof.
  destruct c as [z|x|s|]; simpl; try discriminate.
  unfold pystr_eqb.
  destruct (list_eq_dec N.eq_dec s revenue_label) as [->|]; [|discriminate].
  intros _. reflexivity.
Qed.

Lemma filter_revenue_after_drop data :
  filter is_revenue (filter (fun r => negb (is_subheader r)) data)
  = filter is_revenue data.
Proof.
  induction data as [|r data IH]; simpl; [reflexivity|].
  destruct (is_revenue r) eqn:Hr.
  - assert (Hs : is_subheader r = false)
      by (apply revenue_not_subheader; exact Hr).
    rewrite Hs. simpl. rewrite Hr. now rewrite IH.
  - destruct (is_subheader r); simpl; [exact IH|].
    rewrite Hr. exact IH.
Qed.

Lemma skipn_succ_tl {A} n (l : list A) : skipn (S n) l = tl (skipn n l).
Proof.
  revert l. induction n as [|n IH]; intros [|a l]; try reflexivity.
  simpl skipn at 2. rewrite <- IH. reflexivity.
Qed.

(** What a successful [load_and_clean] returns. *)
Lemma load_and_clean_ok wb df :
  load_and_clean E (Xlsx wb) = Ok df ->
  exists sh kinds,
    find_sheet sheet_name wb = Some sh
    /\ existsb is_subheader (skipn 4 sh) = true
    /\ rows df
       = map (cleaned E kinds)
             (filter (fun r => negb (is_subheader r)) (skipn 4 sh)).
Proof.
  unfold load_and_clean, read_excel.
  destruct (find_sheet sheet_name wb) as [sh|]; [|discriminate].
  intros H. exists sh.
  rewrite (skipn_succ_tl 3 sh).
  destruct sh as [|r0 sh0]; [discriminate|].
  destruct (skipn 3 (r0 :: sh0)) as [|header data]; [discriminate|].
  exists (column_dtypes E header data). split; [reflexivity|].
  cbn [tl].
  unfold drop_first_column in H. cbn [columns rows dtypes] in H.
  destruct (tl header) as [|c cols]; [discriminate|].
  unfold drop_row in H. cbn [columns rows dtypes tl] in H.
  rewrite map_map in H. cbn [fst snd] in H.
  rewrite existsb_map_comm in H. cbn [fst] in H.
  change (existsb _ data) with (existsb is_subheader data) in H.
  destruct (existsb is_subheader data); [|discriminate].
  injection H as <-. cbn [rows tl].
  split; [reflexivity|].
  rewrite filter_map_comm. reflexivity.
Qed.

Lemma load_and_clean_shape wb t0 t1 t2 header data :
  find_sheet sheet_name wb = Some (t0 :: t1 :: t2 :: header :: data) ->
  (2 <= List.length header)%nat ->
  existsb is_subheader data = true ->
  load_and_clean E (Xlsx wb)
  = Ok {| columns := tl (tl header);
          dtypes := tl (column_dtypes E header data);
          rows := map (cleaned E (column_dtypes E header data))
                      (filter (fun r => negb (is_subheader r)) data) |}.
Proof.
  intros Hs Hh Hsub.
  unfold load_and_clean, read_excel. rewrite Hs. cbn [skipn].
  destruct header as [|h0 [|h1 hs]]; simpl in Hh; try lia.
  unfold drop_first_column. cbn [columns rows dtypes tl].
  unfold drop_row. cbn [columns rows dtypes].
  rewrite map_map. cbn [fst snd].
  rewrite existsb_map_comm. cbn [fst].
  change (existsb _ data) with (existsb is_subheader data).
  rewrite Hsub. rewrite filter_map_comm. reflexivity.
Qed.

Lemma normalize_result x :
  snd (normalize E x)
  = match load_and_clean E x with
    | Err e => Err e
    | Ok df =>
        match loc revenue_label df with
        | Err e => Err e
        | Ok row => to_numeric E row
        end
    end.
Proof.
  unfold normalize.
  destruct (load_and_clean E x) as [df|e]; [|reflexivity].
  cbn -[loc to_numeric].
  destruct (loc revenue_label df) as [row|e]; [|reflexivity].
  cbn -[to_numeric].
  now destruct (to_numeric E row).
Qed.

(** A series converts element by element, under one dtype. *)
Lemma to_numeric_series dt cells :
  exists dt',
    to_numeric E (LocSeries dt cells)
    = Ok (map (fun c => cast dt' (or_nan (coerce_cell E c))) cells).
Proof.
  destruct dt; cbn [to_numeric].
  - now exists Int64.
  - now exists UInt64.
  - now exists Float64.
  - exists (numeric_dtype (map (coerce_cell E) cells)).
    unfold to_numeric, to_numeric_cells. cbv zeta. now rewrite map_map.
Qed.

Lemma store_row_length kinds cells :
  List.length (store_row E kinds cells) = List.length cells.
Proof.
  revert kinds. induction cells as [|c cells IH]; intros kinds; [reflexivity|].
  destruct kinds; simpl; now rewrite IH.
Qed.

Lemma store_row_nth kinds cells i c :
  nth_error cells i = Some c ->
  exists k, nth_error (store_row E kinds cells) i = Some (store E k c).
Proof.
  revert kinds i. induction cells as [|c0 cells IH]; intros kinds i Hc.
  - destruct i; discriminate.
  - destruct i as [|i].
    + injection Hc as ->.
      destruct kinds as [|k ks]; [exists Object|exists k]; reflexivity.
    + destruct kinds as [|k ks]; cbn [store_row nth_error]; apply IH; exact Hc.
Qed.

Lemma nth_error_tl {A} (l : list A) i : nth_error (tl l) i = nth_error l (S i).
Proof. destruct l; [now destruct i|reflexivity]. Qed.

Lemma number_of_Z_cases z :
  number_of_Z z = NpInt64 z \/ number_of_Z z = NpUInt64 z
  \/ number_of_Z z = NpFloat64 (f64_of_Z z).
Proof.
  unfold number_of_Z. destruct (in_int64 z); [auto|].
  destruct (in_uint64 z); auto.
Qed.

Lemma to_f64_number_of_Z z : to_f64 (number_of_Z z) = f64_of_Z z.
Proof. now destruct (number_of_Z_cases z) as [H|[H|H]]; rewrite H. Qed.

Lemma cast_number_of_Z dt z :
  cast dt (number_of_Z z) = NpInt64 z \/ cast dt (number_of_Z z) = NpUInt64 z
  \/ cast dt (number_of_Z z) = NpFloat64 (f64_of_Z z).
Proof.
  destruct dt; cbn [cast]; rewrite ?to_f64_number_of_Z; auto;
    destruct (number_of_Z_cases z) as [H|[H|H]]; rewrite H; auto.
Qed.

Lemma store_number_of_Z k c z :
  coerce_cell E c = Some (number_of_Z z) ->
  sanitize c = c ->
  coerce_cell E (store E k c) = Some (number_of_Z z)
  \/ coerce_cell E (store E k c) = Some (NpFloat64 (f64_of_Z z)).
Proof.
  intros Hc Hs. destruct k; cbn [store]; rewrite Hs, Hc.
  - left. destruct (number_of_Z_cases z) as [H|[H|H]]; rewrite H at 1;
      [reflexivity|reflexivity|exact Hc].
  - left. destruct (number_of_Z_cases z) as [H|[H|H]]; rewrite H at 1;
      [reflexivity|reflexivity|exact Hc].
  - right. cbn [or_nan coerce_cell]. now rewrite to_f64_number_of_Z.
  - now left.
Qed.

Lemma integer_value k dt c z :
  coerce_cell E c = Some (number_of_Z z) ->
  sanitize c = c ->
  let v := cast dt (or_nan (coerce_cell E (store E k c))) in
  v = NpInt64 z \/ v = NpUInt64 z \/ v = NpFloat64 (f64_of_Z z).
Proof.
  intros Hc Hs. cbv zeta.
  destruct (store_number_of_Z k c z Hc Hs) as [H|H]; rewrite H; cbn [or_nan].
  - apply cast_number_of_Z.
  - right. right. now destruct dt.
Qed.

Lemma float_value k dt c x :
  coerce_cell E c = Some (NpFloat64 x) ->
  sanitize c = c ->
  cast dt (or_nan (coerce_cell E (store E k c))) = NpFloat64 x.
Proof.
  intros Hc Hs.
  assert (H : coerce_cell E (store E k c) = Some (NpFloat64 x))
    by (destruct k; cbn [store]; rewrite Hs, Hc; reflexivity || exact Hc).
  rewrite H. now destruct dt.
Qed.

Lemma failed_value k dt c :
  coerce_cell E c = None ->
  sanitize c = c ->
  cast dt (or_nan (coerce_cell E (store E k c))) = NpFloat64 f64_nan.
Proof.
  intros Hc Hs.
  assert (H : or_nan (coerce_cell E (store E k c)) = NpFloat64 f64_nan)
    by (destruct k; cbn [store]; rewrite Hs, Hc; reflexivity || now rewrite Hc).
  rewrite H. now destruct dt.
Qed.

(** The value a sheet cell ends as, whatever the dtype of its column and of
    the series. *)
Lemma stored_cell_value k dt c :
  let v := cast dt (or_nan (coerce_cell E (store E k c))) in
  match c with
  | CInt z => v = NpInt64 z \/ v = NpUInt64 z \/ v = NpFloat64 (f64_of_Z z)
  | CFloat x => v = NpFloat64 x
  | CBlank => v = NpFloat64 f64_nan
  | CText s =>
      if is_na s then v = NpFloat64 f64_nan
      else match str_to_number E s with
           | None => v = NpFloat64 f64_nan
           | Some (NpFloat64 x) => v = NpFloat64 x
           | Some (NpInt64 z) | Some (NpUInt64 z) =>
               v = NpInt64 z \/ v = NpUInt64 z \/ v = NpFloat64 (f64_of_Z z)
           end
  end.
Proof.
  cbv zeta. destruct c as [z|x|s|].
  - now apply integer_value.
  - now apply float_value.
  - destruct (is_na s) eqn:Hna.
    + assert (H : forall k, coerce_cell E (store E k (CText s))
                            = Some (NpFloat64 f64_nan))
        by (intros []; cbn [store sanitize]; rewrite Hna; reflexivity).
      rewrite H. now destruct dt.
    + assert (Hs : sanitize (CText s) = CText s)
        by (cbn [sanitize]; now rewrite Hna).
      destruct (str_to_number E s) as [[z|z|x]|] eqn:Hp.
      * apply integer_value; [cbn [coerce_cell]; now rewrite Hp | exact Hs].
      * apply integer_value; [cbn [coerce_cell]; now rewrite Hp | exact Hs].
      * apply float_value; [cbn [coerce_cell]; now rewrite Hp | exact Hs].
      * apply failed_value; [cbn [coerce_cell]; now rewrite Hp | exact Hs].
  - now apply float_value.
Qed.

(** C7.  On a workbook whose "Income Statement" sheet has three rows
    above the header row, a header of at least the label column and one
    data column, a row labelled "3 Months Ending" and exactly one row
    labelled "Net Revenue", the cleaned frame keeps the header without its
    first two entries and the data rows without the "3 Months Ending" rows,
    each without its first data column, and the normaliser returns the
    "Net Revenue" row cell by cell as numbers: an integer cell as that
    integer ([int64] or [uint64]) or the [float64] nearest to it, a float
    cell as that float, an empty cell and an NA text as NaN, any other text
    as the number pandas parses from it and as NaN when it parses to none
    (a failing cell is replaced by NaN).  When the sheet is absent, or no
    row is labelled "3 Months Ending", or no row is labelled "Net Revenue",
    the normaliser raises. *)
Theorem normalizer_contract wb :
  (forall t0 t1 t2 header data row,
      find_sheet sheet_name wb = Some (t0 :: t1 :: t2 :: header :: data) ->
      (2 <= List.length header)%nat ->
      existsb is_subheader data = true ->
      filter is_revenue data = [row] ->
      (exists df,
          load_and_clean E (Xlsx wb) = Ok df
          /\ columns df = tl (tl header)
          /\ map fst (rows df)
             = map (hd CBlank) (filter (fun r => negb (is_subheader r)) data)
          /\ map (fun r => List.length (snd r)) (rows df)
             = map (fun r => List.length (tl (tl r)))
                   (filter (fun r => negb (is_subheader r)) data))
      /\ exists rd,
          normalize E (Xlsx wb) = (normalize_log_done, Ok rd)
          /\ List.length rd = List.length (tl (tl row))
          /\ forall i c,
              nth_error (tl (tl row)) i = Some c ->
              exists v,
                nth_error rd i = Some v
                /\ match c with
                   | CInt z =>
                       v = NpInt64 z \/ v = NpUInt64 z
                       \/ v = NpFloat64 (f64_of_Z z)
                   | CFloat x => v = NpFloat64 x
                   | CBlank => v = NpFloat64 f64_nan
                   | CText s =>
                       if is_na s then v = NpFloat64 f64_nan
                       else match str_to_number E s with
                            | None => v = NpFloat64 f64_nan
                            | Some (NpFloat64 x) => v = NpFloat64 x
                            | Some (NpInt64 z) | Some (NpUInt64 z) =>
                                v = NpInt64 z \/ v = NpUInt64 z
                                \/ v = NpFloat64 (f64_of_Z z)
                            end
                   end)
  /\ (find_sheet sheet_name wb = None ->
      normalize E (Xlsx wb) = (normalize_log_load, Err ValueError))
  /\ (forall sh,
         find_sheet sheet_name wb = Some sh ->
         existsb is_subheader (skipn 4 sh) = false ->
         exists e, normalize E (Xlsx wb) = (normalize_log_load, Err e))
  /\ (forall sh,
         find_sheet sheet_name wb = Some sh ->
         existsb is_revenue (skipn 4 sh) = false ->
         exists e, snd (normalize E (Xlsx wb)) = Err e).
Proof.
  split; [|split; [|split]].
  - intros t0 t1 t2 header data row Hs Hh Hsub Hrev.
    pose proof (load_and_clean_shape wb t0 t1 t2 header data Hs Hh Hsub) as Hl.
    set (kinds := column_dtypes E header data) in *.
    split.
    { eexists. split; [exact Hl|]. cbn [columns rows].
      split; [reflexivity|].
      rewrite !map_map. cbn [cleaned fst snd].
      split; [reflexivity|].
      apply map_ext. intros r.
      destruct (tl r) as [|c0 cs]; [now destruct kinds|].
      destruct kinds as [|k ks]; cbn [store_row tl];
        now rewrite store_row_length. }
    destruct (to_numeric_series (common_dtype (tl kinds))
                (snd (cleaned E kinds row))) as [dt' Hnum].
    assert (Hloc : loc revenue_label
                     {| columns := tl (tl header);
                        dtypes := tl kinds;
                        rows := map (cleaned E kinds)
                                  (filter (fun r => negb (is_subheader r)) data) |}
                   = Ok (LocSeries (common_dtype (tl kinds))
                                   (snd (cleaned E kinds row)))).
    { unfold loc. cbn [rows dtypes].
      rewrite filter_map_comm.
      change (filter _ (filter ?q data))
        with (filter is_revenue (filter q data)).
      rewrite filter_revenue_after_drop, Hrev. reflexivity. }
    exists (map (fun c => cast dt' (or_nan (coerce_cell E c)))
                (snd (cleaned E kinds row))).
    split; [|split].
    + assert (Hsnd : snd (normalize E (Xlsx wb))
                     = Ok (map (fun c => cast dt' (or_nan (coerce_cell E c)))
                               (snd (cleaned E kinds row))))
        by (rewrite normalize_result, Hl, Hloc; exact Hnum).
      destruct (normalize_cases E (Xlsx wb)) as [[rd' H]|[[e H]|[e H]]];
        rewrite H in Hsnd |- *; cbn [snd] in Hsnd; try discriminate.
      now injection Hsnd as ->.
    + rewrite length_map. cbn [cleaned snd].
      destruct (tl row) as [|c0 cs]; [now destruct kinds|].
      destruct kinds as [|k ks]; cbn [store_row tl];
        now rewrite store_row_length.
    + intros i c Hc. cbn [cleaned snd].
      rewrite nth_error_tl in Hc.
      destruct (store_row_nth kinds (tl row) (S i) c Hc) as [k Hk].
      exists (cast dt' (or_nan (coerce_cell E (store E k c)))).
      split.
      * rewrite <- nth_error_tl in Hk.
        exact (map_nth_error (fun c => cast dt' (or_nan (coerce_cell E c)))
                             i _ Hk).
      * exact (stored_cell_value k dt' c).
  - intros Hs. unfold normalize, load_and_clean, read_excel. now rewrite Hs.
  - intros sh Hs Hsub. unfold normalize.
    destruct (load_and_clean E (Xlsx wb)) as [df|e] eqn:Hl;
      [|now exists e].
    destruct (load_and_clean_ok wb df Hl) as (sh' & kinds & Hs' & Hsub' & _).
    rewrite Hs in Hs'. injection Hs' as <-.
    rewrite Hsub in Hsub'. discriminate.
  - intros sh Hs Hrev. rewrite normalize_result.
    destruct (load_and_clean E (Xlsx wb)) as [df|e] eqn:Hl; [|now exists e].
    destruct (load_and_clean_ok wb df Hl) as (sh' & kinds & Hs' & _ & Hrows).
    rewrite Hs in Hs'. injection Hs' as <-.
    exists KeyError. unfold loc. rewrite Hrows.
    rewrite filter_map_comm.
    change (filter _ (filter ?q (skipn 4 sh)))
      with (filter is_revenue (filter q (skipn 4 sh))).
    rewrite filter_revenue_after_drop.
    rewrite (existsb_false_filter is_revenue _ Hrev). reflexivity.
Qed.

End Normalizer.

Lemma normalizer_contract_witness :
  ((exists df,
       load_and_clean Sample.plain (Xlsx Sample.mixed) = Ok df
       /\ columns df = tl (tl Sample.mixed_header)
       /\ map fst (rows df)
          = map (hd CBlank)
                (filter (fun r => negb (is_subheader r))
                        [Sample.mixed_subheader; Sample.mixed_row])
       /\ map (fun r => List.length (snd r)) (rows df)
          = map (fun r => List.length (tl (tl r)))
                (filter (fun r => negb (is_subheader r))
                        [Sample.mixed_subheader; Sample.mixed_row]))
   /\ exists rd,
       normalize Sample.plain (Xlsx Sample.mixed) = (normalize_log_done, Ok rd)
       /\ List.length rd = List.length (tl (tl Sample.mixed_row))
       /\ forall i c,
           nth_error (tl (tl Sample.mixed_row)) i = Some c ->
           exists v,
             nth_error rd i = Some v
             /\ match c with
                | CInt z =>
                    v = NpInt64 z \/ v = NpUInt64 z
                    \/ v = NpFloat64 (f64_of_Z z)
                | CFloat x => v = NpFloat64 x
                | CBlank => v = NpFloat64 f64_nan
                | CText s =>
                    if is_na s then v = NpFloat64 f64_nan
                    else match str_to_number Sample.plain s with
                         | None => v = NpFloat64 f64_nan
                         | Some (NpFloat64 x) => v = NpFloat64 x
                         | Some (NpInt64 z) | Some (NpUInt64 z) =>
                             v = NpInt64 z \/ v = NpUInt64 z
                             \/ v = NpFloat64 (f64_of_Z z)
                         end
                end)
  /\ normalize Sample.plain (Xlsx Sample.other_sheet)
     = (normalize_log_load, Err ValueError)
  /\ (exists e, normalize Sample.plain (Xlsx Sample.no_subheader)
                = (normalize_log_load, Err e))
  /\ (exists e, snd (normalize Sample.plain (Xlsx Sample.no_revenue)) = Err e).
Proof.
  split; [|split; [|split]].
  - apply (proj1 (normalizer_contract Sample.plain Sample.mixed)
             [CText (lit "CIM Financials")] [] []
             Sample.mixed_header
             [Sample.mixed_subheader; Sample.mixed_row]
             Sample.mixed_row).
    + reflexivity.
    + simpl. lia.
    + reflexivity.
    + reflexivity.
  - apply (proj1 (proj2 (normalizer_contract Sample.plain Sample.other_sheet))).
    reflexivity.
  - apply (proj1 (proj2 (proj2 (normalizer_contract Sample.plain
                                  Sample.no_subheader)))
             (Sample.title_rows ++ [Sample.header_row; Sample.revenue_row])).
    + reflexivity.
    + reflexivity.
  - apply (proj2 (proj2 (proj2 (normalizer_contract Sample.plain
                                  Sample.no_revenue)))
             (Sample.title_rows ++ [Sample.header_row; Sample.subheader_row])).
    + reflexivity.
    + reflexivity.
Defined.

(** The normaliser on known rows.  A mixed row comes out as [float64]: the
    integer as the float of the same value, the float as it is, the empty
    cell, the NA text and the text that is no number as NaN. *)
Example normalize_mixed_row :
  snd (normalize Sample.plain (Xlsx Sample.mixed))
  = Ok [NpFloat64 (f64_of_Z 1200);
        NpFloat64 (S754_finite false 5499757162135552 (-42));
        NpFloat64 f64_nan; NpFloat64 f64_nan; NpFloat64 f64_nan].
Proof. reflexivity. Qed.

(** Integers under text sub-headers stay [int64]. *)
Example normalize_integer_row :
  snd (normalize Sample.plain (Sample.workbook_of Sample.growing))
  = Ok (map NpInt64 [1000; 1100; 1200; 1300; 1400; 1650]).
Proof. reflexivity. Qed.

(** Integers sharing their columns with empty cells have become floats by
    the time the row is taken. *)
Example normalize_blank_subheader :
  snd (normalize Sample.plain (Xlsx Sample.blank_subheader))
  = Ok [NpFloat64 (f64_of_Z 1200); NpFloat64 (f64_of_Z 1300)].
Proof. reflexivity. Qed.

(** Non-negative integers reaching above [int64] make a [uint64] series. *)
Example normalize_huge_row :
  snd (normalize Sample.plain (Sample.workbook_of Sample.huge))
  = Ok (map NpUInt64 [5; 2 ^ 63; 7]).
Proof. reflexivity. Qed.


(* ------------------------------------------------------------------ *)
(** ** Every way a run can go *)

Lemma iloc_last_inv {A} (s : list A) a :
  iloc s (-1) = Ok a -> nth_error s (List.length s - 1) = Some a.
Proof.
  unfold iloc. replace (-1 <? 0) with true by reflexivity.
  destruct (andb _ _) eqn:Hb; [|discriminate].
  apply andb_prop in Hb. destruct Hb as [H0 _]. apply Z.leb_le in H0.
  replace (Z.to_nat (Z.of_nat (List.length s) + -1))
    with (List.length s - 1)%nat by lia.
  destruct (nth_error s (List.length s - 1)); [|discriminate].
  now intros [= ->].
Qed.

Lemma iloc_fifth_last_inv {A} (s : list A) a :
  iloc s (-5) = Ok a ->
  (5 <= List.length s)%nat /\ nth_error s (List.length s - 1 - 4) = Some a.
Proof.
  unfold iloc. replace (-5 <? 0) with true by reflexivity.
  destruct (andb _ _) eqn:Hb; [|discriminate].
  apply andb_prop in Hb. destruct Hb as [H0 _]. apply Z.leb_le in H0.
  replace (Z.to_nat (Z.of_nat (List.length s) + -5))
    with (List.length s - 1 - 4)%nat by lia.
  destruct (nth_error s (List.length s - 1 - 4)); [|discriminate].
  intros [= ->]. split; [lia|reflexivity].
Qed.

(** Symbolic execution of [on_generate] on two uploaded files: one goal per
    point where the run can stop, with the outcome of every step before it
    among the hypotheses. *)
Ltac walk E x p :=
  try unfold on_generate; unfold pipeline;
  destruct (normalize_cases E x) as [[rd Hnorm]|[[e Hnorm]|[e Hnorm]]];
  rewrite Hnorm; cbn;
  [ destruct (render_bar_chart E rd) as [img|e] eqn:Hchart; cbn;
    [ destruct p as [|pages]; cbn;
      [ | destruct (iloc rd (-1)) as [latest|e] eqn:Hlast; cbn;
          [ destruct (iloc rd (-5)) as [previous|e] eqn:Hprev; cbn;
            [ destruct (chat_completion E _) as [choices|e] eqn:Hchat; cbn;
              [ unfold first_choice;
                destruct (iloc choices 0) as [summary|e] eqn:Hchoice; cbn;
                [ unfold add_font;
                  destruct (font_file_exists E "DejaVuSans.ttf") eqn:Hreg; cbn;
                  [ destruct (font_file_exists E "DejaVuSans-Bold.ttf") eqn:Hbold;
                    cbn;
                    [ | rewrite title_latin1; cbn;
                        destruct (latin1 summary) eqn:Hlatin; cbn ]
                  | rewrite title_latin1; cbn;
                    destruct (latin1 summary) eqn:Hlatin; cbn ]
                | ]
              | ]
            | ]
          | ]
      ]
    | ]
  | | ].

Lemma ui_log_app l1 l2 : ui_log (l1 ++ l2) = ui_log l1 ++ ui_log l2.
Proof. apply flat_map_app. Qed.

Ltac only_font_warning H :=
  cbn in H;
  repeat (destruct H as [H|H];
          [first [discriminate H | injection H as <-; reflexivity]|]);
  contradiction H.

Lemma pipeline_ui E x p :
  let l := fst (pipeline E x p) in
  (forall msg, In (Ui (StError msg)) l -> msg = font_warning)
  /\ error_shown l = false
  /\ exception_shown l = false
  /\ match snd (pipeline E x p) with
     | Ok _ =>
         offers_download l = true
         /\ success_shown l = true
         /\ warning_shown l
            = negb (andb (font_file_exists E "DejaVuSans.ttf")
                         (font_file_exists E "DejaVuSans-Bold.ttf"))
     | Err _ =>
         offers_download l = false
         /\ success_shown l = false
     end.
Proof.
  cbv zeta.
  walk E x p; rewrite ?Hreg, ?Hbold;
    (split; [intros msg Hin; only_font_warning Hin | repeat split]).
Qed.

(** X2.  A run on two uploaded files ends in exactly one of two ways.
    Either it shows the success banner and the download button, and then
    neither the handler's error box ("An error occurred: ...") nor a
    traceback; or it ends with the caught error, shown by the handler's
    [st.error] and then by [st.exception], and then shows neither the banner
    nor the button, and no handler's box or traceback before those two.  In
    both the only other [st.error] a run can show is the font warning, and a
    successful run shows it exactly when a font file is missing. *)
Theorem run_succeeds_or_reports E x p :
  let l := on_generate E (Some x) (Some p) in
  (forall msg, In (Ui (StError msg)) l -> msg = font_warning)
  /\ ((offers_download l = true
       /\ success_shown l = true
       /\ error_shown l = false
       /\ exception_shown l = false
       /\ warning_shown l
          = negb (andb (font_file_exists E "DejaVuSans.ttf")
                       (font_file_exists E "DejaVuSans-Bold.ttf")))
      \/ (exists e before,
             l = before ++ [Ui (StErrorOccurred e); Ui (StException e)]
             /\ offers_download l = false
             /\ success_shown l = false
             /\ error_shown before = false
             /\ exception_shown before = false)).
Proof.
  cbv zeta. unfold on_generate.
  pose proof (pipeline_ui E x p) as H. cbv zeta in H.
  destruct (pipeline E x p) as [l0 [u|e]]; cbn [fst snd handle] in *;
    destruct H as (Hmsg & He & Hx & H).
  - split.
    + intros msg [Hin|Hin]; [discriminate Hin|now apply Hmsg].
    + left. destruct H as (Hd & Hs & Hw). repeat split; assumption.
  - split.
    + intros msg [Hin|Hin]; [discriminate Hin|].
      apply in_app_or in Hin. destruct Hin as [Hin|Hin]; [now apply Hmsg|].
      only_font_warning Hin.
    + right. destruct H as (Hd & Hs).
      exists e, (Enter Intake :: l0).
      split; [reflexivity|].
      unfold offers_download, success_shown, error_shown, exception_shown in *.
      cbn [ui_log flat_map app].
      change (flat_map _ ?l) with (ui_log l).
      rewrite ui_log_app, !existsb_app, Hd, Hs.
      repeat split; assumption.
Qed.

(** X4.  The completion endpoint is called at most once per press of the button,
    and only when both files are uploaded, the spreadsheet normalises to a
    series of at least five values, the chart is drawn and the PDF is
    readable. *)
Theorem completion_needs_all_inputs E excel_file pdf_file :
  (completion_count (on_generate E excel_file pdf_file) <= 1)%nat
  /\ (completion_called (on_generate E excel_file pdf_file) = true ->
      exists x pages rd img latest previous,
        excel_file = Some x
        /\ pdf_file = Some (Pdf pages)
        /\ snd (normalize E x) = Ok rd
        /\ (5 <= List.length rd)%nat
        /\ render_bar_chart E rd = Ok img
        /\ nth_error rd (List.length rd - 1) = Some latest
        /\ nth_error rd (List.length rd - 1 - 4) = Some previous
        /\ completion_count (on_generate E excel_file pdf_file) = 1%nat).
Proof.
  destruct excel_file as [x|];
    [|split; [apply Nat.leb_le; reflexivity | discriminate]].
  destruct pdf_file as [p|];
    [|split; [apply Nat.leb_le; reflexivity | discriminate]].
  assert (Hsame : forall y q, on_generate E (Some y) (Some q)
                              = Enter Intake :: handle (pipeline E y q))
    by reflexivity.
  rewrite Hsame. clear Hsame.
  walk E x p;
    (split; [apply Nat.leb_le; reflexivity|]);
    first [ discriminate
          | intros _;
            exists x, pages, rd, img, latest, previous;
            rewrite Hnorm;
            destruct (iloc_fifth_last_inv _ _ Hprev) as [Hlen Hfifth];
            pose proof (iloc_last_inv _ _ Hlast) as Hend;
            repeat split; assumption ].
Qed.

(** X7.  What a successful run delivers.  The narrative in the document is the
    first choice the completion endpoint returned for the prompt of this
    run, word for word; the image is the one the chart step produced; title
    and narrative are set in DejaVu when both font files are there and in
    Arial otherwise; and the last thing shown is the download button
    carrying the bytes of that document under the name SICOM_Report.pdf. *)
Theorem delivered_document E x p :
  offers_download (on_generate E (Some x) (Some p)) = true ->
  exists pages rd img latest previous choices summary pdf,
    p = Pdf pages
    /\ snd (normalize E x) = Ok rd
    /\ render_bar_chart E rd = Ok img
    /\ iloc rd (-1) = Ok latest
    /\ iloc rd (-5) = Ok previous
    /\ chat_completion E
         (summary_request
            (build_prompt (join_pages pages) latest previous
                          (revenue_growth latest previous)))
       = Ok choices
    /\ first_choice choices = Ok summary
    /\ items pdf = report_items (report_family E) summary img
    /\ forall d,
        last (ui_log (on_generate E (Some x) (Some p))) d = report_button E pdf.
Proof.
  assert (Hsame : forall y q, on_generate E (Some y) (Some q)
                              = Enter Intake :: handle (pipeline E y q))
    by reflexivity.
  rewrite Hsame. clear Hsame. unfold report_family.
  walk E x p; try discriminate;
    intros _; exists pages, rd, img, latest, previous, choices, summary;
    match goal with
    | |- context [output E ?doc] => exists doc
    end;
    repeat split; assumption.
Qed.

(** X5.  A failure in an early step ends the run there, with that step's error
    shown last: a spreadsheet the normaliser rejects costs no chart, a chart
    that cannot be drawn leaves the PDF unopened, and an unreadable PDF is
    found only after the chart is drawn; none of them reaches the completion
    endpoint. *)
Theorem early_failure_stops_run E x p :
  let l := on_generate E (Some x) (Some p) in
  (forall err,
      snd (normalize E x) = Err err ->
      lib_log l = [PdReadExcel]
      /\ stage_log l = [Intake; Normalize]
      /\ forall d, last l d = Ui (StException err)
                   /\ last (removelast l) d = Ui (StErrorOccurred err))
  /\ (forall series err,
         snd (normalize E x) = Ok series ->
         render_bar_chart E series = Err err ->
         lib_log l = [PdReadExcel; PltBarChart series]
         /\ stage_log l = [Intake; Normalize; RenderChart]
         /\ forall d, last l d = Ui (StException err)
                      /\ last (removelast l) d = Ui (StErrorOccurred err))
  /\ (forall series chart,
         snd (normalize E x) = Ok series ->
         render_bar_chart E series = Ok chart ->
         p = BadPdf ->
         lib_log l = [PdReadExcel; PltBarChart series; FitzOpen]
         /\ stage_log l = [Intake; Normalize; RenderChart; ExtractText]
         /\ forall d, last l d = Ui (StException (LibraryError "fitz"))
                      /\ last (removelast l) d
                         = Ui (StErrorOccurred (LibraryError "fitz"))).
Proof.
  cbv zeta.
  assert (Hsame : forall y q, on_generate E (Some y) (Some q)
                              = Enter Intake :: handle (pipeline E y q))
    by reflexivity.
  rewrite Hsame. clear Hsame.
  split; [|split].
  - walk E x p; intros err Herr; try discriminate Herr;
      injection Herr as <-; repeat split.
  - walk E x p; intros series err Hs Hc; try discriminate Hs;
      injection Hs as <-; rewrite Hchart in Hc; try discriminate Hc;
      injection Hc as <-; repeat split.
  - walk E x p; intros series chart Hs Hc Hp; try discriminate Hs;
      try discriminate Hp;
      injection Hs as <-; rewrite Hchart in Hc; try discriminate Hc;
      repeat split.
Qed.

(** X8.  With both font files in place the report is set in DejaVu and takes any
    narrative, whatever its characters, without a warning. *)
Theorem unicode_fonts_take_any_narrative E summary img :
  font_file_exists E "DejaVuSans.ttf" = true ->
  font_file_exists E "DejaVuSans-Bold.ttf" = true ->
  exists pdf,
    snd (assemble_report E summary img) = Ok pdf
    /\ items pdf = report_items "DejaVu" summary img
    /\ ttf_fonts pdf = [("DejaVu"%string, Regular); ("DejaVu"%string, Bold)]
    /\ warning_shown (fst (assemble_report E summary img)) = false
    /\ lib_log (fst (assemble_report E summary img))
       = [FpdfAddFont "DejaVuSans.ttf"; FpdfAddFont "DejaVuSans-Bold.ttf"].
Proof.
  intros Hr Hb.
  unfold assemble_report, choose_font, add_font. rewrite Hr. cbn.
  rewrite Hb. cbn. eexists. repeat split.
Qed.

(** X9.  The two positional reads in closed form: they succeed exactly when the
    series has at least five values, then return its last value and the one
    four places before it, and raise [IndexError] otherwise. *)
Theorem select_revenues_closed_form (rd : list npscalar) (d : npscalar) :
  select_revenues rd
  = ([Enter DeriveMetrics],
     if (5 <=? List.length rd)%nat
     then Ok (nth (List.length rd - 1) rd d, nth (List.length rd - 1 - 4) rd d)
     else Err IndexError).
Proof.
  rewrite select_revenues_run.
  destruct (5 <=? List.length rd)%nat eqn:Hlen.
  - apply Nat.leb_le in Hlen.
    rewrite (iloc_last rd (nth (List.length rd - 1) rd d))
      by (apply nth_error_nth'; lia).
    rewrite (iloc_fifth_last rd (nth (List.length rd - 1 - 4) rd d) Hlen)
      by (apply nth_error_nth'; lia).
    reflexivity.
  - apply Nat.leb_gt in Hlen. rewrite (iloc_short rd) by lia.
    destruct (iloc_total rd (-1)) as [[a Ha]|Ha]; now rewrite Ha.
Qed.

(** X10.  A sheet with more than one row labelled "Net Revenue" is refused:
    [loc] then returns a frame, on which [to_numeric] raises [TypeError]. *)
Theorem repeated_revenue_row_is_refused E wb t0 t1 t2 header data :
  find_sheet sheet_name wb = Some (t0 :: t1 :: t2 :: header :: data) ->
  (2 <= List.length header)%nat ->
  existsb is_subheader data = true ->
  (2 <= List.length (filter is_revenue data))%nat ->
  snd (normalize E (Xlsx wb)) = Err TypeError.
Proof.
  intros Hs Hh Hsub Hrev.
  rewrite normalize_result.
  rewrite (load_and_clean_shape E wb t0 t1 t2 header data Hs Hh Hsub).
  unfold loc. cbn [rows].
  rewrite filter_map_comm.
  change (filter _ (filter ?q data)) with (filter is_revenue (filter q data)).
  rewrite filter_revenue_after_drop.
  destruct (filter is_revenue data) as [|r1 [|r2 rest]]; simpl in Hrev;
    [lia|lia|reflexivity].
Qed.

(* ------------------------------------------------------------------ *)
(** ** The document text beyond the limit *)

Lemma generate_summary_reads_slice E text1 text2 latest previous :
  firstn 4000 text1 = firstn 4000 text2 ->
  generate_summary E text1 latest previous
  = generate_summary E text2 latest previous.
Proof.
  intros H. unfold generate_summary, build_prompt, slice_to, prompt_text_limit.
  rewrite H. reflexivity.
Qed.

(** X12.  Two PDFs whose texts agree on their first 4000 characters give the same
    run, event for event: what lies beyond the limit, and where the page
    breaks fall, reaches neither the request nor the report. *)
Theorem text_beyond_limit_is_ignored E excel_file pages1 pages2 :
  firstn 4000 (List.concat pages1) = firstn 4000 (List.concat pages2) ->
  on_generate E excel_file (Some (Pdf pages1))
  = on_generate E excel_file (Some (Pdf pages2)).
Proof.
  intros H. rewrite <- !join_pages_concat in H.
  destruct excel_file as [x|]; [|reflexivity].
  unfold on_generate. do 2 f_equal.
  unfold pipeline, st_write, emit.
  rewrite !bind_ok. cbv beta.
  destruct (normalize E x) as [ln [rd|e]]; [|reflexivity].
  rewrite !bind_ok. cbv beta.
  destruct (render_chart E rd) as [lc [img|e]]; [|reflexivity].
  rewrite !bind_ok. cbv beta.
  rewrite !extract_text_run, !bind_ok. cbv beta.
  destruct (select_revenues rd) as [ls [revs|e]]; [|reflexivity].
  rewrite !bind_ok. cbv beta.
  rewrite (generate_summary_reads_slice E _ _ (fst revs) (snd revs) H).
  reflexivity.
Qed.

(* ------------------------------------------------------------------ *)
(** ** Thousands separators *)

Lemma filter_keeps_all {A} (p : A -> bool) l :
  forallb p l = true -> filter p l = l.
Proof.
  induction l as [|a l IH]; simpl; [reflexivity|].
  destruct (p a); simpl; [|discriminate].
  intros H. now rewrite IH.
Qed.

Lemma filter_rev_comm {A} (p : A -> bool) l :
  filter p (rev l) = rev (filter p l).
Proof.
  induction l as [|a l IH]; simpl; [reflexivity|].
  rewrite filter_app, IH. simpl.
  destruct (p a); simpl; [reflexivity|now rewrite app_nil_r].
Qed.

Lemma forallb_rev_keeps {A} (p : A -> bool) l :
  forallb p l = true -> forallb p (rev l) = true.
Proof.
  rewrite !forallb_forall. intros H a Ha. apply H. now apply in_rev.
Qed.

Lemma forallb_firstn_keeps {A} (p : A -> bool) k l :
  forallb p l = true -> forallb p (firstn k l) = true.
Proof.
  revert l. induction k as [|k IH]; intros [|a l]; simpl; try reflexivity.
  destruct (p a); simpl; [apply IH|discriminate].
Qed.

Lemma forallb_skipn_keeps {A} (p : A -> bool) k l :
  forallb p l = true -> forallb p (skipn k l) = true.
Proof.
  revert l. induction k as [|k IH]; intros [|a l]; simpl; try reflexivity.
  - exact (fun H => H).
  - destruct (p a); simpl; [apply IH|discriminate].
Qed.

Lemma uint_chars_no_comma u : forallb not_comma (uint_chars u) = true.
Proof. induction u; simpl; auto. Qed.

Lemma padded_digits_no_comma n z :
  forallb not_comma (pad_zeros n (digits_of_Z z)) = true.
Proof.
  unfold pad_zeros, digits_of_Z. rewrite forallb_app. apply andb_true_intro.
  split; [|apply uint_chars_no_comma].
  induction (n - List.length (uint_chars (N.to_uint (Z.to_N z))))%nat;
    simpl; auto.
Qed.

Lemma strip_commas_rev_grouped i ds :
  forallb not_comma ds = true -> strip_commas (commas_rev i ds) = ds.
Proof.
  unfold strip_commas.
  revert i. induction ds as [|c ds IH]; intros i; [reflexivity|].
  cbn [forallb commas_rev].
  destruct (not_comma c) eqn:Hc; [|discriminate].
  cbn [andb]. intros H.
  destruct (andb (Nat.ltb 0 i) (Nat.eqb (i mod 3) 0)); cbn [filter].
  - replace (not_comma comma_char) with false by reflexivity.
    rewrite Hc. now rewrite IH.
  - rewrite Hc. now rewrite IH.
Qed.

Lemma strip_commas_grouped ds :
  forallb not_comma ds = true -> strip_commas (group_thousands ds) = ds.
Proof.
  intros H. unfold group_thousands, strip_commas.
  rewrite filter_rev_comm.
  fold (strip_commas (commas_rev 0 (rev ds))).
  rewrite strip_commas_rev_grouped by now apply forallb_rev_keeps.
  apply rev_involutive.
Qed.

Lemma strip_commas_fixed_text p z :
  strip_commas (fixed_text true p z) = fixed_text false p z.
Proof.
  unfold fixed_text, strip_commas. rewrite filter_app.
  fold (strip_commas
          (group_thousands
             (firstn (List.length (pad_zeros (S p) (digits_of_Z z)) - p)
                     (pad_zeros (S p) (digits_of_Z z))))).
  rewrite strip_commas_grouped
    by (apply forallb_firstn_keeps, padded_digits_no_comma).
  f_equal.
  destruct p as [|p]; [reflexivity|].
  rewrite filter_app. f_equal.
  apply filter_keeps_all, forallb_skipn_keeps, padded_digits_no_comma.
Qed.

(** X14.  The [,] of the format specification only inserts commas: a revenue
    rendered with [,.pf], its commas deleted, is the same revenue rendered
    with [.pf], for finite values, infinities and NaN alike. *)
Theorem thousands_separators_only_insert_commas p a :
  strip_commas (np_format true p a) = np_format false p a.
Proof.
  unfold np_format, format_f64.
  destruct (to_f64 a) as [s|s| |s m e]; unfold strip_commas;
    rewrite ?filter_app;
    try (destruct s; reflexivity); try reflexivity.
  - fold (strip_commas (fixed_text true p 0)).
    rewrite strip_commas_fixed_text. now destruct s.
  - fold (strip_commas (fixed_text true p (scaled_digits p m e))).
    rewrite strip_commas_fixed_text. now destruct s.
Qed.

(* ------------------------------------------------------------------ *)
(** ** The page *)



(** X13.  The prompt grows with the document by at most 4000 characters: its
    length is that of the prompt for an empty document plus the length of
    the text, capped at 4000. *)
Theorem prompt_length_is_capped text latest previous growth :
  List.length (build_prompt text latest previous growth)
  = (List.length (build_prompt [] latest previous growth)
     + Nat.min (List.length text) 4000)%nat.
Proof.
  unfold build_prompt, slice_to, prompt_text_limit.
  rewrite !length_app, length_firstn.
  replace (List.length (firstn 4000 (@nil codepoint))) with 0%nat
    by reflexivity.
  rewrite (Nat.min_comm 4000).
  generalize (Nat.min (List.length text) 4000). intros m. lia.
Qed.

(** X6.  When the completion endpoint fails, or answers with no choice, the run
    stops there: the request is the last library call, nothing is
    assembled, and the error shown is the endpoint's own (an [IndexError]
    for the empty answer). *)
Theorem narrative_failure_stops_run E x pages series chart last_value base_value :
  snd (normalize E x) = Ok series ->
  render_bar_chart E series = Ok chart ->
  iloc series (-1) = Ok last_value ->
  iloc series (-5) = Ok base_value ->
  let req :=
    summary_request
      (build_prompt (join_pages pages) last_value base_value
                    (revenue_growth last_value base_value)) in
  let l := on_generate E (Some x) (Some (Pdf pages)) in
  (forall err,
      chat_completion E req = Err err ->
      lib_log l = [PdReadExcel; PltBarChart series; FitzOpen;
                   ChatCompletionsCreate req]
      /\ stage_log l = [Intake; Normalize; RenderChart; ExtractText;
                        DeriveMetrics; GenerateNarrative]
      /\ forall d, last l d = Ui (StException err)
                   /\ last (removelast l) d = Ui (StErrorOccurred err))
  /\ (chat_completion E req = Ok [] ->
      lib_log l = [PdReadExcel; PltBarChart series; FitzOpen;
                   ChatCompletionsCreate req]
      /\ stage_log l = [Intake; Normalize; RenderChart; ExtractText;
                        DeriveMetrics; GenerateNarrative]
      /\ forall d, last l d = Ui (StException IndexError)
                   /\ last (removelast l) d = Ui (StErrorOccurred IndexError)).
Proof.
  intros Hn Hc Hl Hp. cbv zeta.
  unfold on_generate, pipeline, st_write, emit.
  destruct (normalize_cases E x) as [[rd' H]|[[e H]|[e H]]];
    rewrite H in Hn |- *; simpl in Hn; try discriminate.
  injection Hn as ->.
  rewrite bind_ok; cbv beta. rewrite bind_ok; cbv beta.
  rewrite render_chart_run, Hc. rewrite bind_ok; cbv beta.
  rewrite extract_text_run. rewrite bind_ok; cbv beta.
  rewrite select_revenues_run, Hl, Hp. rewrite bind_ok; cbv beta.
  cbn [fst snd].
  rewrite generate_summary_run. cbv zeta.
  split.
  - intros err Herr. rewrite Herr. cbn. repeat split.
  - intros Hnone. rewrite Hnone.
    change (first_choice []) with (@Err pystr IndexError).
    cbn. repeat split.
Qed.

(* ------------------------------------------------------------------ *)
(** ** The theorems above on the sample inputs *)

Lemma completion_needs_all_inputs_witness :
  exists x pages rd img latest previous,
    Some (Sample.workbook_of Sample.growing) = Some x
    /\ Some Sample.report = Some (Pdf pages)
    /\ snd (normalize Sample.plain x) = Ok rd
    /\ (5 <= List.length rd)%nat
    /\ render_bar_chart Sample.plain rd = Ok img
    /\ nth_error rd (List.length rd - 1) = Some latest
    /\ nth_error rd (List.length rd - 1 - 4) = Some previous
    /\ completion_count
         (on_generate Sample.plain (Some (Sample.workbook_of Sample.growing))
                      (Some Sample.report)) = 1%nat.
Proof.
  apply (proj2 (completion_needs_all_inputs Sample.plain
                  (Some (Sample.workbook_of Sample.growing))
                  (Some Sample.report))).
  reflexivity.
Defined.

Lemma delivered_document_witness :
  exists pages rd img latest previous choices summary pdf,
    Sample.report = Pdf pages
    /\ snd (normalize Sample.plain (Sample.workbook_of Sample.growing)) = Ok rd
    /\ render_bar_chart Sample.plain rd = Ok img
    /\ iloc rd (-1) = Ok latest
    /\ iloc rd (-5) = Ok previous
    /\ chat_completion Sample.plain
         (summary_request
            (build_prompt (join_pages pages) latest previous
                          (revenue_growth latest previous)))
       = Ok choices
    /\ first_choice choices = Ok summary
    /\ items pdf = report_items (report_family Sample.plain) summary img
    /\ forall d,
        last (ui_log (on_generate Sample.plain
                                  (Some (Sample.workbook_of Sample.growing))
                                  (Some Sample.report))) d
        = report_button Sample.plain pdf.
Proof.
  apply (delivered_document Sample.plain
           (Sample.workbook_of Sample.growing) Sample.report).
  reflexivity.
Defined.

Lemma early_failure_stops_run_witness :
  (lib_log (on_generate Sample.plain (Some BadXlsx) (Some Sample.report))
   = [PdReadExcel]
   /\ stage_log (on_generate Sample.plain (Some BadXlsx) (Some Sample.report))
      = [Intake; Normalize]
   /\ forall d,
       last (on_generate Sample.plain (Some BadXlsx) (Some Sample.report)) d
       = Ui (StException ValueError)
       /\ last (removelast
                  (on_generate Sample.plain (Some BadXlsx) (Some Sample.report)))
               d
          = Ui (StErrorOccurred ValueError))
  /\ (lib_log (on_generate Cases.no_chart
                           (Some (Sample.workbook_of Sample.growing))
                           (Some Sample.report))
      = [PdReadExcel; PltBarChart Sample.growing_series]
      /\ stage_log (on_generate Cases.no_chart
                                (Some (Sample.workbook_of Sample.growing))
                                (Some Sample.report))
         = [Intake; Normalize; RenderChart]
      /\ forall d,
          last (on_generate Cases.no_chart
                            (Some (Sample.workbook_of Sample.growing))
                            (Some Sample.report)) d
          = Ui (StException (LibraryError "matplotlib"))
          /\ last (removelast
                     (on_generate Cases.no_chart
                                  (Some (Sample.workbook_of Sample.growing))
                                  (Some Sample.report))) d
             = Ui (StErrorOccurred (LibraryError "matplotlib")))
  /\ (lib_log (on_generate Sample.plain
                           (Some (Sample.workbook_of Sample.growing))
                           (Some BadPdf))
      = [PdReadExcel; PltBarChart Sample.growing_series; FitzOpen]
      /\ stage_log (on_generate Sample.plain
                                (Some (Sample.workbook_of Sample.growing))
                                (Some BadPdf))
         = [Intake; Normalize; RenderChart; ExtractText]
      /\ forall d,
          last (on_generate Sample.plain
                            (Some (Sample.workbook_of Sample.growing))
                            (Some BadPdf)) d
          = Ui (StException (LibraryError "fitz"))
          /\ last (removelast
                     (on_generate Sample.plain
                                  (Some (Sample.workbook_of Sample.growing))
                                  (Some BadPdf))) d
             = Ui (StErrorOccurred (LibraryError "fitz"))).
Proof.
  split; [|split].
  - apply (proj1 (early_failure_stops_run Sample.plain BadXlsx Sample.report)
             ValueError).
    reflexivity.
  - apply (proj1 (proj2 (early_failure_stops_run Cases.no_chart
                           (Sample.workbook_of Sample.growing) Sample.report))
             Sample.growing_series (LibraryError "matplotlib")).
    + reflexivity.
    + reflexivity.
  - apply (proj2 (proj2 (early_failure_stops_run Sample.plain
                           (Sample.workbook_of Sample.growing) BadPdf))
             Sample.growing_series Sample.png).
    + reflexivity.
    + reflexivity.
    + reflexivity.
Defined.

Lemma unicode_fonts_take_any_narrative_witness :
  exists pdf,
    snd (assemble_report Sample.plain Sample.curly Sample.png) = Ok pdf
    /\ items pdf = report_items "DejaVu" Sample.curly Sample.png
    /\ ttf_fonts pdf = [("DejaVu"%string, Regular); ("DejaVu"%string, Bold)]
    /\ warning_shown (fst (assemble_report Sample.plain Sample.curly Sample.png))
       = false
    /\ lib_log (fst (assemble_report Sample.plain Sample.curly Sample.png))
       = [FpdfAddFont "DejaVuSans.ttf"; FpdfAddFont "DejaVuSans-Bold.ttf"].
Proof.
  apply (unicode_fonts_take_any_narrative Sample.plain Sample.curly Sample.png).
  - reflexivity.
  - reflexivity.
Defined.

Lemma repeated_revenue_row_is_refused_witness :
  snd (normalize Sample.plain (Xlsx Cases.twice)) = Err TypeError.
Proof.
  apply (repeated_revenue_row_is_refused Sample.plain Cases.twice
           [CText (lit "CIM Financials"); CBlank; CBlank; CBlank]
           [CBlank; CBlank; CBlank; CBlank]
           [CBlank; CBlank; CBlank; CBlank]
           Sample.header_row
           [Sample.subheader_row; Sample.revenue_row; Sample.revenue_row]).
  - reflexivity.
  - simpl. lia.
  - reflexivity.
  - simpl. lia.
Defined.

Lemma text_beyond_limit_is_ignored_witness :
  on_generate Sample.plain (Some (Sample.workbook_of Sample.growing))
              (Some (Pdf Cases.report_a))
  = on_generate Sample.plain (Some (Sample.workbook_of Sample.growing))
                (Some (Pdf Cases.report_b)).
Proof.
  apply (text_beyond_limit_is_ignored Sample.plain
           (Some (Sample.workbook_of Sample.growing))
           Cases.report_a Cases.report_b).
  vm_compute. reflexivity.
Defined.


Lemma narrative_failure_stops_run_witness :
  (lib_log (on_generate Cases.no_service
                        (Some (Sample.workbook_of Sample.growing))
                        (Some (Pdf [lit "Revenue rose."])))
   = [PdReadExcel; PltBarChart Sample.growing_series; FitzOpen;
      ChatCompletionsCreate
        (summary_request
           (build_prompt (join_pages [lit "Revenue rose."])
                         (NpInt64 1650) (NpInt64 1100)
                         (revenue_growth (NpInt64 1650) (NpInt64 1100))))]
   /\ stage_log (on_generate Cases.no_service
                             (Some (Sample.workbook_of Sample.growing))
                             (Some (Pdf [lit "Revenue rose."])))
      = [Intake; Normalize; RenderChart; ExtractText;
         DeriveMetrics; GenerateNarrative]
   /\ forall d,
       last (on_generate Cases.no_service
                         (Some (Sample.workbook_of Sample.growing))
                         (Some (Pdf [lit "Revenue rose."]))) d
       = Ui (StException (LibraryError "openai"))
       /\ last (removelast
                  (on_generate Cases.no_service
                               (Some (Sample.workbook_of Sample.growing))
                               (Some (Pdf [lit "Revenue rose."])))) d
          = Ui (StErrorOccurred (LibraryError "openai")))
  /\ (lib_log (on_generate Cases.no_choice
                           (Some (Sample.workbook_of Sample.growing))
                           (Some (Pdf [lit "Revenue rose."])))
      = [PdReadExcel; PltBarChart Sample.growing_series; FitzOpen;
         ChatCompletionsCreate
           (summary_request
              (build_prompt (join_pages [lit "Revenue rose."])
                            (NpInt64 1650) (NpInt64 1100)
                            (revenue_growth (NpInt64 1650) (NpInt64 1100))))]
      /\ stage_log (on_generate Cases.no_choice
                                (Some (Sample.workbook_of Sample.growing))
                                (Some (Pdf [lit "Revenue rose."])))
         = [Intake; Normalize; RenderChart; ExtractText;
            DeriveMetrics; GenerateNarrative]
      /\ forall d,
          last (on_generate Cases.no_choice
                            (Some (Sample.workbook_of Sample.growing))
                            (Some (Pdf [lit "Revenue rose."]))) d
          = Ui (StException IndexError)
          /\ last (removelast
                     (on_generate Cases.no_choice
                                  (Some (Sample.workbook_of Sample.growing))
                                  (Some (Pdf [lit "Revenue rose."])))) d
             = Ui (StErrorOccurred IndexError)).
Proof.
  split.
  - apply (proj1 (narrative_failure_stops_run Cases.no_service
                    (Sample.workbook_of Sample.growing) [lit "Revenue rose."]
                    Sample.growing_series Sample.png (NpInt64 1650) (NpInt64 1100)
                    eq_refl eq_refl eq_refl eq_refl)
             (LibraryError "openai")).
    reflexivity.
  - apply (proj2 (narrative_failure_stops_run Cases.no_choice
                    (Sample.workbook_of Sample.growing) [lit "Revenue rose."]
                    Sample.growing_series Sample.png (NpInt64 1650) (NpInt64 1100)
                    eq_refl eq_refl eq_refl eq_refl)).
    reflexivity.
Defined.

(* ------------------------------------------------------------------ *)
(** ** The stages of a run that fails *)

(** X3.  Whatever the outcome of a press of the button, the stages entered are an
    initial part of Intake, Normalize, RenderChart, ExtractText,
    DeriveMetrics, GenerateNarrative, AssembleReport, Ready: a run that
    fails stops, it never skips a stage, returns to one or tries again. *)
Theorem stages_form_a_prefix E excel_file pdf_file :
  exists rest,
    [Intake; Normalize; RenderChart; ExtractText;
     DeriveMetrics; GenerateNarrative; AssembleReport; Ready]
    = stage_log (on_generate E excel_file pdf_file) ++ rest.
Proof.
  destruct excel_file as [x|]; [|eexists; reflexivity].
  destruct pdf_file as [p|]; [|eexists; reflexivity].
  assert (Hsame : forall y q, on_generate E (Some y) (Some q)
                              = Enter Intake :: handle (pipeline E y q))
    by reflexivity.
  rewrite Hsame. clear Hsame.
  walk E x p; eexists; reflexivity.
Qed.
